(** * Juice factory product mix: the PuLP notebook, embedded and verified

    The program is the notebook [Juice_Product_Mix_Optimization.ipynb].  Its
    code cells build a PuLP model from a product table (cells 5, 7 and 9),
    solve it and read the solution back into a dictionary (cell 11), then
    change the right-hand side of one constraint and solve again (cell 15).

    The embedding follows the cells.  Python dictionaries are insertion
    ordered association lists; the [LpVariable] objects, which the
    dictionary [juice_vars] and the expressions of the model share, live in
    a heap and are named by their position in it; statements that can raise
    return a [Result].  The solver behind [model.solve()] is not part of the
    notebook: it is a parameter, constrained where needed by the contract
    [solver_contract]; what PuLP itself does around the call of the solver
    (the dummy variable of a constant objective, the objective renamed, the
    names of the variables compared, the values assigned by name) is part of
    [solve].  All numbers are integers: the table of the notebook holds
    integers and every variable is declared [cat='Integer']; theorems that
    compare a computed value with an exact sum bound the magnitudes so that
    the floating point arithmetic of the notebook is exact.  Values that are
    not integers, which a solve that is not Optimal may leave in the
    variables, have no image here: where a theorem states a value, the
    status is Optimal, the value is absent, or the quantities are given. *)

From Stdlib Require Import ZArith List String Ascii Bool Lia PeanoNat.
Import ListNotations.

Local Open Scope string_scope.
Local Open Scope list_scope.
Local Open Scope Z_scope.

(** ** Python: exceptions, dictionaries, strings *)

Module Py.

Inductive Error : Type :=
| KeyError (key : string)
| TypeError (msg : string)
| AttributeError (msg : string)
| PulpError (msg : string)
| PulpSolverError.

Inductive Result (A : Type) : Type :=
| Ok (a : A)
| Raise (e : Error).

Arguments Ok {A} a.
Arguments Raise {A} e.

Definition bind {A B : Type} (c : Result A) (k : A -> Result B) : Result B :=
  match c with
  | Ok a => k a
  | Raise e => Raise e
  end.

(** A [dict] keeps its keys in insertion order; assigning to a key that is
    present replaces the value where the key stands. *)
Definition dict (V : Type) : Type := list (string * V).

Fixpoint get {V : Type} (d : dict V) (k : string) : option V :=
  match d with
  | [] => None
  | (k', v) :: d' => if String.eqb k' k then Some v else get d' k
  end.

(** [d[k]] *)
Definition getitem {V : Type} (d : dict V) (k : string) : Result V :=
  match get d k with
  | Some v => Ok v
  | None => Raise (KeyError k)
  end.

(** [d[k] = v] *)
Fixpoint setitem {V : Type} (d : dict V) (k : string) (v : V) : dict V :=
  match d with
  | [] => [(k, v)]
  | (k', v') :: d' =>
      if String.eqb k' k then (k', v) :: d' else (k', v') :: setitem d' k v
  end.

Definition keys {V : Type} (d : dict V) : list string := map fst d.
Definition values {V : Type} (d : dict V) : list V := map snd d.

(** [s.replace(old, new)] for one-character [old] and [new] *)
Fixpoint replace (s : string) (old new : ascii) : string :=
  match s with
  | EmptyString => EmptyString
  | String c s' => String (if Ascii.eqb c old then new else c) (replace s' old new)
  end.

(** A comprehension or generator whose body can raise. *)
Fixpoint mapM {A B : Type} (f : A -> Result B) (l : list A) : Result (list B) :=
  match l with
  | [] => Ok []
  | a :: l' =>
      bind (f a) (fun b => bind (mapM f l') (fun bs => Ok (b :: bs)))
  end.

End Py.

Import Py.

Declare Scope py_scope.
Notation "x <- c ;; k" := (Py.bind c (fun x => k))
  (at level 100, c at next level, right associativity) : py_scope.
Local Open Scope py_scope.

(** ** The product table *)

Record ProductRecord : Type := mkProduct {
  Product : string;
  Profit : Z;
  MachineTime : Z;
  LaborTime : Z;
  MaxUnits : Z
}.

Definition DataFrame : Type := list ProductRecord.

(** [data.index] *)
Definition index (data : DataFrame) : list string := map Product data.

(** [data.loc[p, col]].  The notebook only looks up labels taken from
    [data.index], so the label is always found; the table of the spec has
    one row per product name. *)
Definition loc (data : DataFrame) (p : string) (col : ProductRecord -> Z) : Z :=
  match find (fun r => String.eqb (Product r) p) data with
  | Some r => col r
  | None => 0
  end.

(** ** PuLP objects *)

Inductive LpCategory : Type := LpContinuous | LpInteger | LpBinary.

(** [LpElement.name = n]: PuLP keeps no empty name ([None] stands for it)
    and turns each of the characters [-+[] ->/] into an underscore. *)
Definition illegal_chars : list ascii :=
  ["-"%char; "+"%char; "["%char; "]"%char; " "%char; "-"%char; ">"%char; "/"%char].

Fixpoint translate (s : string) : string :=
  match s with
  | EmptyString => EmptyString
  | String c s' =>
      String (if existsb (Ascii.eqb c) illegal_chars then "_"%char else c) (translate s')
  end.

Definition setName (n : string) : option string :=
  match n with
  | EmptyString => None
  | String _ _ => Some (translate n)
  end.

Record LpVariable : Type := mkLpVariable {
  name : option string;
  lowBound : Z;
  upBound : Z;
  cat : LpCategory;
  varValue : option Z
}.

(** An [LpVariable] object is named by its position in the heap. *)
Definition var : Type := nat.
Definition Heap : Type := list LpVariable.

(** A linear expression: a dictionary from variables to coefficients, in
    insertion order, a constant and an optional name. *)
Record LpAffineExpression : Type := mkExpr {
  terms : list (var * Z);
  constant : Z;
  ename : option string
}.

Inductive LpConstraintSense : Type :=
  LpConstraintLE | LpConstraintEQ | LpConstraintGE.

(** [expr sense 0]; the right-hand side is minus the constant of [expr]. *)
Record LpConstraint : Type := mkConstraint {
  expr : LpAffineExpression;
  csense : LpConstraintSense
}.

Inductive LpSense : Type := LpMinimize | LpMaximize.

Inductive LpStatusCode : Type :=
| LpStatusNotSolved
| LpStatusOptimal
| LpStatusInfeasible
| LpStatusUnbounded
| LpStatusUndefined.

(** The dictionary [LpStatus] of PuLP. *)
Definition LpStatus (s : LpStatusCode) : string :=
  match s with
  | LpStatusNotSolved => "Not Solved"
  | LpStatusOptimal => "Optimal"
  | LpStatusInfeasible => "Infeasible"
  | LpStatusUnbounded => "Unbounded"
  | LpStatusUndefined => "Undefined"
  end.

Record LpProblem : Type := mkProblem {
  pname : string;
  sense : LpSense;
  objective : option LpAffineExpression;
  constraints : Py.dict LpConstraint;
  status : LpStatusCode;
  dummyVar : option var
}.

(** [LpProblem(name, sense)] *)
Definition LpProblem_new (n : string) (s : LpSense) : LpProblem :=
  {| pname := n; sense := s; objective := None; constraints := [];
     status := LpStatusNotSolved; dummyVar := None |}.

(** [LpVariable(name, lowBound, upBound, cat)]: a new object, unsolved,
    under the name that [setName] makes of [n]. *)
Definition LpVariable_new (h : Heap) (n : string) (lb ub : Z) (c : LpCategory)
  : Heap * var :=
  (h ++ [mkLpVariable (setName n) lb ub c None], List.length h).

(** [coefficient * variable]: the variable as an expression, times a number;
    multiplying by zero leaves no term. *)
Definition rmul (c : Z) (x : var) : LpAffineExpression :=
  if c =? 0 then mkExpr [] 0 None else mkExpr [(x, c * 1)] (0 * c) None.

(** [LpAffineExpression.addterm] *)
Fixpoint addterm (ts : list (var * Z)) (x : var) (k : Z) : list (var * Z) :=
  match ts with
  | [] => [(x, k)]
  | (x', y) :: ts' =>
      if Nat.eqb x' x
      then (x', if y =? 0 then k else y + k) :: ts'
      else (x', y) :: addterm ts' x k
  end.

(** [LpAffineExpression.copy]: terms and constant, without the name. *)
Definition copy (e : LpAffineExpression) : LpAffineExpression :=
  mkExpr (terms e) (constant e) None.

(** [LpAffineExpression.addInPlace] with an expression. *)
Definition addInPlace (a e : LpAffineExpression) : LpAffineExpression :=
  mkExpr (fold_left (fun ts t => addterm ts (fst t) (snd t)) (terms e) (terms a))
         (constant a + constant e) (ename a).

(** [LpAffineExpression.addInPlace] with a number. *)
Definition addInPlace_number (a : LpAffineExpression) (z : Z) : LpAffineExpression :=
  mkExpr (terms a) (constant a + z) (ename a).

(** The Python values that flow through [sum], [<=] and [model += ...]. *)
Inductive PyValue : Type :=
| PyInt (z : Z)
| PyBool (b : bool)
| PyAffine (e : LpAffineExpression)
| PyConstraint (c : LpConstraint).

(** [sum(generator)]: Python starts from the integer 0 and adds the items
    from the left; [0 + e] is [e.__radd__(0)], a copy of [e], and
    [a + e] is [a.copy().addInPlace(e)].  Without items the result is the
    integer 0 itself. *)
Definition sum (g : list LpAffineExpression) : PyValue :=
  match g with
  | [] => PyInt 0
  | e :: g' =>
      PyAffine (fold_left (fun a e' => addInPlace (copy a) e') g'
                          (addInPlace_number (copy e) 0))
  end.

(** [x <= rhs] for a number [rhs]: a plain comparison when [x] is a number,
    the constraint [x - rhs <= 0] when [x] is an expression. *)
Definition le (x : PyValue) (rhs : Z) : PyValue :=
  match x with
  | PyInt z => PyBool (z <=? rhs)
  | PyBool b => PyBool (Z.b2z b <=? rhs)
  | PyAffine e =>
      PyConstraint (mkConstraint (mkExpr (terms e) (constant e - rhs) None)
                                 LpConstraintLE)
  | PyConstraint c =>
      PyConstraint (mkConstraint (mkExpr (terms (expr c)) (constant (expr c) - rhs) None)
                                 LpConstraintLE)
  end.

Definition set_objective (m : LpProblem) (e : LpAffineExpression) : LpProblem :=
  mkProblem (pname m) (sense m) (Some e) (constraints m) (status m) (dummyVar m).

Definition clear_objective (m : LpProblem) : LpProblem :=
  mkProblem (pname m) (sense m) None (constraints m) (status m) (dummyVar m).

Definition set_constraints (m : LpProblem) (cs : Py.dict LpConstraint) : LpProblem :=
  mkProblem (pname m) (sense m) (objective m) cs (status m) (dummyVar m).

Definition set_status (m : LpProblem) (s : LpStatusCode) : LpProblem :=
  mkProblem (pname m) (sense m) (objective m) (constraints m) s (dummyVar m).

Definition set_dummyVar (m : LpProblem) (d : var) : LpProblem :=
  mkProblem (pname m) (sense m) (objective m) (constraints m) (status m) (Some d).

Definition set_name (e : LpAffineExpression) (n : string) : LpAffineExpression :=
  mkExpr (terms e) (constant e) (Some n).

(** [LpProblem.addConstraint]: a model refuses a second constraint of the
    same name. *)
Definition addConstraint (m : LpProblem) (c : LpConstraint) (n : string)
  : Result LpProblem :=
  let c' := mkConstraint (set_name (expr c) n) (csense c) in
  match Py.get (constraints m) n with
  | Some _ => Raise (PulpError "overlapping constraint names")
  | None => Ok (set_constraints m (Py.setitem (constraints m) n c'))
  end.

(** [model += other, name] *)
Definition iadd (m : LpProblem) (other : PyValue) (n : string) : Result LpProblem :=
  match other with
  | PyBool true => Ok m
  | PyBool false => Raise (TypeError "A False object cannot be passed as a constraint")
  | PyConstraint c => addConstraint m c n
  | PyAffine e => Ok (set_objective m (set_name e n))
  | PyInt z => Ok (set_objective m (mkExpr [] z (Some n)))
  end.

(** [LpConstraint.changeRHS] *)
Definition changeRHS (c : LpConstraint) (rhs : Z) : LpConstraint :=
  mkConstraint (mkExpr (terms (expr c)) (- rhs) (ename (expr c))) (csense c).

(** [x.value()] of the variable [x] *)
Definition value_var (h : Heap) (x : var) : option Z :=
  match nth_error h x with
  | Some v => varValue v
  | None => None
  end.

(** [LpAffineExpression.value]: [None] as soon as a variable has no value. *)
Definition value_expr (h : Heap) (e : LpAffineExpression) : option Z :=
  fold_left
    (fun s t => match s, value_var h (fst t) with
                | Some z, Some v => Some (z + v * snd t)
                | _, _ => None
                end)
    (terms e) (Some (constant e)).

(** [value(model.objective)] *)
Definition value (h : Heap) (o : option LpAffineExpression) : Result (option Z) :=
  match o with
  | Some e => Ok (value_expr h e)
  | None => Raise (AttributeError "'NoneType' object has no attribute 'value'")
  end.

(** ** The solver *)

(** What a solver hands back: a status and a value for some variables.  The
    values are integers, as those that a solver reports for the integer
    variables of the notebook at an optimum are. *)
Record SolverOutput : Type := mkOutput {
  out_status : LpStatusCode;
  out_values : var -> option Z
}.

Definition Solver : Type := Heap -> LpProblem -> SolverOutput.

(** The name under which PuLP treats its dummy variable. *)
Definition is_dummy (x : LpVariable) : bool :=
  match name x with
  | Some n => String.eqb n "__dummy"
  | None => false
  end.

(** [LpProblem.assignVarsVals]: the variables the solver reports on take the
    reported value, the others keep theirs; a variable named [__dummy] is
    passed over. *)
Fixpoint assignVarsVals_from (i : nat) (vals : var -> option Z) (h : Heap) : Heap :=
  match h with
  | [] => []
  | x :: h' =>
      (if is_dummy x then x
       else match vals i with
            | Some z => mkLpVariable (name x) (lowBound x) (upBound x) (cat x) (Some z)
            | None => x
            end) :: assignVarsVals_from (S i) vals h'
  end.

Definition assignVarsVals (vals : var -> option Z) (h : Heap) : Heap :=
  assignVarsVals_from 0 vals h.

Definition expr_vars (e : LpAffineExpression) : list var := map fst (terms e).

Fixpoint dedup (l : list var) : list var :=
  match l with
  | [] => []
  | x :: l' => if existsb (Nat.eqb x) l' then dedup l' else x :: dedup l'
  end.

(** [LpProblem.variables]: the variables of the objective and of the
    constraints, each once. *)
Definition variables (m : LpProblem) : list var :=
  dedup (match objective m with Some e => expr_vars e | None => [] end
         ++ flat_map (fun nc => expr_vars (expr (snd nc))) (constraints m)).

(** [LpProblem.get_dummyVar]: the dummy variable of the problem, made at
    the first call. *)
Definition get_dummyVar (h : Heap) (m : LpProblem) : Heap * LpProblem * var :=
  match dummyVar m with
  | Some d => (h, m, d)
  | None =>
      let hx := LpVariable_new h "__dummy" 0 0 LpContinuous in
      (fst hx, set_dummyVar m (snd hx), snd hx)
  end.

(** What [fixObjective] hands to [restoreObjective]. *)
Record Fixed : Type := mkFixed {
  fixed_heap : Heap;
  fixed_model : LpProblem;
  wasNone : bool;
  dummy : option var
}.

(** [LpProblem.fixObjective]: a missing objective becomes the constant 0,
    and an objective without a term gets the dummy variable as a term. *)
Definition fixObjective (h : Heap) (m : LpProblem) : Fixed :=
  match objective m with
  | None =>
      let hmd := get_dummyVar h m in
      mkFixed (fst (fst hmd))
              (set_objective (snd (fst hmd)) (mkExpr (addterm [] (snd hmd) 1) 0 None))
              true (Some (snd hmd))
  | Some e =>
      match terms e with
      | [] =>
          let hmd := get_dummyVar h m in
          mkFixed (fst (fst hmd))
                  (set_objective (snd (fst hmd))
                                 (mkExpr (addterm (terms e) (snd hmd) 1) (constant e) (ename e)))
                  false (Some (snd hmd))
      | _ :: _ => mkFixed h m false None
      end
  end.

(** [LpProblem.restoreObjective]: the objective that was missing is removed
    again; the dummy variable is subtracted, which leaves it as a term with
    the coefficient 0. *)
Definition restoreObjective (m : LpProblem) (none : bool) (d : option var) : LpProblem :=
  if none then clear_objective m
  else match d, objective m with
       | Some x, Some e =>
           set_objective m (mkExpr (addterm (terms e) x (-1)) (constant e) (ename e))
       | _, _ => m
       end.

(** Writing the problem for the solver names the objective [OBJ]. *)
Definition rename_objective (m : LpProblem) : LpProblem :=
  match objective m with
  | Some e => set_objective m (set_name e "OBJ")
  | None => m
  end.

Definition var_name (h : Heap) (x : var) : option string :=
  match nth_error h x with
  | Some v => name v
  | None => None
  end.

Definition name_eqb (a b : option string) : bool :=
  match a, b with
  | Some x, Some y => String.eqb x y
  | None, None => true
  | _, _ => false
  end.

(** Two entries of the list are the same name. *)
Fixpoint duplicated (l : list (option string)) : bool :=
  match l with
  | [] => false
  | a :: l' => existsb (name_eqb a) l' || duplicated l'
  end.

(** ** The notebook *)

(** The objects a session of the notebook holds after cell 5. *)
Record Session : Type := mkSession {
  heap : Heap;
  model : LpProblem;
  juice_vars : Py.dict var
}.

(** Cell 5: the model and one [LpVariable] per label of [data.index]. *)
Definition cell5 (data : DataFrame) : Session :=
  let hj :=
    fold_left
      (fun (hj : Heap * Py.dict var) (product : string) =>
         let hx := LpVariable_new (fst hj) (Py.replace product " " "_") 0
                                  (loc data product MaxUnits) LpInteger in
         (fst hx, Py.setitem (snd hj) product (snd hx)))
      (index data) ([], [])
  in
  mkSession (fst hj) (LpProblem_new "Juice_Product_Mix" LpMaximize) (snd hj).

(** The generator [data.loc[p, col] * juice_vars[p] for p in data.index]. *)
Definition weighted (data : DataFrame) (jv : Py.dict var) (col : ProductRecord -> Z)
  : Result (list LpAffineExpression) :=
  Py.mapM (fun p => x <- Py.getitem jv p ;; Ok (rmul (loc data p col) x)) (index data).

(** Cell 7: the objective. *)
Definition cell7 (data : DataFrame) (s : Session) : Result Session :=
  g <- weighted data (juice_vars s) Profit ;;
  m <- iadd (model s) (sum g) "Total_Profit" ;;
  Ok (mkSession (heap s) m (juice_vars s)).

(** Cell 9: the two resource constraints. *)
Definition cell9 (data : DataFrame) (max_machine_time max_labor_time : Z)
                 (s : Session) : Result Session :=
  g1 <- weighted data (juice_vars s) MachineTime ;;
  m1 <- iadd (model s) (le (sum g1) max_machine_time) "Machine_Time" ;;
  g2 <- weighted data (juice_vars s) LaborTime ;;
  m2 <- iadd m1 (le (sum g2) max_labor_time) "Labor_Time" ;;
  Ok (mkSession (heap s) m2 (juice_vars s)).

(** Cells 5, 7 and 9 together build the model. *)
Definition build (data : DataFrame) (max_machine_time max_labor_time : Z)
  : Result Session :=
  s <- cell7 data (cell5 data) ;;
  cell9 data max_machine_time max_labor_time s.

(** [model.solve()]: the objective is fixed and named, the solver fails
    with [PulpSolverError] when two variables of the problem bear the same
    name, and otherwise its status and values are written back. *)
Definition solve (solver : Solver) (s : Session) : Result Session :=
  let fx := fixObjective (heap s) (model s) in
  let written := rename_objective (fixed_model fx) in
  if duplicated (map (var_name (fixed_heap fx)) (variables written))
  then Raise PulpSolverError
  else
    let out := solver (fixed_heap fx) written in
    Ok (mkSession (assignVarsVals (out_values out) (fixed_heap fx))
                  (set_status (restoreObjective written (wasNone fx) (dummy fx))
                              (out_status out))
                  (juice_vars s)).

(** The dictionary comprehension [{p: juice_vars[p].value() for p in data.index}]. *)
Fixpoint comprehension (s : Session) (ps : list string) (d : Py.dict (option Z))
  : Result (Py.dict (option Z)) :=
  match ps with
  | [] => Ok d
  | p :: ps' =>
      x <- Py.getitem (juice_vars s) p ;;
      comprehension s ps' (Py.setitem d p (value_var (heap s) x))
  end.

(** The extraction of cells 11 and 15: the quantities, then the objective
    value under the key ['Total Profit']. *)
Definition extract (data : DataFrame) (s : Session) : Result (Py.dict (option Z)) :=
  r <- comprehension s (index data) [] ;;
  o <- value (heap s) (objective (model s)) ;;
  Ok (Py.setitem r "Total Profit" o).

(** [model.constraints[name].changeRHS(rhs)]: the constraint object is
    changed where it stands in the dictionary.  The session after the
    statement comes with what the statement did: it returned, or it raised
    the [KeyError] of the dictionary. *)
Definition setConstraintBound (s : Session) (n : string) (rhs : Z)
  : Session * Result unit :=
  match Py.getitem (constraints (model s)) n with
  | Ok c =>
      (mkSession (heap s)
                 (set_constraints (model s)
                                  (Py.setitem (constraints (model s)) n (changeRHS c rhs)))
                 (juice_vars s),
       Ok tt)
  | Raise e => (s, Raise e)
  end.

(** The globals of the notebook that cells 11 and 15 write. *)
Record Notebook : Type := mkNotebook {
  session : Session;
  stdout : list string;
  results : option (Py.dict (option Z));
  sensitivity_results : option (Py.dict (option Z))
}.

Definition start (s : Session) : Notebook := mkNotebook s [] None None.

(** Cell 11: solve, print the status, extract into [results]. *)
Definition cell11 (solver : Solver) (data : DataFrame) (nb : Notebook) : Result Notebook :=
  s <- solve solver (session nb) ;;
  let out := stdout nb ++ [String.append "Status: " (LpStatus (status (model s)))] in
  r <- extract data s ;;
  Ok (mkNotebook s out (Some r) (sensitivity_results nb)).

(** Cell 15, for any constraint name and new right-hand side: change the
    bound, solve again, extract into [sensitivity_results]. *)
Definition resolve (solver : Solver) (data : DataFrame) (n : string) (rhs : Z)
                   (nb : Notebook) : Result Notebook :=
  let sr := setConstraintBound (session nb) n rhs in
  _ <- snd sr ;;
  s2 <- solve solver (fst sr) ;;
  r <- extract data s2 ;;
  Ok (mkNotebook s2 (stdout nb) (results nb) (Some r)).


(** The table of the notebook. *)
Definition juice_data : DataFrame :=
  [ mkProduct "Apple Juice" 25 3 2 60;
    mkProduct "Orange Juice" 30 2 3 60;
    mkProduct "Mixed Fruit Juice" 40 4 4 60 ].

(** ** What the solver is asked for *)

(** The value of an expression when the variables take the values [f]. *)
Definition eval (f : var -> Z) (e : LpAffineExpression) : Z :=
  fold_right (fun t acc => snd t * f (fst t) + acc) (constant e) (terms e).

Definition satisfied (f : var -> Z) (c : LpConstraint) : Prop :=
  match csense c with
  | LpConstraintLE => eval f (expr c) <= 0
  | LpConstraintEQ => eval f (expr c) = 0
  | LpConstraintGE => 0 <= eval f (expr c)
  end.

(** The variable [x] lies within its bounds. *)
Definition within (h : Heap) (f : var -> Z) (x : var) : Prop :=
  match nth_error h x with
  | Some v => lowBound v <= f x <= upBound v
  | None => False
  end.

Definition feasible (h : Heap) (m : LpProblem) (f : var -> Z) : Prop :=
  Forall (within h f) (variables m)
  /\ Forall (fun nc => satisfied f (snd nc)) (constraints m).

Definition objective_value (m : LpProblem) (f : var -> Z) : Z :=
  match objective m with
  | Some e => eval f e
  | None => 0
  end.

(** The objective, oriented so that larger is better. *)
Definition score (m : LpProblem) (f : var -> Z) : Z :=
  match sense m with
  | LpMaximize => objective_value m f
  | LpMinimize => - objective_value m f
  end.

Definition optimum (h : Heap) (m : LpProblem) (f : var -> Z) : Prop :=
  feasible h m f /\ forall g, feasible h m g -> score m g <= score m f.

(** The values a solver reports, read as an assignment. *)
Definition reading (vals : var -> option Z) : var -> Z :=
  fun x => match vals x with Some z => z | None => 0 end.

(** The contract of the solver: [Optimal] comes with a value for every
    variable of the model and these values are an optimum; a model that has
    a feasible assignment is solved to [Optimal] (every variable of the
    notebook is bounded, so no model is unbounded); a model without one is
    reported [Infeasible]. *)
Record solver_contract (solver : Solver) : Prop := mkContract {
  contract_optimal :
    forall h m,
      out_status (solver h m) = LpStatusOptimal ->
      Forall (fun x => out_values (solver h m) x <> None) (variables m)
      /\ optimum h m (reading (out_values (solver h m)));
  contract_feasible :
    forall h m f,
      feasible h m f -> out_status (solver h m) = LpStatusOptimal;
  contract_infeasible :
    forall h m,
      (forall f, ~ feasible h m f) -> out_status (solver h m) = LpStatusInfeasible
}.

(** ** A solver by exhaustive search *)

Fixpoint range (lo : Z) (n : nat) : list Z :=
  match n with
  | O => []
  | S k => lo :: range (lo + 1) k
  end.

Definition domain (h : Heap) (x : var) : list Z :=
  match nth_error h x with
  | Some v => range (lowBound v) (Z.to_nat (upBound v - lowBound v + 1))
  | None => []
  end.

(** Every assignment of the variables [xs] within their bounds. *)
Fixpoint candidates (h : Heap) (xs : list var) : list (list (var * Z)) :=
  match xs with
  | [] => [[]]
  | x :: xs' => flat_map (fun z => map (cons (x, z)) (candidates h xs')) (domain h x)
  end.

Definition lookup (a : list (var * Z)) : var -> option Z :=
  fun x => option_map snd (find (fun t => Nat.eqb (fst t) x) a).

Definition satisfiedb (f : var -> Z) (c : LpConstraint) : bool :=
  match csense c with
  | LpConstraintLE => eval f (expr c) <=? 0
  | LpConstraintEQ => eval f (expr c) =? 0
  | LpConstraintGE => 0 <=? eval f (expr c)
  end.

Definition admissible (m : LpProblem) (a : list (var * Z)) : bool :=
  forallb (fun nc => satisfiedb (reading (lookup a)) (snd nc)) (constraints m).

(** The best candidate of a list; among equally good ones the first, or
    the last when [last] is set. *)
Fixpoint best (last : bool) (m : LpProblem) (cands : list (list (var * Z)))
              (cur : option (Z * list (var * Z))) : option (Z * list (var * Z)) :=
  match cands with
  | [] => cur
  | a :: cands' =>
      let s := score m (reading (lookup a)) in
      best last m cands'
           (match cur with
            | None => Some (s, a)
            | Some (s0, a0) =>
                if (if last then s0 <=? s else s0 <? s) then Some (s, a) else cur
            end)
  end.

Definition exhaustive (last : bool) : Solver :=
  fun h m =>
    match best last m (filter (admissible m) (candidates h (variables m))) None with
    | Some (_, a) => mkOutput LpStatusOptimal (lookup a)
    | None => mkOutput LpStatusInfeasible (fun _ => None)
    end.

(** ** The notebook, run in cell order *)

(** Cells 5 to 11: build, solve, extract. *)
Definition run (solver : Solver) (data : DataFrame)
               (max_machine_time max_labor_time : Z) : Result Notebook :=
  s <- build data max_machine_time max_labor_time ;;
  cell11 solver data (start s).


(** The heap and the model that the cells build from [juice_data], written
    out, for the budgets [mm] and [ml] and the status [st]. *)
Definition juice_heap (a o x : option Z) : Heap :=
  [ mkLpVariable (Some "Apple_Juice") 0 60 LpInteger a;
    mkLpVariable (Some "Orange_Juice") 0 60 LpInteger o;
    mkLpVariable (Some "Mixed_Fruit_Juice") 0 60 LpInteger x ].

Definition juice_problem (n : string) (mm ml : Z) (st : LpStatusCode) : LpProblem :=
  mkProblem "Juice_Product_Mix" LpMaximize
    (Some (mkExpr [(0%nat, 25); (1%nat, 30); (2%nat, 40)] 0 (Some n)))
    [ ("Machine_Time",
       mkConstraint (mkExpr [(0%nat, 3); (1%nat, 2); (2%nat, 4)] (- mm)
                            (Some "Machine_Time")) LpConstraintLE);
      ("Labor_Time",
       mkConstraint (mkExpr [(0%nat, 2); (1%nat, 3); (2%nat, 4)] (- ml)
                            (Some "Labor_Time")) LpConstraintLE) ]
    st None.

(** As cells 5 to 9 build it: the objective bears the name of cell 7. *)
Definition juice_model (mm ml : Z) (st : LpStatusCode) : LpProblem :=
  juice_problem "Total_Profit" mm ml st.

(** As a solve leaves it: the objective bears the name [OBJ]. *)
Definition juice_solved (mm ml : Z) (st : LpStatusCode) : LpProblem :=
  juice_problem "OBJ" mm ml st.

Definition juice_vars_table : Py.dict var :=
  [ ("Apple Juice", 0%nat); ("Orange Juice", 1%nat); ("Mixed Fruit Juice", 2%nat) ].

(** A table in which a product is named like the key of the objective
    value, and the session after cells 5 to 11 on it with the budgets 10
    and 10: both quantities are 2 and the objective value is 8. *)
Definition total_profit_data : DataFrame :=
  [ mkProduct "Apple" 1 1 1 2; mkProduct "Total Profit" 3 1 1 2 ].

Definition total_profit_session : Session :=
  mkSession
    [ mkLpVariable (Some "Apple") 0 2 LpInteger (Some 2);
      mkLpVariable (Some "Total_Profit") 0 2 LpInteger (Some 2) ]
    (mkProblem "Juice_Product_Mix" LpMaximize
       (Some (mkExpr [(0%nat, 1); (1%nat, 3)] 0 (Some "OBJ")))
       [ ("Machine_Time",
          mkConstraint (mkExpr [(0%nat, 1); (1%nat, 1)] (-10) (Some "Machine_Time"))
                       LpConstraintLE);
         ("Labor_Time",
          mkConstraint (mkExpr [(0%nat, 1); (1%nat, 1)] (-10) (Some "Labor_Time"))
                       LpConstraintLE) ]
       LpStatusOptimal None)
    [("Apple", 0%nat); ("Total Profit", 1%nat)].

(** The quantities [q], in the order of the table, as an assignment. *)
Definition quantities (q : list Z) : var -> Z := fun x => nth x q 0.

(** ** What the model of a table should be *)

(** The name of the variable of a row: the product name with its spaces
    replaced by cell 5, then named by PuLP. *)
Definition var_name_of (r : ProductRecord) : option string :=
  setName (Py.replace (Product r) " " "_").

(** The variable that cell 5 declares for a row of the table. *)
Definition declared (r : ProductRecord) : LpVariable :=
  mkLpVariable (var_name_of r) 0 (MaxUnits r) LpInteger None.

(** The sum of [col] times the quantity over the rows of the table, the
    rows being numbered from [i]. *)
Fixpoint weighted_sum (col : ProductRecord -> Z) (f : var -> Z) (i : nat)
                      (data : DataFrame) : Z :=
  match data with
  | [] => 0
  | r :: data' => col r * f i + weighted_sum col f (S i) data'
  end.

(** The items of the generator of cells 7 and 9 when the rows are numbered
    from [i]. *)
Fixpoint items (col : ProductRecord -> Z) (i : nat) (data : DataFrame)
  : list LpAffineExpression :=
  match data with
  | [] => []
  | r :: data' => rmul (col r) i :: items col (S i) data'
  end.

(** What the comprehension of cell 11 reads when the rows are numbered from
    [i]: the name of each row with the value of its variable. *)
Fixpoint readings (h : Heap) (i : nat) (data : DataFrame) : Py.dict (option Z) :=
  match data with
  | [] => []
  | r :: data' => (Product r, value_var h i) :: readings h (S i) data'
  end.

(** The linear part of an expression. *)
Definition lin (f : var -> Z) (ts : list (var * Z)) : Z :=
  fold_right (fun t acc => snd t * f (fst t) + acc) 0 ts.

(** [cur] is a best element of the candidates seen so far. *)
Definition leads (m : LpProblem) (seen : list (list (var * Z)))
                 (cur : option (Z * list (var * Z))) : Prop :=
  match cur with
  | None => seen = []
  | Some (s, a) =>
      In a seen /\ s = score m (reading (lookup a))
      /\ forall b, In b seen -> score m (reading (lookup b)) <= s
  end.

(** ** The chart of cell 13 *)

(** The two sequences that cell 13 hands to [plt.bar]: the keys and the
    values of [results], each without its last element ([[:-1]]). *)
Definition cell13 (r : Py.dict (option Z)) : list string * list (option Z) :=
  (removelast (Py.keys r), removelast (Py.values r)).

(** ** The model of a table, written out *)

(** The expression inside a Python value that [sum] returned. *)
Definition affine (v : PyValue) : LpAffineExpression :=
  match v with
  | PyAffine e => e
  | _ => mkExpr [] 0 None
  end.

(** The constraint [sum(col * quantity) <= budget] as cell 9 adds it under
    the name [n]. *)
Definition budget_constraint (col : ProductRecord -> Z) (data : DataFrame)
                             (budget : Z) (n : string) : LpConstraint :=
  mkConstraint (mkExpr (terms (affine (sum (items col 0 data))))
                       (constant (affine (sum (items col 0 data))) - budget)
                       (Some n))
               LpConstraintLE.

(** The problem of a table with at least one row, with the objective named
    [n] and the status [st]: cells 5 to 9 build it with the name of cell 7,
    and a solve leaves it with the name [OBJ]. *)
Definition built_model (n : string) (data : DataFrame)
                       (max_machine_time max_labor_time : Z)
                       (st : LpStatusCode) : LpProblem :=
  mkProblem "Juice_Product_Mix" LpMaximize
    (Some (set_name (affine (sum (items Profit 0 data))) n))
    [ ("Machine_Time", budget_constraint MachineTime data max_machine_time "Machine_Time");
      ("Labor_Time", budget_constraint LaborTime data max_labor_time "Labor_Time") ]
    st None.

(** The session that cells 5 to 9 build from such a table. *)
Definition built (data : DataFrame) (max_machine_time max_labor_time : Z) : Session :=
  mkSession (map declared data)
            (built_model "Total_Profit" data max_machine_time max_labor_time
                         LpStatusNotSolved)
            (combine (index data) (seq 0 (List.length data))).

(** The quantities that the table allows: every quantity within 0 and the
    cap of its row, and both budgets respected. *)
Definition allowed (data : DataFrame) (max_machine_time max_labor_time : Z)
                   (q : var -> Z) : Prop :=
  (forall k r, nth_error data k = Some r -> 0 <= q k <= MaxUnits r)
  /\ weighted_sum MachineTime q 0 data <= max_machine_time
  /\ weighted_sum LaborTime q 0 data <= max_labor_time.

(** The row [r] occurs in the model: one of its three coefficients is not
    zero. *)
Definition occurs (r : ProductRecord) : Prop :=
  Profit r <> 0 \/ MachineTime r <> 0 \/ LaborTime r <> 0.

(** ** Tables that the solve accepts *)

(** The names of the variables of the table are names that PuLP keeps, no
    two rows have the same one, and none is the name of the dummy variable
    of PuLP. *)
Definition well_named (data : DataFrame) : Prop :=
  NoDup (map var_name_of data)
  /\ ~ In None (map var_name_of data)
  /\ ~ In (Some "__dummy") (map var_name_of data).

(** Some product of the table has a profit that is not zero: the objective
    is not a constant. *)
Definition profitable (data : DataFrame) : Prop :=
  exists r, In r data /\ Profit r <> 0.

(** What a solve never writes of the variables: names, bounds, categories. *)
Definition static (h : Heap) : list (option string * Z * Z * LpCategory) :=
  map (fun v => (name v, lowBound v, upBound v, cat v)) h.

(** The dummy variable that [get_dummyVar] makes. *)
Definition dummy_variable : LpVariable :=
  mkLpVariable (Some "__dummy") 0 0 LpContinuous None.

(** The problem of a table whose profits are all zero, around a solve: the
    objective is [c] times the dummy variable, which comes after the
    variables of the rows; [c] is 1 for the solver and 0 afterwards. *)
Definition constant_model (c : Z) (data : DataFrame)
                          (max_machine_time max_labor_time : Z)
                          (st : LpStatusCode) : LpProblem :=
  mkProblem "Juice_Product_Mix" LpMaximize
    (Some (mkExpr [(List.length data, c)] 0 (Some "OBJ")))
    [ ("Machine_Time", budget_constraint MachineTime data max_machine_time "Machine_Time");
      ("Labor_Time", budget_constraint LaborTime data max_labor_time "Labor_Time") ]
    st (Some (List.length data)).

(** The sessions that solves and changes of a budget make of the session
    built from a table: the model of the table over variables that differ
    from the declared ones in their values only, with the dummy variable
    after them once a constant objective has been solved. *)
Inductive reachable (data : DataFrame) : Session -> Prop :=
| reach_plain (h : Heap) (n : string) (mm ml : Z) (st : LpStatusCode) :
    static h = static (map declared data) ->
    reachable data
      (mkSession h (built_model n data mm ml st)
                 (combine (index data) (seq 0 (List.length data))))
| reach_dummy (h : Heap) (mm ml : Z) (st : LpStatusCode) :
    static h = static (map declared data) ->
    (forall r, In r data -> Profit r = 0) ->
    reachable data
      (mkSession (h ++ [dummy_variable]) (constant_model 0 data mm ml st)
                 (combine (index data) (seq 0 (List.length data)))).

(** ** A solver that answers one problem as the contract asks *)

Record answers (solver : Solver) (h : Heap) (m : LpProblem) : Prop := mkAnswers {
  answers_optimal :
    out_status (solver h m) = LpStatusOptimal ->
    Forall (fun x => out_values (solver h m) x <> None) (variables m)
    /\ optimum h m (reading (out_values (solver h m)));
  answers_feasible :
    forall f, feasible h m f -> out_status (solver h m) = LpStatusOptimal;
  answers_infeasible :
    (forall f, ~ feasible h m f) -> out_status (solver h m) = LpStatusInfeasible
}.

(** The solver answers as the contract asks the problems that the notebook
    hands it for a table with a profit and the budgets [mm] and [ml]:
    whatever the values and the status left by an earlier solve. *)
Definition answers_table (solver : Solver) (data : DataFrame) (mm ml : Z) : Prop :=
  forall h st, static h = static (map declared data) ->
               answers solver h (built_model "OBJ" data mm ml st).

(** ** Sums that double precision holds *)

(** The notebook computes in double precision, where the integers up to
    2^53 in magnitude and their sums and products within that range are
    exact; the embedding computes in integers.  [magnitude col q i data]
    bounds every coefficient, every product and every partial sum of [col]
    times [q] over the table. *)
Fixpoint magnitude (col : ProductRecord -> Z) (q : var -> Z) (i : nat)
                   (data : DataFrame) : Z :=
  match data with
  | [] => 0
  | r :: data' => Z.max (Z.abs (col r)) (Z.abs (col r * q i)) + magnitude col q (S i) data'
  end.

(** The largest magnitude that quantities within the caps give. *)
Fixpoint magnitude_caps (col : ProductRecord -> Z) (data : DataFrame) : Z :=
  match data with
  | [] => 0
  | r :: data' => Z.abs (col r) * Z.max 1 (MaxUnits r) + magnitude_caps col data'
  end.

(** The integer [z] is within the range in which double precision is
    exact. *)
Definition in_double (z : Z) : Prop := z <= 2 ^ 53.

(** * Proofs *)

(** No name is repeated in a list of literal names. *)
Ltac distinct_names :=
  simpl; repeat constructor; simpl; intros H;
  repeat (destruct H as [H|H]; [discriminate H|]); exact H.

(** A name is not in a list of literal names. *)
Ltac absent_name :=
  simpl; intros H; repeat (destruct H as [H|H]; [discriminate H|]); exact H.

(** A table of literal names is well named. *)
Ltac literal_names :=
  split; [distinct_names|split; absent_name].

(** ** The exhaustive solver meets the contract *)

Lemma In_range (z lo : Z) (n : nat) :
  In z (range lo n) <-> lo <= z < lo + Z.of_nat n.
Proof.
  revert lo; induction n as [|n IH]; intros lo; simpl range.
  - simpl; lia.
  - simpl In. rewrite IH. lia.
Qed.

Lemma within_domain (h : Heap) (f : var -> Z) (x : var) :
  within h f x <-> In (f x) (domain h x).
Proof.
  unfold within, domain.
  destruct (nth_error h x) as [v|]; [|simpl; tauto].
  rewrite In_range. lia.
Qed.

Lemma dedup_In (x : var) (l : list var) : In x (dedup l) <-> In x l.
Proof.
  induction l as [|y l IH]; simpl; [tauto|].
  destruct (existsb (Nat.eqb y) l) eqn:E.
  - rewrite IH. split; [tauto|]. intros [->|H]; [|exact H].
    apply existsb_exists in E. destruct E as [y' [Hy' Heq]].
    apply Nat.eqb_eq in Heq. subst y'. exact Hy'.
  - simpl. rewrite IH. tauto.
Qed.

Lemma lookup_cons (x y : var) (z : Z) (a : list (var * Z)) :
  lookup ((x, z) :: a) y = if Nat.eqb x y then Some z else lookup a y.
Proof.
  unfold lookup; simpl. destruct (Nat.eqb x y); reflexivity.
Qed.

Lemma lookup_map (f : var -> Z) (xs : list var) (x : var) :
  In x xs -> lookup (map (fun y => (y, f y)) xs) x = Some (f x).
Proof.
  induction xs as [|y xs IH]; simpl; [tauto|].
  intros H. rewrite lookup_cons.
  destruct (Nat.eqb y x) eqn:E.
  - apply Nat.eqb_eq in E. subst y. reflexivity.
  - apply IH. destruct H as [H|H]; [|exact H].
    subst y. rewrite Nat.eqb_refl in E. discriminate.
Qed.

Lemma candidates_complete (h : Heap) (f : var -> Z) (xs : list var) :
  Forall (within h f) xs ->
  In (map (fun x => (x, f x)) xs) (candidates h xs).
Proof.
  induction 1 as [|x xs Hx _ IH]; simpl; [tauto|].
  apply in_flat_map. exists (f x). split.
  - apply within_domain. exact Hx.
  - apply in_map. exact IH.
Qed.

Lemma candidates_sound (h : Heap) (xs : list var) (a : list (var * Z)) (x : var) :
  In a (candidates h xs) -> In x xs ->
  exists z, lookup a x = Some z /\ In z (domain h x).
Proof.
  revert a; induction xs as [|y xs IH]; intros a Ha Hx; [destruct Hx|].
  simpl in Ha. apply in_flat_map in Ha. destruct Ha as [z [Hz Ha]].
  apply in_map_iff in Ha. destruct Ha as [a' [<- Ha']].
  rewrite lookup_cons. destruct (Nat.eqb y x) eqn:E.
  - apply Nat.eqb_eq in E. subst y. exists z. tauto.
  - apply IH; [exact Ha'|]. destruct Hx as [Hx|Hx]; [|exact Hx].
    subst y. rewrite Nat.eqb_refl in E. discriminate.
Qed.

Lemma candidates_within (h : Heap) (xs : list var) (a : list (var * Z)) :
  In a (candidates h xs) ->
  Forall (within h (reading (lookup a))) xs
  /\ Forall (fun x => lookup a x <> None) xs.
Proof.
  intros Ha. split; apply Forall_forall; intros x Hx;
    destruct (candidates_sound h xs a x Ha Hx) as [z [Hl Hz]].
  - apply within_domain. unfold reading. rewrite Hl. exact Hz.
  - rewrite Hl. discriminate.
Qed.

Lemma eval_ext (f g : var -> Z) (e : LpAffineExpression) :
  (forall x, In x (expr_vars e) -> f x = g x) -> eval f e = eval g e.
Proof.
  unfold eval, expr_vars. generalize (constant e).
  induction (terms e) as [|t ts IH]; intros c H; simpl; [reflexivity|].
  rewrite (H (fst t)) by (simpl; tauto).
  rewrite IH; [reflexivity|]. intros x Hx. apply H. simpl. tauto.
Qed.

Lemma variables_objective (m : LpProblem) (e : LpAffineExpression) (x : var) :
  objective m = Some e -> In x (expr_vars e) -> In x (variables m).
Proof.
  intros Ho Hx. unfold variables. apply dedup_In. rewrite Ho.
  apply in_or_app. left. exact Hx.
Qed.

Lemma variables_constraint (m : LpProblem) (nc : string * LpConstraint) (x : var) :
  In nc (constraints m) -> In x (expr_vars (expr (snd nc))) -> In x (variables m).
Proof.
  intros Hc Hx. unfold variables. apply dedup_In.
  apply in_or_app. right. apply in_flat_map. exists nc. tauto.
Qed.

Lemma score_ext (m : LpProblem) (f g : var -> Z) :
  (forall x, In x (variables m) -> f x = g x) -> score m f = score m g.
Proof.
  intros H. unfold score, objective_value.
  destruct (objective m) as [e|] eqn:Ho; [|reflexivity].
  rewrite (eval_ext f g e); [reflexivity|].
  intros x Hx. apply H. exact (variables_objective m e x Ho Hx).
Qed.

Lemma satisfied_ext (m : LpProblem) (f g : var -> Z) (nc : string * LpConstraint) :
  (forall x, In x (variables m) -> f x = g x) ->
  In nc (constraints m) -> satisfied f (snd nc) -> satisfied g (snd nc).
Proof.
  intros H Hc. unfold satisfied.
  rewrite (eval_ext f g (expr (snd nc))); [tauto|].
  intros x Hx. apply H. exact (variables_constraint m nc x Hc Hx).
Qed.

Lemma feasible_ext (h : Heap) (m : LpProblem) (f g : var -> Z) :
  (forall x, In x (variables m) -> f x = g x) ->
  feasible h m f -> feasible h m g.
Proof.
  intros H [Hb Hc]. split.
  - rewrite Forall_forall in *. intros x Hx. specialize (Hb x Hx).
    unfold within in *. rewrite <- (H x Hx). exact Hb.
  - rewrite Forall_forall in *. intros nc Hnc.
    apply (satisfied_ext m f g nc H Hnc). apply Hc. exact Hnc.
Qed.

Lemma satisfiedb_spec (f : var -> Z) (c : LpConstraint) :
  satisfiedb f c = true <-> satisfied f c.
Proof.
  unfold satisfiedb, satisfied. destruct (csense c).
  - apply Z.leb_le.
  - apply Z.eqb_eq.
  - apply Z.leb_le.
Qed.

Lemma admissible_spec (m : LpProblem) (a : list (var * Z)) :
  admissible m a = true <->
  Forall (fun nc => satisfied (reading (lookup a)) (snd nc)) (constraints m).
Proof.
  unfold admissible. rewrite forallb_forall, Forall_forall.
  split; intros H nc Hnc; apply satisfiedb_spec, H, Hnc.
Qed.

(** The candidates the search keeps are the feasible assignments. *)
Lemma kept_feasible (h : Heap) (m : LpProblem) (a : list (var * Z)) :
  In a (filter (admissible m) (candidates h (variables m))) ->
  feasible h m (reading (lookup a))
  /\ Forall (fun x => lookup a x <> None) (variables m).
Proof.
  intros Ha. apply filter_In in Ha. destruct Ha as [Hc Had].
  destruct (candidates_within h _ a Hc) as [Hw Hn].
  split; [split|]; [exact Hw| |exact Hn].
  apply admissible_spec. exact Had.
Qed.

Lemma feasible_kept (h : Heap) (m : LpProblem) (f : var -> Z) :
  feasible h m f ->
  exists a, In a (filter (admissible m) (candidates h (variables m)))
            /\ score m (reading (lookup a)) = score m f.
Proof.
  intros Hf. exists (map (fun x => (x, f x)) (variables m)).
  assert (Hagree : forall x, In x (variables m) ->
            f x = reading (lookup (map (fun y => (y, f y)) (variables m))) x).
  { intros x Hx. unfold reading. rewrite lookup_map by exact Hx. reflexivity. }
  split.
  - apply filter_In. split.
    + apply candidates_complete. exact (proj1 Hf).
    + apply admissible_spec. exact (proj2 (feasible_ext h m f _ Hagree Hf)).
  - symmetry. apply score_ext. exact Hagree.
Qed.

Lemma best_leads (last : bool) (m : LpProblem) (cands seen : list (list (var * Z)))
                 (cur : option (Z * list (var * Z))) :
  leads m seen cur -> leads m (seen ++ cands) (best last m cands cur).
Proof.
  revert seen cur; induction cands as [|a cands IH]; intros seen cur H; simpl.
  - rewrite app_nil_r. exact H.
  - replace (seen ++ a :: cands) with ((seen ++ [a]) ++ cands)
      by (rewrite <- app_assoc; reflexivity).
    apply IH. destruct cur as [[s0 a0]|]; simpl in H.
    + destruct H as [Hin [Hs Hmax]].
      assert (Hstep : forall t : bool,
                (t = true -> s0 <= score m (reading (lookup a))) ->
                (t = false -> score m (reading (lookup a)) <= s0) ->
                leads m (seen ++ [a])
                      (if t then Some (score m (reading (lookup a)), a)
                       else Some (s0, a0))).
      { intros [|] Ht Hf; simpl.
        - specialize (Ht eq_refl). split; [apply in_or_app; simpl; tauto|].
          split; [reflexivity|]. intros b Hb. apply in_app_or in Hb.
          destruct Hb as [Hb|[<-|[]]]; [|lia]. specialize (Hmax b Hb). lia.
        - specialize (Hf eq_refl). split; [apply in_or_app; tauto|].
          split; [exact Hs|]. intros b Hb. apply in_app_or in Hb.
          destruct Hb as [Hb|[<-|[]]]; [exact (Hmax b Hb)|exact Hf]. }
      destruct last; apply Hstep; intros Ht.
      * apply Z.leb_le in Ht. exact Ht.
      * apply Z.leb_gt in Ht. lia.
      * apply Z.ltb_lt in Ht. lia.
      * apply Z.ltb_ge in Ht. exact Ht.
    + subst seen. simpl. split; [tauto|]. split; [reflexivity|].
      intros b [<-|[]]. lia.
Qed.

Lemma best_spec (last : bool) (m : LpProblem) (cands : list (list (var * Z))) :
  leads m cands (best last m cands None).
Proof.
  apply (best_leads last m cands [] None). reflexivity.
Qed.

Lemma exhaustive_contract (last : bool) : solver_contract (exhaustive last).
Proof.
  constructor.
  - intros h m. unfold exhaustive.
    pose proof (best_spec last m (filter (admissible m) (candidates h (variables m)))) as L.
    destruct (best last m _ None) as [[s a]|]; simpl; [|discriminate].
    intros _. destruct L as [Hin [Hs Hmax]].
    destruct (kept_feasible h m a Hin) as [Hf Hn].
    split; [exact Hn|]. split; [exact Hf|].
    intros g Hg. destruct (feasible_kept h m g Hg) as [b [Hb Hsb]].
    rewrite <- Hsb, <- Hs. apply Hmax. exact Hb.
  - intros h m f Hf. unfold exhaustive.
    pose proof (best_spec last m (filter (admissible m) (candidates h (variables m)))) as L.
    destruct (best last m _ None) as [[s a]|]; simpl; [reflexivity|].
    simpl in L. destruct (feasible_kept h m f Hf) as [b [Hb _]].
    rewrite L in Hb. destruct Hb.
  - intros h m Hno. unfold exhaustive.
    pose proof (best_spec last m (filter (admissible m) (candidates h (variables m)))) as L.
    destruct (best last m _ None) as [[s a]|]; simpl; [|reflexivity].
    destruct L as [Hin _]. destruct (kept_feasible h m a Hin) as [Hf _].
    destruct (Hno _ Hf).
Qed.

(** ** The model of the notebook *)

Lemma build_juice :
  build juice_data 240 220
  = Ok (mkSession (juice_heap None None None)
                  (juice_model 240 220 LpStatusNotSolved) juice_vars_table).
Proof. reflexivity. Qed.

Lemma nth_error_assignVarsVals_from (vals : var -> option Z) (h : Heap) (i x : nat) :
  nth_error (assignVarsVals_from i vals h) x
  = option_map (fun v => if is_dummy v then v
                         else match vals (i + x)%nat with
                              | Some z => mkLpVariable (name v) (lowBound v) (upBound v)
                                                       (cat v) (Some z)
                              | None => v
                              end) (nth_error h x).
Proof.
  revert i x; induction h as [|v h IH]; intros i x; simpl.
  - destruct x; reflexivity.
  - destruct x as [|x]; simpl.
    + rewrite Nat.add_0_r. reflexivity.
    + rewrite IH. replace (S i + x)%nat with (i + S x)%nat by lia. reflexivity.
Qed.

(** Solving writes values, never bounds. *)
Lemma within_assignVarsVals (vals : var -> option Z) (h : Heap) (f : var -> Z) (x : var) :
  within (assignVarsVals vals h) f x <-> within h f x.
Proof.
  unfold within, assignVarsVals. rewrite nth_error_assignVarsVals_from.
  destruct (nth_error h x) as [v|]; simpl; [|tauto].
  destruct (is_dummy v); [tauto|].
  destruct (vals x); simpl; tauto.
Qed.

Lemma feasible_assignVarsVals (vals : var -> option Z) (h : Heap) (m : LpProblem)
                              (f : var -> Z) :
  feasible (assignVarsVals vals h) m f <-> feasible h m f.
Proof.
  unfold feasible. rewrite !Forall_forall.
  split; intros [Hb Hc]; (split; [|exact Hc]); intros x Hx.
  - apply (within_assignVarsVals vals). exact (Hb x Hx).
  - apply within_assignVarsVals. exact (Hb x Hx).
Qed.

Lemma feasible_status (h : Heap) (m : LpProblem) (st : LpStatusCode) (f : var -> Z) :
  feasible h (set_status m st) f <-> feasible h m f.
Proof. reflexivity. Qed.

(** Feasibility in the model of the notebook, as arithmetic. *)
Lemma feasible_juice (a o x : option Z) (n : string) (mm ml : Z) (st : LpStatusCode)
                      (f : var -> Z) :
  feasible (juice_heap a o x) (juice_problem n mm ml st) f
  <-> (0 <= f 0%nat <= 60 /\ 0 <= f 1%nat <= 60 /\ 0 <= f 2%nat <= 60)
      /\ 3 * f 0%nat + 2 * f 1%nat + 4 * f 2%nat <= mm
      /\ 2 * f 0%nat + 3 * f 1%nat + 4 * f 2%nat <= ml.
Proof.
  unfold feasible. change (variables (juice_problem n mm ml st)) with [0%nat; 1%nat; 2%nat].
  split.
  - intros [Hb Hc].
    inversion_clear Hb as [|? ? H0 Hb1]. inversion_clear Hb1 as [|? ? H1 Hb2].
    inversion_clear Hb2 as [|? ? H2 _].
    inversion_clear Hc as [|? ? Hm Hc1]. inversion_clear Hc1 as [|? ? Hl _].
    unfold within in H0, H1, H2. unfold satisfied, eval in Hm, Hl.
    simpl in H0, H1, H2. cbn [fold_right terms constant expr csense snd fst] in Hm, Hl.
    lia.
  - intros [[H0 [H1 H2]] [Hm Hl]]. split.
    + repeat constructor; unfold within; simpl; lia.
    + repeat constructor; unfold satisfied, eval;
        cbn [fold_right terms constant expr csense snd fst]; lia.
Qed.

Lemma score_juice (n : string) (mm ml : Z) (st : LpStatusCode) (f : var -> Z) :
  score (juice_problem n mm ml st) f = 25 * f 0%nat + 30 * f 1%nat + 40 * f 2%nat.
Proof.
  unfold score, objective_value, eval.
  cbn [juice_problem sense objective fold_right terms constant snd fst]. lia.
Qed.

(** The integer program of the notebook has one optimum, worth 2480. *)
Lemma optimum_juice_240 (a o x : option Z) (n : string) (st : LpStatusCode)
                        (f : var -> Z) :
  optimum (juice_heap a o x) (juice_problem n 240 220 st) f
  <-> f 0%nat = 56 /\ f 1%nat = 36 /\ f 2%nat = 0.
Proof.
  unfold optimum. split.
  - intros [Hf Hmax].
    specialize (Hmax (quantities [56; 36; 0])).
    rewrite feasible_juice in Hf, Hmax. rewrite !score_juice in Hmax.
    unfold quantities in Hmax. cbn [nth] in Hmax. lia.
  - intros [H0 [H1 H2]]. split.
    + apply feasible_juice. lia.
    + intros g Hg. apply feasible_juice in Hg. rewrite !score_juice. lia.
Qed.

Lemma reading_some (vals : var -> option Z) (x : var) (z : Z) :
  vals x <> None -> reading vals x = z -> vals x = Some z.
Proof.
  unfold reading. destruct (vals x) as [z'|]; [|tauto].
  intros _ ->. reflexivity.
Qed.


(** [model.solve()] on a model of the notebook: no dummy variable is
    needed, the three names differ, and the objective is left with the name
    [OBJ]. *)
Lemma solve_juice (solver : Solver) (a o x : option Z) (n : string) (mm ml : Z)
                  (st : LpStatusCode) (jv : Py.dict var) :
  solve solver (mkSession (juice_heap a o x) (juice_problem n mm ml st) jv)
  = Ok (mkSession
          (assignVarsVals
             (out_values (solver (juice_heap a o x) (juice_solved mm ml st)))
             (juice_heap a o x))
          (juice_solved mm ml
             (out_status (solver (juice_heap a o x) (juice_solved mm ml st))))
          jv).
Proof. reflexivity. Qed.

(** *** With a solver that meets the contract *)

Section Contract.

Variable solver : Solver.
Hypothesis contract : solver_contract solver.

(** What a solver that meets the contract reports for a model of the
    notebook: a status, and a value for each of the three variables, which
    are an optimum. *)
Lemma solver_on_juice (a o x : option Z) (n : string) (mm ml : Z) (st : LpStatusCode)
                      (g : var -> Z) :
  feasible (juice_heap a o x) (juice_problem n mm ml st) g ->
  let out := solver (juice_heap a o x) (juice_problem n mm ml st) in
  out_status out = LpStatusOptimal
  /\ exists f, optimum (juice_heap a o x) (juice_problem n mm ml st) f
               /\ out_values out 0%nat = Some (f 0%nat)
               /\ out_values out 1%nat = Some (f 1%nat)
               /\ out_values out 2%nat = Some (f 2%nat).
Proof.
  intros Hg out.
  assert (Hst : out_status out = LpStatusOptimal)
    by exact (contract_feasible solver contract _ _ g Hg).
  split; [exact Hst|].
  destruct (contract_optimal solver contract _ _ Hst) as [Hn Hopt].
  change (variables (juice_problem n mm ml st)) with [0%nat; 1%nat; 2%nat] in Hn.
  inversion_clear Hn as [|? ? H0 Hn1]. inversion_clear Hn1 as [|? ? H1 Hn2].
  inversion_clear Hn2 as [|? ? H2 _].
  exists (reading (out_values out)). split; [exact Hopt|].
  repeat split; apply reading_some; trivial.
Qed.

(** Cells 5 to 11 on the table of the notebook. *)
Lemma run_juice_240 :
  run solver juice_data 240 220
  = Ok (mkNotebook
          (mkSession (juice_heap (Some 56) (Some 36) (Some 0))
                     (juice_solved 240 220 LpStatusOptimal) juice_vars_table)
          ["Status: Optimal"]
          (Some [ ("Apple Juice", Some 56); ("Orange Juice", Some 36);
                  ("Mixed Fruit Juice", Some 0); ("Total Profit", Some 2480) ])
          None).
Proof.
  unfold run. rewrite build_juice. cbn [bind].
  unfold cell11, start. cbn [session stdout sensitivity_results].
  unfold juice_model. rewrite solve_juice.
  assert (Hg : feasible (juice_heap None None None) (juice_solved 240 220 LpStatusNotSolved)
                        (quantities [56; 36; 0])).
  { apply feasible_juice. unfold quantities. cbn [nth]. lia. }
  destruct (solver_on_juice _ _ _ _ _ _ _ _ Hg) as [Hst [f [Hopt [H0 [H1 H2]]]]].
  apply optimum_juice_240 in Hopt. destruct Hopt as [E0 [E1 E2]].
  rewrite E0 in H0. rewrite E1 in H1. rewrite E2 in H2.
  fold (juice_solved 240 220 LpStatusNotSolved) in H0, H1, H2, Hst.
  set (out := solver _ _) in *.
  unfold assignVarsVals, juice_heap. cbn.
  rewrite H0, H1, H2, Hst. reflexivity.
Qed.


(** C1.  For the table of the notebook and the budgets 240 and 220, cells 5
    to 11 run with any solver that meets the contract end in the status
    Optimal, printed as such, with the quantities Apple Juice = 56, Orange
    Juice = 36, Mixed Fruit Juice = 0 and the objective value 2480 in
    [results]; and these quantities are an optimum of the integer program:
    feasible, and no feasible assignment earns more. *)
Theorem worked_example_240 :
  run solver juice_data 240 220
  = Ok (mkNotebook
          (mkSession (juice_heap (Some 56) (Some 36) (Some 0))
                     (juice_solved 240 220 LpStatusOptimal) juice_vars_table)
          ["Status: Optimal"]
          (Some [ ("Apple Juice", Some 56); ("Orange Juice", Some 36);
                  ("Mixed Fruit Juice", Some 0); ("Total Profit", Some 2480) ])
          None)
  /\ optimum (juice_heap None None None) (juice_model 240 220 LpStatusNotSolved)
             (quantities [56; 36; 0])
  /\ score (juice_model 240 220 LpStatusNotSolved) (quantities [56; 36; 0]) = 2480.
Proof.
  split; [exact run_juice_240|].
  split; [apply optimum_juice_240; tauto|reflexivity].
Qed.


End Contract.

(** The exhaustive solver is a solver that meets the contract; on the
    model of the notebook it finds the quantities of the notebook. *)
Lemma worked_example_240_witness :
  run (exhaustive true) juice_data 240 220
  = Ok (mkNotebook
          (mkSession (juice_heap (Some 56) (Some 36) (Some 0))
                     (juice_solved 240 220 LpStatusOptimal) juice_vars_table)
          ["Status: Optimal"]
          (Some [ ("Apple Juice", Some 56); ("Orange Juice", Some 36);
                  ("Mixed Fruit Juice", Some 0); ("Total Profit", Some 2480) ])
          None)
  /\ optimum (juice_heap None None None) (juice_model 240 220 LpStatusNotSolved)
             (quantities [56; 36; 0])
  /\ score (juice_model 240 220 LpStatusNotSolved) (quantities [56; 36; 0]) = 2480.
Proof.
  exact (worked_example_240 (exhaustive true) (exhaustive_contract true)).
Defined.


(** ** Dictionaries *)

Lemma get_None_keys {V : Type} (d : Py.dict V) (k : string) :
  Py.get d k = None <-> ~ In k (Py.keys d).
Proof.
  induction d as [|[k' v] d IH]; simpl; [tauto|].
  destruct (String.eqb k' k) eqn:E.
  - apply String.eqb_eq in E. split; [discriminate|]. intros H. destruct H. tauto.
  - apply String.eqb_neq in E. rewrite IH. tauto.
Qed.

Lemma setitem_fresh {V : Type} (d : Py.dict V) (k : string) (v : V) :
  Py.get d k = None -> Py.setitem d k v = d ++ [(k, v)].
Proof.
  induction d as [|[k' v'] d IH]; simpl; [reflexivity|].
  destruct (String.eqb k' k); [discriminate|].
  intros H. rewrite IH by exact H. reflexivity.
Qed.

Lemma get_app {V : Type} (d d' : Py.dict V) (k : string) :
  Py.get (d ++ d') k = match Py.get d k with Some v => Some v | None => Py.get d' k end.
Proof.
  induction d as [|[k' v'] d IH]; simpl; [reflexivity|].
  destruct (String.eqb k' k); [reflexivity|exact IH].
Qed.

Lemma keys_setitem {V : Type} (d : Py.dict V) (k : string) (v : V) :
  Py.keys (Py.setitem d k v)
  = if existsb (String.eqb k) (Py.keys d) then Py.keys d else Py.keys d ++ [k].
Proof.
  induction d as [|[k' v'] d IH]; simpl; [reflexivity|].
  rewrite (String.eqb_sym k k').
  destruct (String.eqb k' k); simpl; [reflexivity|].
  rewrite IH. destruct (existsb (String.eqb k) (Py.keys d)); reflexivity.
Qed.

Lemma get_setitem {V : Type} (d : Py.dict V) (k k' : string) (v : V) :
  Py.get (Py.setitem d k v) k' = if String.eqb k k' then Some v else Py.get d k'.
Proof.
  induction d as [|[k0 v0] d IH]; simpl.
  - destruct (String.eqb k k'); reflexivity.
  - destruct (String.eqb k0 k) eqn:E; simpl.
    + apply String.eqb_eq in E. subst k0. destruct (String.eqb k k'); reflexivity.
    + destruct (String.eqb k0 k') eqn:E'.
      * apply String.eqb_eq in E'. subst k0. rewrite String.eqb_sym, E. reflexivity.
      * exact IH.
Qed.

(** ** Cell 5 on a table without repeated names *)

Lemma cell5_fold (data : DataFrame) (ps : list string) (h : Heap) (jv : Py.dict var) :
  NoDup ps -> (forall p, In p ps -> Py.get jv p = None) ->
  fold_left
    (fun (hj : Heap * Py.dict var) (product : string) =>
       let hx := LpVariable_new (fst hj) (Py.replace product " " "_") 0
                                (loc data product MaxUnits) LpInteger in
       (fst hx, Py.setitem (snd hj) product (snd hx)))
    ps (h, jv)
  = (h ++ map (fun p => mkLpVariable (setName (Py.replace p " " "_")) 0
                                     (loc data p MaxUnits)
                                     LpInteger None) ps,
     jv ++ combine ps (seq (List.length h) (List.length ps))).
Proof.
  revert h jv; induction ps as [|p ps IH]; intros h jv Hnd Hfresh; simpl.
  - rewrite !app_nil_r. reflexivity.
  - inversion_clear Hnd as [|? ? Hp Hps].
    rewrite setitem_fresh by (apply Hfresh; simpl; tauto).
    rewrite IH.
    + rewrite <- !app_assoc. simpl.
      rewrite length_app. simpl. rewrite Nat.add_1_r. reflexivity.
    + exact Hps.
    + intros q Hq. rewrite get_app. rewrite Hfresh by (simpl; tauto).
      simpl. destruct (String.eqb p q) eqn:E; [|reflexivity].
      apply String.eqb_eq in E. subst q. tauto.
Qed.

Lemma loc_row (data : DataFrame) (col : ProductRecord -> Z) (k : nat) (r : ProductRecord) :
  NoDup (index data) -> nth_error data k = Some r -> loc data (Product r) col = col r.
Proof.
  revert k; induction data as [|r0 data IH]; intros k Hnd Hk; [destruct k; discriminate|].
  simpl in Hnd. inversion_clear Hnd as [|? ? Hr0 Hdata].
  unfold loc. simpl. destruct k as [|k]; simpl in Hk.
  - inversion Hk. subst r0. rewrite String.eqb_refl. reflexivity.
  - destruct (String.eqb (Product r0) (Product r)) eqn:E.
    + apply String.eqb_eq in E. exfalso. apply Hr0. rewrite E.
      apply in_map. exact (nth_error_In _ _ Hk).
    + exact (IH k Hdata Hk).
Qed.

Lemma get_row (data : DataFrame) (i k : nat) (r : ProductRecord) :
  NoDup (index data) -> nth_error data k = Some r ->
  Py.get (combine (index data) (seq i (List.length data))) (Product r) = Some (i + k)%nat.
Proof.
  revert i k; induction data as [|r0 data IH]; intros i k Hnd Hk; [destruct k; discriminate|].
  simpl in Hnd. inversion_clear Hnd as [|? ? Hr0 Hdata].
  simpl. destruct k as [|k]; simpl in Hk.
  - inversion Hk. subst r0. rewrite String.eqb_refl, Nat.add_0_r. reflexivity.
  - destruct (String.eqb (Product r0) (Product r)) eqn:E.
    + apply String.eqb_eq in E. exfalso. apply Hr0. rewrite E.
      apply in_map. exact (nth_error_In _ _ Hk).
    + rewrite (IH (S i) k Hdata Hk). f_equal. lia.
Qed.

(** Cell 5: the heap holds one declared variable per row, and [juice_vars]
    sends the name of the row number [k] to the variable number [k]. *)
Lemma cell5_spec (data : DataFrame) :
  NoDup (index data) ->
  cell5 data
  = mkSession (map declared data)
              (LpProblem_new "Juice_Product_Mix" LpMaximize)
              (combine (index data) (seq 0 (List.length data))).
Proof.
  intros Hnd. unfold cell5. rewrite cell5_fold; [|exact Hnd|reflexivity].
  cbn [fst snd app List.length]. f_equal.
  - unfold index. rewrite map_map.
    apply nth_error_ext. intros k. rewrite !nth_error_map.
    destruct (nth_error data k) as [r|] eqn:Hk; simpl; [|reflexivity].
    rewrite (loc_row data MaxUnits k r Hnd Hk). reflexivity.
  - unfold index. rewrite length_map. reflexivity.
Qed.

(** ** The generator and [sum] *)

Lemma weighted_items (data0 : DataFrame) (jv : Py.dict var) (col : ProductRecord -> Z)
                     (data : DataFrame) (i : nat) :
  (forall k r, nth_error data k = Some r ->
               loc data0 (Product r) col = col r
               /\ Py.get jv (Product r) = Some (i + k)%nat) ->
  Py.mapM (fun p => x <- Py.getitem jv p ;; Ok (rmul (loc data0 p col) x)) (index data)
  = Ok (items col i data).
Proof.
  revert i; induction data as [|r data IH]; intros i H; simpl; [reflexivity|].
  destruct (H 0%nat r eq_refl) as [Hl Hg].
  unfold Py.getitem at 1. rewrite Hg, Nat.add_0_r. cbn [bind]. rewrite Hl.
  rewrite (IH (S i)); [reflexivity|].
  intros k r' Hk. destruct (H (S k) r' Hk) as [Hl' Hg'].
  split; [exact Hl'|]. rewrite Hg'. f_equal. lia.
Qed.

Lemma weighted_spec (data : DataFrame) (col : ProductRecord -> Z) :
  NoDup (index data) ->
  weighted data (combine (index data) (seq 0 (List.length data))) col
  = Ok (items col 0 data).
Proof.
  intros Hnd. apply weighted_items. intros k r Hk. split.
  - exact (loc_row data col k r Hnd Hk).
  - exact (get_row data 0 k r Hnd Hk).
Qed.

Lemma eval_lin (f : var -> Z) (e : LpAffineExpression) :
  eval f e = lin f (terms e) + constant e.
Proof.
  unfold eval, lin. induction (terms e) as [|t ts IH]; simpl; [reflexivity|].
  rewrite IH. lia.
Qed.

Lemma lin_addterm (f : var -> Z) (ts : list (var * Z)) (x : var) (k : Z) :
  lin f (addterm ts x k) = lin f ts + k * f x.
Proof.
  unfold lin. induction ts as [|[x' y] ts IH]; cbn [addterm fold_right fst snd]; [lia|].
  destruct (Nat.eqb x' x) eqn:E; cbn [fold_right fst snd].
  - apply Nat.eqb_eq in E. subst x'.
    destruct (y =? 0) eqn:Ey; [apply Z.eqb_eq in Ey; subst y|]; lia.
  - rewrite IH. lia.
Qed.

Lemma vars_addterm (ts : list (var * Z)) (x : var) (k : Z) (y : var) :
  In y (map fst (addterm ts x k)) -> In y (map fst ts) \/ y = x.
Proof.
  induction ts as [|[x' c] ts IH]; cbn [addterm map fst In].
  - intros [H|[]]. right. symmetry. exact H.
  - destruct (Nat.eqb x' x); cbn [map fst In]; tauto.
Qed.

Lemma eval_addInPlace (f : var -> Z) (a e : LpAffineExpression) :
  eval f (addInPlace a e) = eval f a + eval f e.
Proof.
  rewrite !eval_lin. unfold addInPlace. cbn [terms constant].
  enough (H : forall es ts,
             lin f (fold_left (fun ts t => addterm ts (fst t) (snd t)) es ts)
             = lin f ts + lin f es) by (rewrite H; lia).
  induction es as [|t es IH]; intros ts; cbn [fold_left].
  - unfold lin at 3. simpl. lia.
  - rewrite IH, lin_addterm. unfold lin at 4. cbn [fold_right]. fold (lin f es). lia.
Qed.

Lemma vars_addInPlace (a e : LpAffineExpression) (y : var) :
  In y (expr_vars (addInPlace a e)) -> In y (expr_vars a) \/ In y (expr_vars e).
Proof.
  unfold expr_vars, addInPlace. cbn [terms].
  generalize (terms a). induction (terms e) as [|t es IH]; intros ts; cbn [fold_left].
  - tauto.
  - intros H. apply IH in H. cbn [map In]. destruct H as [H|H]; [|tauto].
    apply vars_addterm in H. destruct H as [H|H]; [tauto|]. subst y. tauto.
Qed.

Lemma eval_copy (f : var -> Z) (e : LpAffineExpression) : eval f (copy e) = eval f e.
Proof. reflexivity. Qed.

Lemma eval_addInPlace_number (f : var -> Z) (a : LpAffineExpression) (z : Z) :
  eval f (addInPlace_number a z) = eval f a + z.
Proof. rewrite !eval_lin. cbn [addInPlace_number terms constant]. lia. Qed.

Lemma eval_rmul (f : var -> Z) (c : Z) (x : var) : eval f (rmul c x) = c * f x.
Proof.
  unfold rmul, eval. destruct (c =? 0) eqn:E; cbn [terms constant fold_right fst snd].
  - apply Z.eqb_eq in E. subst c. lia.
  - lia.
Qed.

Lemma vars_rmul (c : Z) (x y : var) : In y (expr_vars (rmul c x)) -> y = x.
Proof.
  unfold rmul, expr_vars. destruct (c =? 0); cbn [terms map fst In]; [tauto|].
  intros [H|[]]. symmetry. exact H.
Qed.

(** Adding the items of the generator to [a], from the left. *)
Lemma eval_fold_items (f : var -> Z) (col : ProductRecord -> Z) (data : DataFrame)
                      (i : nat) (a : LpAffineExpression) :
  eval f (fold_left (fun a e' => addInPlace (copy a) e') (items col i data) a)
  = eval f a + weighted_sum col f i data.
Proof.
  revert i a; induction data as [|r data IH]; intros i a; cbn [items fold_left weighted_sum].
  - lia.
  - rewrite IH, eval_addInPlace, eval_copy, eval_rmul. lia.
Qed.

Lemma vars_fold_items (col : ProductRecord -> Z) (data : DataFrame) (i : nat)
                      (a : LpAffineExpression) (y : var) :
  In y (expr_vars (fold_left (fun a e' => addInPlace (copy a) e') (items col i data) a)) ->
  In y (expr_vars a) \/ (i <= y < i + List.length data)%nat.
Proof.
  revert i a; induction data as [|r data IH]; intros i a; cbn [items fold_left List.length].
  - tauto.
  - intros H. apply IH in H. destruct H as [H|H]; [|lia].
    apply vars_addInPlace in H. destruct H as [H|H]; [tauto|].
    apply vars_rmul in H. lia.
Qed.

(** [sum] over the items of a table with at least one row is an expression,
    whose value is the weighted sum over the rows and whose variables are
    variables of the rows. *)
Lemma sum_items (col : ProductRecord -> Z) (data : DataFrame) :
  data <> [] ->
  exists e, sum (items col 0 data) = PyAffine e
            /\ (forall f, eval f e = weighted_sum col f 0 data)
            /\ (forall y, In y (expr_vars e) -> (y < List.length data)%nat).
Proof.
  destruct data as [|r data]; [tauto|]. intros _.
  cbn [items sum]. eexists. split; [reflexivity|]. split.
  - intros f. rewrite eval_fold_items. cbn [weighted_sum].
    rewrite eval_addInPlace_number, eval_copy, eval_rmul. lia.
  - intros y H. apply vars_fold_items in H. cbn [List.length].
    destruct H as [H|H]; [|lia].
    change (In y (expr_vars (rmul (col r) 0%nat))) in H. apply vars_rmul in H. lia.
Qed.

(** ** Building the model *)

(** The build on a table with at least one row and no repeated name. *)
Lemma build_nonempty (data : DataFrame) (max_machine_time max_labor_time : Z) :
  data <> [] -> NoDup (index data) ->
  exists s e cm cl,
    build data max_machine_time max_labor_time = Ok s
    /\ heap s = map declared data
    /\ juice_vars s = combine (index data) (seq 0 (List.length data))
    /\ model s = mkProblem "Juice_Product_Mix" LpMaximize (Some e)
                           [("Machine_Time", cm); ("Labor_Time", cl)]
                           LpStatusNotSolved None
    /\ (forall f, eval f e = weighted_sum Profit f 0 data)
    /\ (forall y, In y (expr_vars e) -> (y < List.length data)%nat)
    /\ csense cm = LpConstraintLE /\ csense cl = LpConstraintLE
    /\ (forall f, satisfied f cm <-> weighted_sum MachineTime f 0 data <= max_machine_time)
    /\ (forall f, satisfied f cl <-> weighted_sum LaborTime f 0 data <= max_labor_time).
Proof.
  intros Hne Hnd.
  destruct (sum_items Profit data Hne) as [e [He [Hev Hvars]]].
  destruct (sum_items MachineTime data Hne) as [e1 [He1 [Hev1 _]]].
  destruct (sum_items LaborTime data Hne) as [e2 [He2 [Hev2 _]]].
  eexists. exists (set_name e "Total_Profit").
  exists (mkConstraint (mkExpr (terms e1) (constant e1 - max_machine_time)
                               (Some "Machine_Time")) LpConstraintLE).
  exists (mkConstraint (mkExpr (terms e2) (constant e2 - max_labor_time)
                               (Some "Labor_Time")) LpConstraintLE).
  split.
  - unfold build. rewrite (cell5_spec data Hnd).
    unfold cell7. cbn [juice_vars model heap].
    rewrite (weighted_spec data Profit Hnd). cbn [bind]. rewrite He. cbn [iadd bind].
    unfold cell9. cbn [juice_vars model heap].
    rewrite (weighted_spec data MachineTime Hnd). cbn [bind]. rewrite He1.
    rewrite (weighted_spec data LaborTime Hnd). cbn [bind]. rewrite He2.
    reflexivity.
  - cbn [heap juice_vars model csense].
    split; [reflexivity|]. split; [reflexivity|]. split; [reflexivity|].
    split; [intros f; rewrite <- Hev; reflexivity|].
    split; [exact Hvars|].
    split; [reflexivity|]. split; [reflexivity|].
    split; intros f; unfold satisfied; cbn [csense expr];
      rewrite eval_lin; cbn [terms constant].
    + specialize (Hev1 f). rewrite eval_lin in Hev1. lia.
    + specialize (Hev2 f). rewrite eval_lin in Hev2. lia.
Qed.

Lemma keys_combine {V : Type} (ps : list string) (xs : list V) :
  List.length ps = List.length xs -> Py.keys (combine ps xs) = ps.
Proof.
  revert xs; induction ps as [|p ps IH]; intros [|x xs] H; simpl in *;
    try reflexivity; try discriminate.
  rewrite IH; [reflexivity|]. lia.
Qed.

(** C3.  For every table with at least one row and no repeated product
    name, whatever the caps and the budgets (so in particular for
    non-negative ones), the build of cells 5, 7 and 9 succeeds.  The heap
    holds exactly one variable per row, of category Integer, with the bounds
    0 and [MaxUnits] of the row, and [juice_vars] sends the product of the
    row number [k] to the variable number [k]; the problem maximizes an
    objective whose value is the sum of profit times quantity over the rows
    and which mentions variables of the rows only; and it has exactly the
    two constraints "Machine_Time" and "Labor_Time", which say that the sum
    of machine time, and of labor time, times quantity is at most the
    budget. *)
Theorem build_valid (data : DataFrame) (max_machine_time max_labor_time : Z) :
  data <> [] -> NoDup (index data) ->
  exists s e cm cl,
    build data max_machine_time max_labor_time = Ok s
    /\ List.length (heap s) = List.length data
    /\ (forall k r, nth_error data k = Some r ->
          Py.get (juice_vars s) (Product r) = Some k
          /\ exists v, nth_error (heap s) k = Some v
                       /\ cat v = LpInteger /\ lowBound v = 0 /\ upBound v = MaxUnits r)
    /\ Py.keys (juice_vars s) = index data
    /\ sense (model s) = LpMaximize
    /\ objective (model s) = Some e
    /\ (forall f, eval f e = weighted_sum Profit f 0 data)
    /\ (forall y, In y (expr_vars e) -> (y < List.length data)%nat)
    /\ constraints (model s) = [("Machine_Time", cm); ("Labor_Time", cl)]
    /\ (forall f, satisfied f cm <-> weighted_sum MachineTime f 0 data <= max_machine_time)
    /\ (forall f, satisfied f cl <-> weighted_sum LaborTime f 0 data <= max_labor_time).
Proof.
  intros Hne Hnd.
  destruct (build_nonempty data max_machine_time max_labor_time Hne Hnd)
    as [s [e [cm [cl [Hb [Hh [Hj [Hm [He [Hv [_ [_ [Hcm Hcl]]]]]]]]]]]]].
  exists s, e, cm, cl.
  split; [exact Hb|].
  split; [rewrite Hh; apply length_map|].
  split.
  { intros k r Hk. split.
    - rewrite Hj. exact (get_row data 0 k r Hnd Hk).
    - exists (declared r). rewrite Hh, nth_error_map, Hk. simpl. tauto. }
  split.
  { rewrite Hj. apply keys_combine.
    unfold index. rewrite length_map, length_seq. reflexivity. }
  rewrite Hm. cbn [sense objective constraints]. tauto.
Qed.

Lemma NoDup_juice : NoDup (index juice_data).
Proof. distinct_names. Qed.

Lemma build_valid_witness :
  exists s e cm cl,
    build juice_data 240 220 = Ok s
    /\ List.length (heap s) = List.length juice_data
    /\ (forall k r, nth_error juice_data k = Some r ->
          Py.get (juice_vars s) (Product r) = Some k
          /\ exists v, nth_error (heap s) k = Some v
                       /\ cat v = LpInteger /\ lowBound v = 0 /\ upBound v = MaxUnits r)
    /\ Py.keys (juice_vars s) = index juice_data
    /\ sense (model s) = LpMaximize
    /\ objective (model s) = Some e
    /\ (forall f, eval f e = weighted_sum Profit f 0 juice_data)
    /\ (forall y, In y (expr_vars e) -> (y < List.length juice_data)%nat)
    /\ constraints (model s) = [("Machine_Time", cm); ("Labor_Time", cl)]
    /\ (forall f, satisfied f cm <-> weighted_sum MachineTime f 0 juice_data <= 240)
    /\ (forall f, satisfied f cl <-> weighted_sum LaborTime f 0 juice_data <= 220).
Proof.
  apply (build_valid juice_data 240 220).
  - discriminate.
  - exact NoDup_juice.
Defined.

(** ** No validation in the build *)

(** C4 as stated fails.  A negative cap, a negative budget and an empty
    table are each accepted: the build returns a model, with the upper bound
    -5 for the first, the right-hand side -10 (the constant 10) for the
    second, and neither variable nor constraint for the third. *)
Lemma build_accepts_invalid_input :
  build [mkProduct "A" 1 1 1 (-5)] 10 10
  = Ok (mkSession
          [mkLpVariable (Some "A") 0 (-5) LpInteger None]
          (mkProblem "Juice_Product_Mix" LpMaximize
             (Some (mkExpr [(0%nat, 1)] 0 (Some "Total_Profit")))
             [ ("Machine_Time",
                mkConstraint (mkExpr [(0%nat, 1)] (-10) (Some "Machine_Time")) LpConstraintLE);
               ("Labor_Time",
                mkConstraint (mkExpr [(0%nat, 1)] (-10) (Some "Labor_Time")) LpConstraintLE) ]
             LpStatusNotSolved None)
          [("A", 0%nat)])
  /\ build [mkProduct "A" 1 1 1 5] (-10) 10
     = Ok (mkSession
             [mkLpVariable (Some "A") 0 5 LpInteger None]
             (mkProblem "Juice_Product_Mix" LpMaximize
                (Some (mkExpr [(0%nat, 1)] 0 (Some "Total_Profit")))
                [ ("Machine_Time",
                   mkConstraint (mkExpr [(0%nat, 1)] 10 (Some "Machine_Time")) LpConstraintLE);
                  ("Labor_Time",
                   mkConstraint (mkExpr [(0%nat, 1)] (-10) (Some "Labor_Time")) LpConstraintLE) ]
                LpStatusNotSolved None)
             [("A", 0%nat)])
  /\ build [] 10 10
     = Ok (mkSession
             []
             (mkProblem "Juice_Product_Mix" LpMaximize
                (Some (mkExpr [] 0 (Some "Total_Profit"))) [] LpStatusNotSolved None)
             []).
Proof. repeat split. Qed.

(** C4, as the code has it.  The build validates nothing.  For a table with
    at least one row (and no repeated name) it returns a model whatever the
    caps and the budgets: every cap, negative or not, is the upper bound of
    its variable, every row has its variable, and the budgets, negative or
    not, are the right-hand sides of the two constraints.  For the empty
    table and non-negative budgets it returns a model without variables and
    without constraints, whose objective is the constant 0. *)
Theorem build_unchecked (data : DataFrame) (max_machine_time max_labor_time : Z) :
  NoDup (index data) ->
  (data <> [] ->
   exists s cm cl,
     build data max_machine_time max_labor_time = Ok s
     /\ map upBound (heap s) = map MaxUnits data
     /\ map lowBound (heap s) = map (fun _ => 0) data
     /\ constraints (model s) = [("Machine_Time", cm); ("Labor_Time", cl)]
     /\ (forall f, satisfied f cm <-> weighted_sum MachineTime f 0 data <= max_machine_time)
     /\ (forall f, satisfied f cl <-> weighted_sum LaborTime f 0 data <= max_labor_time))
  /\ (data = [] -> 0 <= max_machine_time -> 0 <= max_labor_time ->
      build data max_machine_time max_labor_time
      = Ok (mkSession
              []
              (mkProblem "Juice_Product_Mix" LpMaximize
                 (Some (mkExpr [] 0 (Some "Total_Profit"))) [] LpStatusNotSolved None)
              [])).
Proof.
  intros Hnd. split.
  - intros Hne.
    destruct (build_nonempty data max_machine_time max_labor_time Hne Hnd)
      as [s [e [cm [cl [Hb [Hh [_ [Hm [_ [_ [_ [_ [Hcm Hcl]]]]]]]]]]]]].
    exists s, cm, cl. rewrite Hh, Hm, !map_map. cbn [constraints declared upBound lowBound].
    tauto.
  - intros -> Hm Hl. unfold build, cell9. cbn [cell5 cell7 index map fold_left fst snd
      weighted mapM bind sum iadd juice_vars model heap le].
    apply Z.leb_le in Hm, Hl. rewrite Hm. cbn [iadd bind]. rewrite Hl. reflexivity.
Qed.

Lemma build_unchecked_witness :
  (exists s cm cl,
     build [mkProduct "A" 1 1 1 (-5)] (-10) 10 = Ok s
     /\ map upBound (heap s) = map MaxUnits [mkProduct "A" 1 1 1 (-5)]
     /\ map lowBound (heap s) = map (fun _ => 0) [mkProduct "A" 1 1 1 (-5)]
     /\ constraints (model s) = [("Machine_Time", cm); ("Labor_Time", cl)]
     /\ (forall f, satisfied f cm
                   <-> weighted_sum MachineTime f 0 [mkProduct "A" 1 1 1 (-5)] <= -10)
     /\ (forall f, satisfied f cl
                   <-> weighted_sum LaborTime f 0 [mkProduct "A" 1 1 1 (-5)] <= 10))
  /\ build [] 10 10
     = Ok (mkSession
             []
             (mkProblem "Juice_Product_Mix" LpMaximize
                (Some (mkExpr [] 0 (Some "Total_Profit"))) [] LpStatusNotSolved None)
             []).
Proof.
  split.
  - apply (build_unchecked [mkProduct "A" 1 1 1 (-5)] (-10) 10).
    + distinct_names.
    + discriminate.
  - apply (build_unchecked [] 10 10).
    + constructor.
    + reflexivity.
    + lia.
    + lia.
Defined.

(** ** No check of the variable names *)

(** C5 as stated fails.  The products "A B" and "A_B" are built into one
    model: each has its own variable, and both variables are named "A_B". *)
Lemma build_accepts_name_collision :
  build [mkProduct "A B" 1 1 1 5; mkProduct "A_B" 2 1 1 5] 10 10
  = Ok (mkSession
          [ mkLpVariable (Some "A_B") 0 5 LpInteger None;
            mkLpVariable (Some "A_B") 0 5 LpInteger None ]
          (mkProblem "Juice_Product_Mix" LpMaximize
             (Some (mkExpr [(0%nat, 1); (1%nat, 2)] 0 (Some "Total_Profit")))
             [ ("Machine_Time",
                mkConstraint (mkExpr [(0%nat, 1); (1%nat, 1)] (-10) (Some "Machine_Time"))
                             LpConstraintLE);
               ("Labor_Time",
                mkConstraint (mkExpr [(0%nat, 1); (1%nat, 1)] (-10) (Some "Labor_Time"))
                             LpConstraintLE) ]
             LpStatusNotSolved None)
          [("A B", 0%nat); ("A_B", 1%nat)]).
Proof. reflexivity. Qed.

(** What the names of the variables come to: a space becomes an underscore
    in cell 5, the other characters that PuLP does not keep become one in
    [LpVariable], and an empty name is no name. *)
Lemma var_name_of_examples :
  var_name_of (mkProduct "A B" 1 1 1 5) = Some "A_B"
  /\ var_name_of (mkProduct "A-B" 1 1 1 5) = Some "A_B"
  /\ var_name_of (mkProduct "A+[B]>/C" 1 1 1 5) = Some "A__B___C"
  /\ var_name_of (mkProduct "" 1 1 1 5) = None.
Proof. repeat split. Qed.

(** C5, as the code has it.  The build compares no names.  For a table with
    at least one row and no repeated product name it returns a model in
    which the product of the row [k] has the variable number [k], named by
    what [LpVariable] makes of the product name with its spaces replaced
    (each of the characters [-+[] ->/] an underscore, no name for the empty
    string); so two different rows whose names come out alike have two
    different variables of one name. *)
Theorem build_same_name (data : DataFrame) (max_machine_time max_labor_time : Z) :
  data <> [] -> NoDup (index data) ->
  exists s,
    build data max_machine_time max_labor_time = Ok s
    /\ (forall k r, nth_error data k = Some r ->
          Py.get (juice_vars s) (Product r) = Some k
          /\ exists v, nth_error (heap s) k = Some v
                       /\ name v = setName (Py.replace (Product r) " " "_"))
    /\ (forall i j ri rj,
          i <> j -> nth_error data i = Some ri -> nth_error data j = Some rj ->
          setName (Py.replace (Product ri) " " "_")
          = setName (Py.replace (Product rj) " " "_") ->
          exists vi vj,
            nth_error (heap s) i = Some vi /\ nth_error (heap s) j = Some vj
            /\ name vi = name vj).
Proof.
  intros Hne Hnd.
  destruct (build_nonempty data max_machine_time max_labor_time Hne Hnd)
    as [s [e [cm [cl [Hb [Hh [Hj _]]]]]]].
  exists s. split; [exact Hb|].
  assert (Hrow : forall k r, nth_error data k = Some r ->
                   nth_error (heap s) k = Some (declared r)).
  { intros k r Hk. rewrite Hh, nth_error_map, Hk. reflexivity. }
  split.
  - intros k r Hk. split.
    + rewrite Hj. exact (get_row data 0 k r Hnd Hk).
    + exists (declared r). split; [exact (Hrow k r Hk)|reflexivity].
  - intros i j ri rj _ Hi Hj' Heq.
    exists (declared ri), (declared rj).
    split; [exact (Hrow i ri Hi)|]. split; [exact (Hrow j rj Hj')|].
    exact Heq.
Qed.

Lemma build_same_name_witness :
  exists s,
    build [mkProduct "A B" 1 1 1 5; mkProduct "A_B" 2 1 1 5; mkProduct "A-B" 3 1 1 5]
          10 10 = Ok s
    /\ (forall k r,
          nth_error [mkProduct "A B" 1 1 1 5; mkProduct "A_B" 2 1 1 5;
                     mkProduct "A-B" 3 1 1 5] k = Some r ->
          Py.get (juice_vars s) (Product r) = Some k
          /\ exists v, nth_error (heap s) k = Some v
                       /\ name v = setName (Py.replace (Product r) " " "_"))
    /\ (forall i j ri rj,
          i <> j ->
          nth_error [mkProduct "A B" 1 1 1 5; mkProduct "A_B" 2 1 1 5;
                     mkProduct "A-B" 3 1 1 5] i = Some ri ->
          nth_error [mkProduct "A B" 1 1 1 5; mkProduct "A_B" 2 1 1 5;
                     mkProduct "A-B" 3 1 1 5] j = Some rj ->
          setName (Py.replace (Product ri) " " "_")
          = setName (Py.replace (Product rj) " " "_") ->
          exists vi vj,
            nth_error (heap s) i = Some vi /\ nth_error (heap s) j = Some vj
            /\ name vi = name vj).
Proof.
  apply (build_same_name
           [mkProduct "A B" 1 1 1 5; mkProduct "A_B" 2 1 1 5; mkProduct "A-B" 3 1 1 5]
           10 10).
  - discriminate.
  - distinct_names.
Defined.

(** ** Changing a right-hand side *)

(** C6.  [setConstraintBound] on any session: a name that the constraint
    dictionary of the model holds is accepted; any other name raises the
    [KeyError] of the dictionary at the statement itself and the session,
    with its model, is the one before the statement.  In a model built from
    a table with at least one row the names held are "Machine_Time" and
    "Labor_Time" and no other. *)
Theorem setConstraintBound_not_found (s : Session) (n : string) (rhs : Z) :
  (In n (Py.keys (constraints (model s))) ->
   exists s', setConstraintBound s n rhs = (s', Ok tt))
  /\ (~ In n (Py.keys (constraints (model s))) ->
      setConstraintBound s n rhs = (s, Raise (KeyError n)))
  /\ (forall data max_machine_time max_labor_time,
        data <> [] -> NoDup (index data) ->
        build data max_machine_time max_labor_time = Ok s ->
        Py.keys (constraints (model s)) = ["Machine_Time"; "Labor_Time"]).
Proof.
  split; [|split].
  - intros Hin. unfold setConstraintBound, Py.getitem.
    destruct (Py.get (constraints (model s)) n) as [c|] eqn:E.
    + eexists. reflexivity.
    + apply get_None_keys in E. tauto.
  - intros Hnot. apply get_None_keys in Hnot.
    unfold setConstraintBound, Py.getitem. rewrite Hnot. reflexivity.
  - intros data mm ml Hne Hnd Hb.
    destruct (build_nonempty data mm ml Hne Hnd)
      as [s0 [e [cm [cl [Hb0 [_ [_ [Hm _]]]]]]]].
    rewrite Hb in Hb0. inversion Hb0. subst s0. rewrite Hm. reflexivity.
Qed.

Lemma setConstraintBound_not_found_witness :
  (exists s',
     setConstraintBound
       (mkSession (juice_heap None None None) (juice_model 240 220 LpStatusNotSolved)
                  juice_vars_table) "Labor_Time" 200 = (s', Ok tt))
  /\ setConstraintBound
       (mkSession (juice_heap None None None) (juice_model 240 220 LpStatusNotSolved)
                  juice_vars_table) "Machine Time" 260
     = (mkSession (juice_heap None None None) (juice_model 240 220 LpStatusNotSolved)
                  juice_vars_table,
        Raise (KeyError "Machine Time"))
  /\ Py.keys (constraints (juice_model 240 220 LpStatusNotSolved))
     = ["Machine_Time"; "Labor_Time"].
Proof.
  split; [|split].
  - apply (setConstraintBound_not_found _ "Labor_Time" 200). simpl. tauto.
  - apply (setConstraintBound_not_found _ "Machine Time" 260). simpl.
    intros H. repeat (destruct H as [H|H]; [discriminate H|]). exact H.
  - apply (proj2 (proj2 (setConstraintBound_not_found
             (mkSession (juice_heap None None None) (juice_model 240 220 LpStatusNotSolved)
                        juice_vars_table) "Machine_Time" 260)) juice_data 240 220).
    + discriminate.
    + exact NoDup_juice.
    + exact build_juice.
Defined.

(** C8.  When [setConstraintBound] is accepted for the name [n], the
    session differs from the one before in one place, the constant of the
    constraint [n], which is minus the new right-hand side: the heap, and so
    the bounds and the category of every variable, [juice_vars], the name,
    sense, objective, status and dummy variable of the problem are the same; the
    dictionary of constraints has the same names in the same order; every
    other constraint is the same; and the constraint [n] keeps its terms,
    its sense and its name. *)
Theorem setConstraintBound_frame (s s' : Session) (n : string) (rhs : Z) :
  setConstraintBound s n rhs = (s', Ok tt) ->
  heap s' = heap s
  /\ juice_vars s' = juice_vars s
  /\ pname (model s') = pname (model s)
  /\ sense (model s') = sense (model s)
  /\ objective (model s') = objective (model s)
  /\ status (model s') = status (model s)
  /\ dummyVar (model s') = dummyVar (model s)
  /\ Py.keys (constraints (model s')) = Py.keys (constraints (model s))
  /\ (forall n', n' <> n ->
        Py.get (constraints (model s')) n' = Py.get (constraints (model s)) n')
  /\ exists c c',
       Py.get (constraints (model s)) n = Some c
       /\ Py.get (constraints (model s')) n = Some c'
       /\ terms (expr c') = terms (expr c)
       /\ ename (expr c') = ename (expr c)
       /\ csense c' = csense c
       /\ constant (expr c') = - rhs.
Proof.
  unfold setConstraintBound, Py.getitem.
  destruct (Py.get (constraints (model s)) n) as [c|] eqn:E; [|discriminate].
  intros H. inversion H. subst s'. clear H.
  cbn [heap juice_vars model set_constraints pname sense objective status dummyVar
       constraints].
  repeat (split; [reflexivity|]).
  split.
  { rewrite keys_setitem.
    destruct (existsb (String.eqb n) (Py.keys (constraints (model s)))) eqn:Ex;
      [reflexivity|].
    exfalso. assert (Hin : In n (Py.keys (constraints (model s)))).
    { destruct (in_dec string_dec n (Py.keys (constraints (model s)))) as [Hi|Hi];
        [exact Hi|]. apply get_None_keys in Hi. rewrite Hi in E. discriminate. }
    assert (Ht : existsb (String.eqb n) (Py.keys (constraints (model s))) = true).
    { apply existsb_exists. exists n. split; [exact Hin|apply String.eqb_refl]. }
    rewrite Ht in Ex. discriminate. }
  split.
  { intros n' Hn'. rewrite get_setitem.
    destruct (String.eqb n n') eqn:En; [|reflexivity].
    apply String.eqb_eq in En. subst n'. tauto. }
  exists c, (changeRHS c rhs).
  split; [reflexivity|]. split; [|repeat split].
  rewrite get_setitem, String.eqb_refl. reflexivity.
Qed.

Lemma setConstraintBound_frame_witness :
  let s := mkSession (juice_heap (Some 56) (Some 36) (Some 0))
                     (juice_model 240 220 LpStatusOptimal) juice_vars_table in
  let s' := mkSession (juice_heap (Some 56) (Some 36) (Some 0))
                      (juice_model 260 220 LpStatusOptimal) juice_vars_table in
  heap s' = heap s
  /\ juice_vars s' = juice_vars s
  /\ pname (model s') = pname (model s)
  /\ sense (model s') = sense (model s)
  /\ objective (model s') = objective (model s)
  /\ status (model s') = status (model s)
  /\ dummyVar (model s') = dummyVar (model s)
  /\ Py.keys (constraints (model s')) = Py.keys (constraints (model s))
  /\ (forall n', n' <> "Machine_Time" ->
        Py.get (constraints (model s')) n' = Py.get (constraints (model s)) n')
  /\ exists c c',
       Py.get (constraints (model s)) "Machine_Time" = Some c
       /\ Py.get (constraints (model s')) "Machine_Time" = Some c'
       /\ terms (expr c') = terms (expr c)
       /\ ename (expr c') = ename (expr c)
       /\ csense c' = csense c
       /\ constant (expr c') = - 260.
Proof.
  intros s s'. apply (setConstraintBound_frame s s' "Machine_Time" 260). reflexivity.
Defined.

(** * The model of a table *)

(** ** The build in closed form *)

Lemma build_explicit (data : DataFrame) (max_machine_time max_labor_time : Z) :
  data <> [] -> NoDup (index data) ->
  build data max_machine_time max_labor_time
  = Ok (built data max_machine_time max_labor_time).
Proof.
  intros Hne Hnd.
  destruct (sum_items Profit data Hne) as [e [He _]].
  destruct (sum_items MachineTime data Hne) as [e1 [He1 _]].
  destruct (sum_items LaborTime data Hne) as [e2 [He2 _]].
  unfold build. rewrite (cell5_spec data Hnd).
  unfold cell7. cbn [juice_vars model heap].
  rewrite (weighted_spec data Profit Hnd). cbn [bind]. rewrite He. cbn [iadd bind].
  unfold cell9. cbn [juice_vars model heap].
  rewrite (weighted_spec data MachineTime Hnd). cbn [bind]. rewrite He1.
  rewrite (weighted_spec data LaborTime Hnd). cbn [bind]. rewrite He2.
  unfold built, built_model, budget_constraint. rewrite He, He1, He2. reflexivity.
Qed.

Lemma eval_affine_sum (col : ProductRecord -> Z) (data : DataFrame) (f : var -> Z) :
  eval f (affine (sum (items col 0 data))) = weighted_sum col f 0 data.
Proof.
  destruct data as [|r data]; [reflexivity|].
  destruct (sum_items col (r :: data)) as [e [He [Hev _]]]; [discriminate|].
  rewrite He. exact (Hev f).
Qed.

Lemma constant_rmul (c : Z) (x : var) : constant (rmul c x) = 0.
Proof. unfold rmul. destruct (c =? 0); cbn [constant]; lia. Qed.

Lemma constant_fold_items (col : ProductRecord -> Z) (data : DataFrame) (i : nat)
                          (a : LpAffineExpression) :
  constant (fold_left (fun a e' => addInPlace (copy a) e') (items col i data) a)
  = constant a.
Proof.
  revert i a; induction data as [|r data IH]; intros i a; cbn [items fold_left];
    [reflexivity|].
  rewrite IH. cbn [addInPlace copy constant]. rewrite constant_rmul. lia.
Qed.

(** The expressions of cells 7 and 9 have no constant part. *)
Lemma constant_affine_sum (col : ProductRecord -> Z) (data : DataFrame) :
  constant (affine (sum (items col 0 data))) = 0.
Proof.
  destruct data as [|r data]; [reflexivity|].
  cbn [items sum affine]. rewrite constant_fold_items.
  cbn [addInPlace_number copy constant]. rewrite constant_rmul. lia.
Qed.

Lemma vars_addterm_iff (ts : list (var * Z)) (x : var) (k : Z) (y : var) :
  In y (map fst (addterm ts x k)) <-> In y (map fst ts) \/ y = x.
Proof.
  split; [apply vars_addterm|].
  induction ts as [|[x' c] ts IH]; cbn [addterm map fst In].
  - intros [[]|H]. left. symmetry. exact H.
  - destruct (Nat.eqb x' x) eqn:E; cbn [map fst In].
    + apply Nat.eqb_eq in E. subst x'. intros [[H|H]|H]; auto.
    + intros [[H|H]|H]; auto.
Qed.

Lemma vars_addInPlace_iff (a e : LpAffineExpression) (y : var) :
  In y (expr_vars (addInPlace a e)) <-> In y (expr_vars a) \/ In y (expr_vars e).
Proof.
  unfold expr_vars, addInPlace. cbn [terms].
  generalize (terms a). induction (terms e) as [|t es IH]; intros ts; cbn [fold_left].
  - simpl. tauto.
  - rewrite IH, vars_addterm_iff. cbn [map In]. intuition auto.
Qed.

Lemma vars_rmul_iff (c : Z) (x y : var) :
  In y (expr_vars (rmul c x)) <-> c <> 0 /\ y = x.
Proof.
  unfold rmul, expr_vars. destruct (c =? 0) eqn:E; cbn [terms map fst In].
  - apply Z.eqb_eq in E. tauto.
  - apply Z.eqb_neq in E. intuition auto.
Qed.

Lemma vars_fold_items_iff (col : ProductRecord -> Z) (data : DataFrame) (i : nat)
                          (a : LpAffineExpression) (y : var) :
  In y (expr_vars (fold_left (fun a e' => addInPlace (copy a) e') (items col i data) a))
  <-> In y (expr_vars a)
      \/ exists k r, nth_error data k = Some r /\ col r <> 0 /\ y = (i + k)%nat.
Proof.
  revert i a; induction data as [|r data IH]; intros i a; cbn [items fold_left].
  - split; [tauto|]. intros [H|[k [r [Hk _]]]]; [exact H|]. destruct k; discriminate.
  - rewrite IH, vars_addInPlace_iff, vars_rmul_iff.
    change (expr_vars (copy a)) with (expr_vars a). split.
    + intros [[H|[Hc ->]]|[k [r' [Hk [Hc ->]]]]].
      * tauto.
      * right. exists 0%nat, r. rewrite Nat.add_0_r. auto.
      * right. exists (S k), r'. split; [exact Hk|]. split; [exact Hc|]. lia.
    + intros [H|[k [r' [Hk [Hc ->]]]]]; [tauto|].
      destruct k as [|k]; simpl in Hk.
      * inversion Hk. subst r'. left. right. split; [exact Hc|]. lia.
      * right. exists k, r'. split; [exact Hk|]. split; [exact Hc|]. lia.
Qed.

(** The variables of the expression for [col] are the rows whose [col] is
    not zero. *)
Lemma vars_affine_sum (col : ProductRecord -> Z) (data : DataFrame) (y : var) :
  In y (expr_vars (affine (sum (items col 0 data))))
  <-> exists r, nth_error data y = Some r /\ col r <> 0.
Proof.
  destruct data as [|r data].
  - simpl. split; [tauto|]. intros [r [H _]]. destruct y; discriminate.
  - cbn [items sum affine]. rewrite vars_fold_items_iff.
    change (expr_vars (addInPlace_number (copy (rmul (col r) 0%nat)) 0))
      with (expr_vars (rmul (col r) 0%nat)).
    rewrite vars_rmul_iff. split.
    + intros [[Hc ->]|[k [r' [Hk [Hc ->]]]]].
      * exists r. auto.
      * exists r'. auto.
    + intros [r' [Hy Hc]]. destruct y as [|y]; simpl in Hy.
      * inversion Hy. subst r'. auto.
      * right. exists y, r'. auto.
Qed.

(** The variables of the built problem are the rows that occur in it. *)
Lemma variables_built (n : string) (data : DataFrame) (mm ml : Z) (st : LpStatusCode)
                       (y : var) :
  In y (variables (built_model n data mm ml st))
  <-> exists r, nth_error data y = Some r /\ occurs r.
Proof.
  unfold variables. rewrite dedup_In.
  cbn [built_model objective constraints flat_map snd budget_constraint expr app].
  rewrite !in_app_iff.
  change (expr_vars (set_name (affine (sum (items Profit 0 data))) n))
    with (expr_vars (affine (sum (items Profit 0 data)))).
  change (expr_vars (mkExpr (terms (affine (sum (items MachineTime 0 data))))
                            (constant (affine (sum (items MachineTime 0 data))) - mm)
                            (Some "Machine_Time")))
    with (expr_vars (affine (sum (items MachineTime 0 data)))).
  change (expr_vars (mkExpr (terms (affine (sum (items LaborTime 0 data))))
                            (constant (affine (sum (items LaborTime 0 data))) - ml)
                            (Some "Labor_Time")))
    with (expr_vars (affine (sum (items LaborTime 0 data)))).
  rewrite !vars_affine_sum. unfold occurs. split.
  - intros [[r [H Hc]]|[[r [H Hc]]|[[r [H Hc]]|[]]]]; exists r; tauto.
  - intros [r [H [Hc|[Hc|Hc]]]]; [left|right; left|right; right; left]; exists r; tauto.
Qed.

(** ** Feasibility and values, in terms of the table *)

Lemma satisfied_budget (col : ProductRecord -> Z) (data : DataFrame) (budget : Z)
                       (n : string) (f : var -> Z) :
  satisfied f (budget_constraint col data budget n)
  <-> weighted_sum col f 0 data <= budget.
Proof.
  unfold satisfied, budget_constraint. cbn [csense expr].
  rewrite eval_lin. cbn [terms constant].
  pose proof (eval_affine_sum col data f) as H. rewrite eval_lin in H. lia.
Qed.

Lemma feasible_built (n : string) (data : DataFrame) (mm ml : Z) (st : LpStatusCode)
                      (f : var -> Z) :
  feasible (map declared data) (built_model n data mm ml st) f
  <-> (forall k r, nth_error data k = Some r -> occurs r -> 0 <= f k <= MaxUnits r)
      /\ weighted_sum MachineTime f 0 data <= mm
      /\ weighted_sum LaborTime f 0 data <= ml.
Proof.
  unfold feasible. rewrite Forall_forall.
  cbn [built_model constraints].
  split.
  - intros [Hb Hc]. split.
    + intros k r Hk Ho.
      assert (Hin : In k (variables (built_model n data mm ml st)))
        by (apply variables_built; exists r; tauto).
      specialize (Hb k Hin). unfold within in Hb.
      rewrite nth_error_map, Hk in Hb. exact Hb.
    + inversion_clear Hc as [|? ? Hm Hc1]. inversion_clear Hc1 as [|? ? Hl _].
      cbn [snd] in Hm, Hl. rewrite satisfied_budget in Hm, Hl. tauto.
  - intros [Hb [Hm Hl]]. split.
    + intros k Hin. apply variables_built in Hin. destruct Hin as [r [Hk Ho]].
      unfold within. rewrite nth_error_map, Hk. exact (Hb k r Hk Ho).
    + repeat constructor; cbn [snd]; apply satisfied_budget; assumption.
Qed.

Lemma score_built (n : string) (data : DataFrame) (mm ml : Z) (st : LpStatusCode)
                   (f : var -> Z) :
  score (built_model n data mm ml st) f = weighted_sum Profit f 0 data.
Proof.
  unfold score, objective_value. cbn [built_model sense objective].
  change (eval f (set_name (affine (sum (items Profit 0 data))) n))
    with (eval f (affine (sum (items Profit 0 data)))).
  apply eval_affine_sum.
Qed.

Lemma allowed_feasible (n : string) (data : DataFrame) (mm ml : Z) (st : LpStatusCode)
                        (q : var -> Z) :
  allowed data mm ml q -> feasible (map declared data) (built_model n data mm ml st) q.
Proof.
  intros [Hb Hc]. apply feasible_built. split; [|exact Hc].
  intros k r Hk _. exact (Hb k r Hk).
Qed.

Lemma value_var_assignVarsVals (vals : var -> option Z) (h : Heap) (k : nat) :
  value_var (assignVarsVals vals h) k
  = match nth_error h k with
    | Some v => if is_dummy v then varValue v
                else match vals k with Some z => Some z | None => varValue v end
    | None => None
    end.
Proof.
  unfold value_var, assignVarsVals. rewrite nth_error_assignVarsVals_from.
  destruct (nth_error h k) as [v|]; simpl; [|reflexivity].
  destruct (is_dummy v); [reflexivity|].
  destruct (vals k); reflexivity.
Qed.

Lemma value_expr_fold (h : Heap) (f : var -> Z) (ts : list (var * Z)) (c : Z) :
  (forall x, In x (map fst ts) -> value_var h x = Some (f x)) ->
  fold_left
    (fun s t => match s, value_var h (fst t) with
                | Some z, Some v => Some (z + v * snd t)
                | _, _ => None
                end) ts (Some c)
  = Some (c + lin f ts).
Proof.
  revert c; induction ts as [|t ts IH]; intros c H; cbn [fold_left].
  - unfold lin. simpl. f_equal. lia.
  - rewrite (H (fst t)) by (simpl; tauto).
    rewrite IH by (intros x Hx; apply H; simpl; tauto).
    unfold lin. cbn [fold_right]. f_equal. lia.
Qed.

(** [value] of an expression whose variables all have a value is its value
    under these values. *)
Lemma value_expr_some (h : Heap) (f : var -> Z) (e : LpAffineExpression) :
  (forall x, In x (expr_vars e) -> value_var h x = Some (f x)) ->
  value_expr h e = Some (eval f e).
Proof.
  intros H. unfold value_expr. rewrite (value_expr_fold h f) by exact H.
  rewrite eval_lin. f_equal. lia.
Qed.

Lemma value_expr_fold_none (h : Heap) (ts : list (var * Z)) :
  fold_left
    (fun s t => match s, value_var h (fst t) with
                | Some z, Some v => Some (z + v * snd t)
                | _, _ => None
                end) ts None
  = None.
Proof. induction ts as [|t ts IH]; cbn [fold_left]; [reflexivity|exact IH]. Qed.

(** [value] of an expression one of whose variables has no value is
    [None]. *)
Lemma value_expr_none (h : Heap) (e : LpAffineExpression) (x : var) :
  In x (expr_vars e) -> value_var h x = None -> value_expr h e = None.
Proof.
  unfold value_expr, expr_vars. generalize (Some (constant e)).
  induction (terms e) as [|t ts IH]; intros acc Hin Hx; [destruct Hin|].
  cbn [fold_left]. destruct Hin as [Ht|Hin].
  - rewrite Ht, Hx. destruct acc; apply value_expr_fold_none.
  - exact (IH _ Hin Hx).
Qed.

Lemma get_readings (h : Heap) (data : DataFrame) (i k : nat) (r : ProductRecord) :
  NoDup (index data) -> nth_error data k = Some r ->
  Py.get (readings h i data) (Product r) = Some (value_var h (i + k)%nat).
Proof.
  revert i k; induction data as [|r0 data IH]; intros i k Hnd Hk; [destruct k; discriminate|].
  simpl in Hnd. inversion_clear Hnd as [|? ? Hr0 Hdata].
  cbn [readings Py.get]. destruct k as [|k]; simpl in Hk.
  - inversion Hk. subst r0. rewrite String.eqb_refl, Nat.add_0_r. reflexivity.
  - destruct (String.eqb (Product r0) (Product r)) eqn:E.
    + apply String.eqb_eq in E. exfalso. apply Hr0. rewrite E.
      apply in_map. exact (nth_error_In _ _ Hk).
    + rewrite (IH (S i) k Hdata Hk). do 2 f_equal. lia.
Qed.

Lemma values_readings (h : Heap) (i : nat) (data : DataFrame) :
  Py.values (readings h i data) = map (value_var h) (seq i (List.length data)).
Proof.
  revert i; induction data as [|r data IH]; intros i; simpl; [reflexivity|].
  rewrite IH. reflexivity.
Qed.

(** ** Changing a budget and building with the other budget *)

Lemma changeRHS_budget (col : ProductRecord -> Z) (data : DataFrame) (budget rhs : Z)
                       (n : string) :
  changeRHS (budget_constraint col data budget n) rhs = budget_constraint col data rhs n.
Proof.
  unfold changeRHS, budget_constraint. cbn [expr terms ename csense].
  rewrite constant_affine_sum. reflexivity.
Qed.

Lemma setConstraintBound_machine (h : Heap) (jv : Py.dict var) (n : string)
                                 (data : DataFrame) (mm ml rhs : Z) (st : LpStatusCode) :
  setConstraintBound (mkSession h (built_model n data mm ml st) jv) "Machine_Time" rhs
  = (mkSession h (built_model n data rhs ml st) jv, Ok tt).
Proof.
  unfold setConstraintBound, built_model, set_constraints.
  cbn [model constraints Py.getitem Py.get Py.setitem String.eqb Ascii.eqb Bool.eqb
       heap juice_vars pname sense objective status dummyVar].
  rewrite changeRHS_budget. reflexivity.
Qed.

Lemma setConstraintBound_labor (h : Heap) (jv : Py.dict var) (n : string)
                               (data : DataFrame) (mm ml rhs : Z) (st : LpStatusCode) :
  setConstraintBound (mkSession h (built_model n data mm ml st) jv) "Labor_Time" rhs
  = (mkSession h (built_model n data mm rhs st) jv, Ok tt).
Proof.
  unfold setConstraintBound, built_model, set_constraints.
  cbn [model constraints Py.getitem Py.get Py.setitem String.eqb Ascii.eqb Bool.eqb
       heap juice_vars pname sense objective status dummyVar].
  rewrite changeRHS_budget. reflexivity.
Qed.

(** ** Extraction *)

Lemma keys_readings (h : Heap) (i : nat) (data : DataFrame) :
  Py.keys (readings h i data) = index data.
Proof.
  revert i; induction data as [|r data IH]; intros i; simpl; [reflexivity|].
  rewrite IH. reflexivity.
Qed.

Lemma comprehension_spec (s : Session) (data : DataFrame) (i : nat)
                         (d : Py.dict (option Z)) :
  NoDup (index data) ->
  (forall p, In p (index data) -> Py.get d p = None) ->
  (forall k r, nth_error data k = Some r ->
               Py.get (juice_vars s) (Product r) = Some (i + k)%nat) ->
  comprehension s (index data) d = Ok (d ++ readings (heap s) i data).
Proof.
  revert i d; induction data as [|r data IH]; intros i d Hnd Hfresh Hrows; simpl.
  - rewrite app_nil_r. reflexivity.
  - simpl in Hnd. inversion_clear Hnd as [|? ? Hr Hdata].
    unfold Py.getitem. rewrite (Hrows 0%nat r eq_refl), Nat.add_0_r. cbn [bind].
    rewrite setitem_fresh by (apply Hfresh; simpl; tauto).
    rewrite (IH (S i)).
    + rewrite <- app_assoc. reflexivity.
    + exact Hdata.
    + intros p Hp. rewrite get_app, Hfresh by (simpl; tauto). simpl.
      destruct (String.eqb (Product r) p) eqn:E; [|reflexivity].
      apply String.eqb_eq in E. subst p. tauto.
    + intros k r' Hk. rewrite (Hrows (S k) r' Hk). f_equal. lia.
Qed.

(** The extraction, for a session whose [juice_vars] is the one of cell 5. *)
Lemma extract_spec (data : DataFrame) (s : Session) (e : LpAffineExpression) :
  NoDup (index data) ->
  juice_vars s = combine (index data) (seq 0 (List.length data)) ->
  objective (model s) = Some e ->
  extract data s
  = Ok (Py.setitem (readings (heap s) 0 data) "Total Profit" (value_expr (heap s) e)).
Proof.
  intros Hnd Hj He. unfold extract.
  rewrite (comprehension_spec s data 0 [] Hnd).
  - cbn [bind app]. rewrite He. reflexivity.
  - reflexivity.
  - intros k r Hk. rewrite Hj. exact (get_row data 0 k r Hnd Hk).
Qed.

(** * The solve on the model of a table *)

(** ** Names *)

Lemma name_eqb_eq (a b : option string) : name_eqb a b = true <-> a = b.
Proof.
  destruct a as [x|], b as [y|]; simpl; try (split; congruence).
  rewrite String.eqb_eq. split; congruence.
Qed.

Lemma duplicated_NoDup (l : list (option string)) : duplicated l = false <-> NoDup l.
Proof.
  induction l as [|a l IH]; simpl.
  - split; [constructor|reflexivity].
  - rewrite orb_false_iff, IH. split.
    + intros [E Hnd]. constructor; [|exact Hnd]. intros Hin.
      assert (Ht : existsb (name_eqb a) l = true).
      { apply existsb_exists. exists a. split; [exact Hin|]. apply name_eqb_eq. reflexivity. }
      congruence.
    + intros Hnd. inversion_clear Hnd as [|? ? Hin Hl]. split; [|exact Hl].
      destruct (existsb (name_eqb a) l) eqn:E; [|reflexivity].
      apply existsb_exists in E. destruct E as [b [Hb Hab]].
      apply name_eqb_eq in Hab. subst b. tauto.
Qed.

Lemma NoDup_dedup (l : list var) : NoDup (dedup l).
Proof.
  induction l as [|x l IH]; simpl; [constructor|].
  destruct (existsb (Nat.eqb x) l) eqn:E; [exact IH|].
  constructor; [|exact IH]. rewrite dedup_In. intros Hin.
  assert (Ht : existsb (Nat.eqb x) l = true).
  { apply existsb_exists. exists x. split; [exact Hin|apply Nat.eqb_refl]. }
  congruence.
Qed.

Lemma NoDup_snoc {A : Type} (l : list A) (a : A) :
  NoDup l -> ~ In a l -> NoDup (l ++ [a]).
Proof.
  induction 1 as [|x l Hx Hl IH]; intros Ha; simpl.
  - constructor; [tauto|constructor].
  - constructor.
    + rewrite in_app_iff. simpl. intros [H|[H|[]]]; [tauto|].
      subst x. apply Ha. simpl. tauto.
    + apply IH. intros H. apply Ha. simpl. tauto.
Qed.

Lemma var_name_nth (h : Heap) (x : var) :
  (x < List.length h)%nat -> nth_error (map name h) x = Some (var_name h x).
Proof.
  intros Hlt. unfold var_name. rewrite nth_error_map.
  destruct (nth_error h x) eqn:E; [reflexivity|].
  apply nth_error_None in E. lia.
Qed.

(** Variables of a heap without a repeated name bear different names. *)
Lemma names_distinct (h : Heap) (xs : list var) :
  NoDup (map name h) -> NoDup xs ->
  (forall x, In x xs -> (x < List.length h)%nat) ->
  duplicated (map (var_name h) xs) = false.
Proof.
  intros Hn Hxs Hlt. apply duplicated_NoDup.
  induction Hxs as [|x xs Hx Hxs IH]; simpl; constructor.
  - intros Hin. apply in_map_iff in Hin. destruct Hin as [y [Hy Hyin]].
    assert (E : x = y).
    { apply (proj1 (NoDup_nth_error (map name h)) Hn).
      - rewrite length_map. apply Hlt. simpl. tauto.
      - rewrite !var_name_nth by (apply Hlt; simpl; tauto). congruence. }
    subst y. tauto.
  - apply IH. intros y Hy. apply Hlt. simpl. tauto.
Qed.


Lemma static_length (h h' : Heap) :
  static h = static h' -> List.length h = List.length h'.
Proof.
  intros E. rewrite <- (length_map (fun v => (name v, lowBound v, upBound v, cat v)) h).
  fold (static h). rewrite E. apply length_map.
Qed.

Lemma static_nth (h h' : Heap) (k : nat) (v : LpVariable) :
  static h = static h' -> nth_error h k = Some v ->
  exists v', nth_error h' k = Some v'
             /\ name v' = name v /\ lowBound v' = lowBound v
             /\ upBound v' = upBound v /\ cat v' = cat v.
Proof.
  intros E Hk.
  assert (En : nth_error (static h) k = nth_error (static h') k) by (rewrite E; reflexivity).
  unfold static in En. rewrite !nth_error_map, Hk in En.
  destruct (nth_error h' k) as [v'|]; [|discriminate].
  simpl in En. inversion En. exists v'. repeat split; congruence.
Qed.

Lemma static_names (h h' : Heap) : static h = static h' -> map name h = map name h'.
Proof.
  intros E.
  assert (Hm : forall l, map name l = map (fun t => fst (fst (fst t))) (static l)).
  { intros l. unfold static. rewrite map_map. reflexivity. }
  rewrite !Hm, E. reflexivity.
Qed.

Lemma names_declared (data : DataFrame) : map name (map declared data) = map var_name_of data.
Proof. rewrite map_map. reflexivity. Qed.

Lemma well_named_index (data : DataFrame) : well_named data -> NoDup (index data).
Proof.
  intros [Hnd _]. unfold index.
  apply (NoDup_map_inv (fun p => setName (Py.replace p " " "_"))).
  rewrite map_map. exact Hnd.
Qed.

(** A row of a well named table is not taken for the dummy variable. *)
Lemma row_not_dummy (data : DataFrame) (h : Heap) (k : nat) (v : LpVariable) :
  well_named data -> static h = static (map declared data) ->
  nth_error h k = Some v -> is_dummy v = false.
Proof.
  intros [_ [_ Hd]] E Hk.
  destruct (static_nth h _ k v E Hk) as [v' [Hk' [Hn _]]].
  rewrite nth_error_map in Hk'.
  destruct (nth_error data k) as [r|] eqn:Hr; [|discriminate].
  simpl in Hk'. inversion Hk'. subst v'. cbn [declared name] in Hn.
  unfold is_dummy. rewrite <- Hn.
  destruct (var_name_of r) as [s|] eqn:Es; [|reflexivity].
  destruct (String.eqb s "__dummy") eqn:Eq; [|reflexivity].
  apply String.eqb_eq in Eq. subst s. exfalso. apply Hd.
  rewrite <- Es. apply in_map. exact (nth_error_In _ _ Hr).
Qed.

(** ** Values and what a solve leaves of the variables *)

Lemma static_assignVarsVals_from (vals : var -> option Z) (h : Heap) (i : nat) :
  static (assignVarsVals_from i vals h) = static h.
Proof.
  unfold static.
  revert i; induction h as [|v h IH]; intros i; cbn [assignVarsVals_from map];
    [reflexivity|].
  rewrite IH. destruct (is_dummy v); [reflexivity|]. destruct (vals i); reflexivity.
Qed.

Lemma static_assignVarsVals (vals : var -> option Z) (h : Heap) :
  static (assignVarsVals vals h) = static h.
Proof. apply static_assignVarsVals_from. Qed.

Lemma assignVarsVals_from_app (vals : var -> option Z) (h h' : Heap) (i : nat) :
  assignVarsVals_from i vals (h ++ h')
  = assignVarsVals_from i vals h ++ assignVarsVals_from (i + List.length h) vals h'.
Proof.
  revert i; induction h as [|v h IH]; intros i; cbn [assignVarsVals_from app List.length].
  - rewrite Nat.add_0_r. reflexivity.
  - rewrite IH. replace (S i + List.length h)%nat with (i + S (List.length h))%nat by lia.
    reflexivity.
Qed.

(** The dummy variable takes no value. *)
Lemma assignVarsVals_dummy (vals : var -> option Z) (h : Heap) :
  assignVarsVals vals (h ++ [dummy_variable]) = assignVarsVals vals h ++ [dummy_variable].
Proof. unfold assignVarsVals. rewrite assignVarsVals_from_app. reflexivity. Qed.

Lemma value_var_app (h h' : Heap) (k : nat) :
  (k < List.length h)%nat -> value_var (h ++ h') k = value_var h k.
Proof. intros Hlt. unfold value_var. rewrite nth_error_app1 by exact Hlt. reflexivity. Qed.

Lemma readings_app (h h' : Heap) (i : nat) (data : DataFrame) :
  (i + List.length data <= List.length h)%nat ->
  readings (h ++ h') i data = readings h i data.
Proof.
  revert i; induction data as [|r data IH]; intros i Hle; cbn [readings]; [reflexivity|].
  cbn [List.length] in Hle.
  rewrite value_var_app by lia. rewrite IH by lia. reflexivity.
Qed.

(** After a solve, a row of a well named table holds what the solver
    reported for it, or what it held when the solver reported nothing. *)
Lemma value_var_solved (vals : var -> option Z) (data : DataFrame) (h : Heap) (k : nat)
                       (r : ProductRecord) :
  well_named data -> static h = static (map declared data) ->
  nth_error data k = Some r ->
  value_var (assignVarsVals vals h) k
  = match vals k with Some z => Some z | None => value_var h k end.
Proof.
  intros Hw E Hk. rewrite value_var_assignVarsVals. unfold value_var.
  destruct (nth_error h k) as [v|] eqn:Hv.
  - rewrite (row_not_dummy data h k v Hw E Hv). reflexivity.
  - exfalso. apply nth_error_None in Hv. rewrite (static_length _ _ E), length_map in Hv.
    assert (k < List.length data)%nat by (apply nth_error_Some; rewrite Hk; discriminate).
    lia.
Qed.

(** ** The objective of a table *)

Lemma profitable_dec (data : DataFrame) :
  profitable data \/ (forall r, In r data -> Profit r = 0).
Proof.
  induction data as [|r data [[r' [Hin Hp]]|Hz]].
  - right. intros r [].
  - left. exists r'. simpl. tauto.
  - destruct (Z.eq_dec (Profit r) 0) as [E|E].
    + right. intros r' [<-|Hin]; [exact E|exact (Hz r' Hin)].
    + left. exists r. simpl. tauto.
Qed.

Lemma terms_profitable (data : DataFrame) :
  profitable data -> terms (affine (sum (items Profit 0 data))) <> [].
Proof.
  intros [r [Hin Hp]] E. apply In_nth_error in Hin. destruct Hin as [k Hk].
  assert (H : In k (expr_vars (affine (sum (items Profit 0 data)))))
    by (apply vars_affine_sum; exists r; tauto).
  unfold expr_vars in H. rewrite E in H. exact H.
Qed.

Lemma terms_constant (data : DataFrame) :
  (forall r, In r data -> Profit r = 0) ->
  terms (affine (sum (items Profit 0 data))) = [].
Proof.
  intros Hz. destruct (terms (affine (sum (items Profit 0 data)))) as [|[x c] ts] eqn:E;
    [reflexivity|].
  exfalso.
  assert (H : In x (expr_vars (affine (sum (items Profit 0 data)))))
    by (unfold expr_vars; rewrite E; simpl; tauto).
  apply vars_affine_sum in H. destruct H as [r [Hk Hc]].
  apply Hc, Hz. exact (nth_error_In _ _ Hk).
Qed.

(** ** The variables that the solver sees *)

Lemma variables_built_lt (n : string) (data : DataFrame) (mm ml : Z) (st : LpStatusCode)
                          (y : var) :
  In y (variables (built_model n data mm ml st)) -> (y < List.length data)%nat.
Proof.
  intros H. apply variables_built in H. destruct H as [r [Hk _]].
  apply nth_error_Some. rewrite Hk. discriminate.
Qed.

Lemma variables_constant (c : Z) (data : DataFrame) (mm ml : Z) (st : LpStatusCode)
                         (y : var) :
  In y (variables (constant_model c data mm ml st))
  <-> y = List.length data
      \/ exists r, nth_error data y = Some r /\ (MachineTime r <> 0 \/ LaborTime r <> 0).
Proof.
  unfold variables. rewrite dedup_In.
  cbn [constant_model objective constraints flat_map snd budget_constraint expr app].
  rewrite !in_app_iff.
  change (expr_vars (mkExpr [(List.length data, c)] 0 (Some "OBJ")))
    with [List.length data].
  change (expr_vars (mkExpr (terms (affine (sum (items MachineTime 0 data))))
                            (constant (affine (sum (items MachineTime 0 data))) - mm)
                            (Some "Machine_Time")))
    with (expr_vars (affine (sum (items MachineTime 0 data)))).
  change (expr_vars (mkExpr (terms (affine (sum (items LaborTime 0 data))))
                            (constant (affine (sum (items LaborTime 0 data))) - ml)
                            (Some "Labor_Time")))
    with (expr_vars (affine (sum (items LaborTime 0 data)))).
  rewrite !vars_affine_sum. cbn [In]. split.
  - intros [[H|[]]|[[r [H Hc]]|[[r [H Hc]]|[]]]].
    + left. symmetry. exact H.
    + right. exists r. tauto.
    + right. exists r. tauto.
  - intros [->|[r [H [Hc|Hc]]]].
    + tauto.
    + right. left. exists r. tauto.
    + right. right. left. exists r. tauto.
Qed.

Lemma variables_constant_lt (c : Z) (data : DataFrame) (mm ml : Z) (st : LpStatusCode)
                            (y : var) :
  In y (variables (constant_model c data mm ml st)) -> (y < S (List.length data))%nat.
Proof.
  intros H. apply variables_constant in H. destruct H as [->|[r [Hk _]]]; [lia|].
  assert (y < List.length data)%nat by (apply nth_error_Some; rewrite Hk; discriminate).
  lia.
Qed.

Lemma names_rows (data : DataFrame) (h : Heap) :
  well_named data -> static h = static (map declared data) -> NoDup (map name h).
Proof.
  intros [Hnd _] E. rewrite (static_names _ _ E), names_declared. exact Hnd.
Qed.

Lemma names_rows_dummy (data : DataFrame) (h : Heap) :
  well_named data -> static h = static (map declared data) ->
  NoDup (map name (h ++ [dummy_variable])).
Proof.
  intros [Hnd [_ Hd]] E. rewrite map_app, (static_names _ _ E), names_declared.
  apply NoDup_snoc; assumption.
Qed.

(** ** The solve *)

(** With a profit in the table the objective has a term: no dummy variable
    is made, and the solver gets the built problem under the name [OBJ]. *)
Lemma solve_profitable (solver : Solver) (data : DataFrame) (n : string) (mm ml : Z)
                       (st : LpStatusCode) (h : Heap) (jv : Py.dict var) :
  well_named data -> profitable data -> static h = static (map declared data) ->
  solve solver (mkSession h (built_model n data mm ml st) jv)
  = Ok (mkSession
          (assignVarsVals (out_values (solver h (built_model "OBJ" data mm ml st))) h)
          (built_model "OBJ" data mm ml
                       (out_status (solver h (built_model "OBJ" data mm ml st))))
          jv).
Proof.
  intros Hw Hp E. unfold solve, fixObjective.
  cbn [heap model juice_vars built_model objective set_name terms].
  destruct (terms (affine (sum (items Profit 0 data)))) as [|t ts] eqn:Et;
    [exfalso; exact (terms_profitable data Hp Et)|].
  cbn [fixed_heap fixed_model wasNone dummy].
  change (rename_objective
            (mkProblem "Juice_Product_Mix" LpMaximize
               (Some (mkExpr (terms (affine (sum (items Profit 0 data))))
                             (constant (affine (sum (items Profit 0 data)))) (Some n)))
               [ ("Machine_Time", budget_constraint MachineTime data mm "Machine_Time");
                 ("Labor_Time", budget_constraint LaborTime data ml "Labor_Time") ]
               st None))
    with (built_model "OBJ" data mm ml st).
  rewrite names_distinct.
  - reflexivity.
  - exact (names_rows data h Hw E).
  - apply NoDup_dedup.
  - intros x Hx. rewrite (static_length _ _ E), length_map.
    exact (variables_built_lt _ _ _ _ _ _ Hx).
Qed.

(** What [fixObjective] makes of the built problem of a table without a
    profit. *)
Lemma fixObjective_constant (data : DataFrame) (n : string) (mm ml : Z)
                            (st : LpStatusCode) (h : Heap) :
  (forall r, In r data -> Profit r = 0) ->
  fixObjective h (built_model n data mm ml st)
  = mkFixed (h ++ [dummy_variable])
            (mkProblem "Juice_Product_Mix" LpMaximize
               (Some (mkExpr [(List.length h, 1)] 0 (Some n)))
               [ ("Machine_Time", budget_constraint MachineTime data mm "Machine_Time");
                 ("Labor_Time", budget_constraint LaborTime data ml "Labor_Time") ]
               st (Some (List.length h)))
            false (Some (List.length h)).
Proof.
  intros Hz. unfold fixObjective, built_model, set_name.
  cbn [objective terms]. rewrite (terms_constant data Hz).
  unfold get_dummyVar, LpVariable_new, set_objective, set_dummyVar.
  cbn [dummyVar fst snd pname sense objective constraints status addterm constant ename].
  rewrite (constant_affine_sum Profit data). reflexivity.
Qed.

(** Without a profit in the table the objective is a constant: the first
    solve makes the dummy variable, after the variables of the rows, hands
    it to the solver as the objective and leaves it there with the
    coefficient 0. *)
Lemma solve_constant (solver : Solver) (data : DataFrame) (n : string) (mm ml : Z)
                     (st : LpStatusCode) (h : Heap) (jv : Py.dict var) :
  well_named data -> (forall r, In r data -> Profit r = 0) ->
  static h = static (map declared data) ->
  solve solver (mkSession h (built_model n data mm ml st) jv)
  = Ok (mkSession
          (assignVarsVals
             (out_values (solver (h ++ [dummy_variable]) (constant_model 1 data mm ml st)))
             h ++ [dummy_variable])
          (constant_model 0 data mm ml
             (out_status (solver (h ++ [dummy_variable]) (constant_model 1 data mm ml st))))
          jv).
Proof.
  intros Hw Hz E. unfold solve.
  cbn [heap model juice_vars].
  rewrite (fixObjective_constant data n mm ml st h Hz), (static_length _ _ E), length_map.
  cbn [fixed_heap fixed_model wasNone dummy].
  change (rename_objective
            (mkProblem "Juice_Product_Mix" LpMaximize
               (Some (mkExpr [(List.length data, 1)] 0 (Some n)))
               [ ("Machine_Time", budget_constraint MachineTime data mm "Machine_Time");
                 ("Labor_Time", budget_constraint LaborTime data ml "Labor_Time") ]
               st (Some (List.length data))))
    with (constant_model 1 data mm ml st).
  rewrite names_distinct.
  - unfold restoreObjective.
    cbn [constant_model objective terms addterm constant ename set_objective set_status
         pname sense constraints status dummyVar].
    rewrite Nat.eqb_refl, assignVarsVals_dummy. reflexivity.
  - exact (names_rows_dummy data h Hw E).
  - apply NoDup_dedup.
  - intros x Hx. rewrite length_app, (static_length _ _ E), length_map. simpl.
    apply variables_constant_lt in Hx. lia.
Qed.

(** A later solve finds the dummy variable in the objective and keeps it. *)
Lemma solve_dummy (solver : Solver) (data : DataFrame) (mm ml : Z)
                  (st : LpStatusCode) (h : Heap) (jv : Py.dict var) :
  well_named data -> static h = static (map declared data) ->
  solve solver (mkSession (h ++ [dummy_variable]) (constant_model 0 data mm ml st) jv)
  = Ok (mkSession
          (assignVarsVals
             (out_values (solver (h ++ [dummy_variable]) (constant_model 0 data mm ml st)))
             h ++ [dummy_variable])
          (constant_model 0 data mm ml
             (out_status (solver (h ++ [dummy_variable]) (constant_model 0 data mm ml st))))
          jv).
Proof.
  intros Hw E. unfold solve, fixObjective.
  cbn [heap model juice_vars constant_model objective terms
       fixed_heap fixed_model wasNone dummy].
  change (rename_objective
            (mkProblem "Juice_Product_Mix" LpMaximize
               (Some (mkExpr [(List.length data, 0)] 0 (Some "OBJ")))
               [ ("Machine_Time", budget_constraint MachineTime data mm "Machine_Time");
                 ("Labor_Time", budget_constraint LaborTime data ml "Labor_Time") ]
               st (Some (List.length data))))
    with (constant_model 0 data mm ml st).
  rewrite names_distinct.
  - rewrite assignVarsVals_dummy. reflexivity.
  - exact (names_rows_dummy data h Hw E).
  - apply NoDup_dedup.
  - intros x Hx. rewrite length_app, (static_length _ _ E), length_map. simpl.
    apply variables_constant_lt in Hx. lia.
Qed.

(** ** The sessions of the notebook *)

Lemma reachable_built (data : DataFrame) (mm ml : Z) : reachable data (built data mm ml).
Proof. apply reach_plain. reflexivity. Qed.

(** On a well named table every solve completes, whatever the solver
    reports. *)
Lemma reachable_solve (solver : Solver) (data : DataFrame) (s : Session) :
  well_named data -> reachable data s ->
  exists s', solve solver s = Ok s' /\ reachable data s'
             /\ constraints (model s') = constraints (model s).
Proof.
  intros Hw [h n mm ml st E|h mm ml st E Hz].
  - destruct (profitable_dec data) as [Hp|Hz].
    + eexists. split; [exact (solve_profitable solver data n mm ml st h _ Hw Hp E)|].
      split; [|reflexivity].
      apply reach_plain. rewrite static_assignVarsVals. exact E.
    + eexists. split; [exact (solve_constant solver data n mm ml st h _ Hw Hz E)|].
      split; [|reflexivity].
      apply reach_dummy; [|exact Hz]. rewrite static_assignVarsVals. exact E.
  - eexists. split; [exact (solve_dummy solver data mm ml st h _ Hw E)|].
    split; [|reflexivity].
    apply reach_dummy; [|exact Hz]. rewrite static_assignVarsVals. exact E.
Qed.




Lemma reachable_juice_vars (data : DataFrame) (s : Session) :
  reachable data s -> juice_vars s = combine (index data) (seq 0 (List.length data)).
Proof. intros [h n mm ml st E|h mm ml st E Hz]; reflexivity. Qed.

Lemma reachable_objective (data : DataFrame) (s : Session) :
  reachable data s -> exists e, objective (model s) = Some e.
Proof. intros [h n mm ml st E|h mm ml st E Hz]; eexists; reflexivity. Qed.

(** The extraction completes on every such session. *)
Lemma reachable_extract (data : DataFrame) (s : Session) :
  NoDup (index data) -> reachable data s ->
  exists e, objective (model s) = Some e
            /\ extract data s
               = Ok (Py.setitem (readings (heap s) 0 data) "Total Profit"
                                (value_expr (heap s) e)).
Proof.
  intros Hnd Hr. destruct (reachable_objective data s Hr) as [e He].
  exists e. split; [exact He|].
  exact (extract_spec data s e Hnd (reachable_juice_vars data s Hr) He).
Qed.

(** Cells 5 to 11 on a well named table with at least one row complete with
    any solver. *)
Lemma run_reachable (solver : Solver) (data : DataFrame) (mm ml : Z) :
  data <> [] -> well_named data ->
  exists s e,
    reachable data s /\ objective (model s) = Some e
    /\ run solver data mm ml
       = Ok (mkNotebook
               s [String.append "Status: " (LpStatus (status (model s)))]
               (Some (Py.setitem (readings (heap s) 0 data) "Total Profit"
                                 (value_expr (heap s) e)))
               None).
Proof.
  intros Hne Hw. pose proof (well_named_index data Hw) as Hnd.
  destruct (reachable_solve solver data (built data mm ml) Hw (reachable_built data mm ml))
    as [s [Hs [Hr _]]].
  destruct (reachable_extract data s Hnd Hr) as [e [He Hx]].
  exists s, e. split; [exact Hr|]. split; [exact He|].
  unfold run. rewrite (build_explicit data mm ml Hne Hnd). cbn [bind].
  unfold cell11, start. cbn [session stdout sensitivity_results app].
  rewrite Hs. cbn [bind]. rewrite Hx. reflexivity.
Qed.


(** ** The shape of the results *)

Lemma get_results_entry (h : Heap) (data : DataFrame) (o : option Z) (k : nat)
                        (r : ProductRecord) :
  NoDup (index data) -> nth_error data k = Some r -> Product r <> "Total Profit" ->
  Py.get (Py.setitem (readings h 0 data) "Total Profit" o) (Product r)
  = Some (value_var h k).
Proof.
  intros Hnd Hk Hp. rewrite get_setitem.
  destruct (String.eqb "Total Profit" (Product r)) eqn:E.
  - apply String.eqb_eq in E. congruence.
  - exact (get_readings h data 0 k r Hnd Hk).
Qed.

(** C7 as stated fails.  With one product, a machine time of -1 and the
    exhaustive solver, the status is Infeasible, printed as such, and
    [results] still has an entry for the product and an entry for the
    objective. *)
Lemma results_of_infeasible :
  exists nb r,
    run (exhaustive true) [mkProduct "A" 1 1 1 1] (-1) 1 = Ok nb
    /\ status (model (session nb)) = LpStatusInfeasible
    /\ stdout nb = ["Status: Infeasible"]
    /\ results nb = Some r
    /\ Py.keys r = ["A"; "Total Profit"].
Proof.
  eexists. eexists. split; [vm_compute; reflexivity|].
  cbn [session model status stdout results]. repeat split.
Qed.

(** C7, as the code has it.  After cells 5 to 11 on a well named table with
    at least one row, with any solver and so whatever the status, [results]
    is the same kind of dictionary: one key per product, in the order of the
    table, then the key 'Total Profit' (which is not added when a product
    bears that name).  The status is printed and kept in the model; it is no
    part of [results]. *)
Theorem results_shape (solver : Solver) (data : DataFrame)
                      (max_machine_time max_labor_time : Z) :
  data <> [] -> well_named data ->
  exists nb r,
    run solver data max_machine_time max_labor_time = Ok nb
    /\ stdout nb = [String.append "Status: " (LpStatus (status (model (session nb))))]
    /\ results nb = Some r
    /\ Py.keys r = (if existsb (String.eqb "Total Profit") (index data)
                    then index data
                    else index data ++ ["Total Profit"]).
Proof.
  intros Hne Hw.
  destruct (run_reachable solver data max_machine_time max_labor_time Hne Hw)
    as [s [e [_ [_ Hrun]]]].
  eexists. eexists. split; [exact Hrun|].
  cbn [stdout results session]. split; [reflexivity|]. split; [reflexivity|].
  rewrite keys_setitem, keys_readings. reflexivity.
Qed.

Lemma results_shape_witness :
  exists nb r,
    run (exhaustive true) [mkProduct "A" 1 1 1 1] (-1) 1 = Ok nb
    /\ stdout nb = [String.append "Status: " (LpStatus (status (model (session nb))))]
    /\ results nb = Some r
    /\ Py.keys r = (if existsb (String.eqb "Total Profit") (index [mkProduct "A" 1 1 1 1])
                    then index [mkProduct "A" 1 1 1 1]
                    else index [mkProduct "A" 1 1 1 1] ++ ["Total Profit"]).
Proof.
  apply (results_shape (exhaustive true) [mkProduct "A" 1 1 1 1] (-1) 1).
  - discriminate.
  - literal_names.
Defined.

(** ** The first results and the second solve *)

Lemma well_named_juice : well_named juice_data.
Proof. literal_names. Qed.

(** With any solver that meets the contract, the first solve of the table
    of the notebook is Optimal and the solve after the machine time is set
    to -1 is Infeasible: nothing is feasible then.  The second status
    replaces the first in the model, and [results] stays. *)
Lemma second_status_infeasible (solver : Solver) :
  solver_contract solver ->
  exists nb1 nb2,
    run solver juice_data 240 220 = Ok nb1
    /\ status (model (session nb1)) = LpStatusOptimal
    /\ resolve solver juice_data "Machine_Time" (-1) nb1 = Ok nb2
    /\ status (model (session nb2)) = LpStatusInfeasible
    /\ results nb2 = results nb1
    /\ stdout nb2 = ["Status: Optimal"].
Proof.
  intros C.
  assert (Hst : out_status (solver (juice_heap (Some 56) (Some 36) (Some 0))
                                   (juice_solved (-1) 220 LpStatusOptimal))
                = LpStatusInfeasible).
  { apply (contract_infeasible solver C). intros f Hf.
    apply feasible_juice in Hf. lia. }
  eexists. eexists. split; [exact (run_juice_240 solver C)|].
  split; [reflexivity|].
  unfold resolve. cbn [session stdout results].
  change (setConstraintBound _ "Machine_Time" (-1))
    with (mkSession (juice_heap (Some 56) (Some 36) (Some 0))
                    (juice_solved (-1) 220 LpStatusOptimal) juice_vars_table,
          @Ok unit tt).
  cbn [bind fst snd]. unfold juice_solved at 1. rewrite solve_juice, Hst.
  split; [reflexivity|]. repeat split.
Qed.




(** ** The key of the objective value *)

(** The exhaustive solver on the table with a product named 'Total
    Profit': the variable of that product holds 2, and [results] holds 8,
    the objective value, under its name. *)
Lemma run_total_profit :
  run (exhaustive true) total_profit_data 10 10
  = Ok (mkNotebook total_profit_session ["Status: Optimal"]
                   (Some [("Apple", Some 2); ("Total Profit", Some 8)]) None).
Proof. reflexivity. Qed.

(** C10.  The extraction of cells 11 and 15, on a session whose
    [juice_vars] is the one of cell 5 and whose table has no repeated name,
    returns one dictionary in which the key 'Total Profit' holds the value
    of the objective.  When no product bears that name the dictionary is
    the quantities, one entry per product in the order of the table,
    followed by the entry of the objective.  When a product bears that name
    the dictionary has the names of the products as its keys and no other,
    the entries of the other products are their quantities, and the entry
    of that product is the objective value: its quantity is not in the
    result. *)
Theorem total_profit_key (data : DataFrame) (s : Session) (e : LpAffineExpression) :
  NoDup (index data) ->
  juice_vars s = combine (index data) (seq 0 (List.length data)) ->
  objective (model s) = Some e ->
  exists r,
    extract data s = Ok r
    /\ Py.get r "Total Profit" = Some (value_expr (heap s) e)
    /\ (~ In "Total Profit" (index data) ->
        r = readings (heap s) 0 data ++ [("Total Profit", value_expr (heap s) e)])
    /\ (In "Total Profit" (index data) ->
        Py.keys r = index data
        /\ forall p, p <> "Total Profit" -> Py.get r p = Py.get (readings (heap s) 0 data) p).
Proof.
  intros Hnd Hj He. eexists. split; [exact (extract_spec data s e Hnd Hj He)|].
  split; [rewrite get_setitem, String.eqb_refl; reflexivity|]. split.
  - intros Hnot. apply setitem_fresh. apply get_None_keys.
    rewrite keys_readings. exact Hnot.
  - intros Hin. split.
    + rewrite keys_setitem, keys_readings.
      assert (Ht : existsb (String.eqb "Total Profit") (index data) = true).
      { apply existsb_exists. exists "Total Profit". split; [exact Hin|reflexivity]. }
      rewrite Ht. reflexivity.
    + intros p Hp. rewrite get_setitem.
      destruct (String.eqb "Total Profit" p) eqn:E; [|reflexivity].
      apply String.eqb_eq in E. subst p. tauto.
Qed.

Lemma total_profit_key_witness :
  exists r,
    extract total_profit_data total_profit_session = Ok r
    /\ Py.get r "Total Profit"
       = Some (value_expr (heap total_profit_session)
                          (mkExpr [(0%nat, 1); (1%nat, 3)] 0 (Some "OBJ")))
    /\ (~ In "Total Profit" (index total_profit_data) ->
        r = readings (heap total_profit_session) 0 total_profit_data
            ++ [("Total Profit",
                 value_expr (heap total_profit_session)
                            (mkExpr [(0%nat, 1); (1%nat, 3)] 0 (Some "OBJ")))])
    /\ (In "Total Profit" (index total_profit_data) ->
        Py.keys r = index total_profit_data
        /\ forall p, p <> "Total Profit" ->
                     Py.get r p
                     = Py.get (readings (heap total_profit_session) 0 total_profit_data) p).
Proof.
  apply (total_profit_key total_profit_data total_profit_session).
  - distinct_names.
  - reflexivity.
  - reflexivity.
Defined.

(** * More of the notebook *)

(** ** A change of a budget stands for a new build *)

(** X4.  In a model built from a table with at least one row and no
    repeated name, changing the right-hand side of "Machine_Time", or of
    "Labor_Time", to [rhs] is accepted and gives the session that the build
    gives with [rhs] as that budget: the change stands for a new build. *)
Theorem change_is_rebuild (data : DataFrame) (max_machine_time max_labor_time rhs : Z)
                          (s : Session) :
  data <> [] -> NoDup (index data) ->
  build data max_machine_time max_labor_time = Ok s ->
  exists s1 s2,
    setConstraintBound s "Machine_Time" rhs = (s1, Ok tt)
    /\ build data rhs max_labor_time = Ok s1
    /\ setConstraintBound s "Labor_Time" rhs = (s2, Ok tt)
    /\ build data max_machine_time rhs = Ok s2.
Proof.
  intros Hne Hnd Hb. rewrite (build_explicit data _ _ Hne Hnd) in Hb.
  inversion Hb. subst s. clear Hb.
  exists (built data rhs max_labor_time), (built data max_machine_time rhs).
  rewrite !(build_explicit data _ _ Hne Hnd). unfold built.
  rewrite setConstraintBound_machine, setConstraintBound_labor. tauto.
Qed.

Lemma change_is_rebuild_witness :
  exists s1 s2,
    setConstraintBound
      (mkSession (juice_heap None None None) (juice_model 240 220 LpStatusNotSolved)
                 juice_vars_table) "Machine_Time" 260 = (s1, Ok tt)
    /\ build juice_data 260 220 = Ok s1
    /\ setConstraintBound
         (mkSession (juice_heap None None None) (juice_model 240 220 LpStatusNotSolved)
                    juice_vars_table) "Labor_Time" 260 = (s2, Ok tt)
    /\ build juice_data 240 260 = Ok s2.
Proof.
  apply (change_is_rebuild juice_data 240 220 260).
  - discriminate.
  - exact NoDup_juice.
  - exact build_juice.
Defined.

Lemma setitem_setitem {V : Type} (d : Py.dict V) (k : string) (v1 v2 : V) :
  Py.setitem (Py.setitem d k v1) k v2 = Py.setitem d k v2.
Proof.
  induction d as [|[k' v'] d IH]; simpl.
  - rewrite String.eqb_refl. reflexivity.
  - destruct (String.eqb k' k) eqn:E; simpl; rewrite E; [reflexivity|].
    rewrite IH. reflexivity.
Qed.

Lemma setitem_commute {V : Type} (d : Py.dict V) (k1 k2 : string) (v1 v2 : V) :
  k1 <> k2 -> In k1 (Py.keys d) ->
  Py.setitem (Py.setitem d k1 v1) k2 v2 = Py.setitem (Py.setitem d k2 v2) k1 v1.
Proof.
  intros Hne. induction d as [|[k v] d IH]; intros Hin; [destruct Hin|].
  simpl in Hin. simpl.
  destruct (String.eqb k k1) eqn:E1; destruct (String.eqb k k2) eqn:E2; simpl;
    rewrite ?E1, ?E2; try reflexivity.
  - apply String.eqb_eq in E1, E2. congruence.
  - rewrite IH; [reflexivity|]. destruct Hin as [Hin|Hin]; [|exact Hin].
    subst k. rewrite String.eqb_refl in E1. discriminate.
Qed.

Lemma get_some_keys {V : Type} (d : Py.dict V) (k : string) :
  In k (Py.keys d) -> exists v, Py.get d k = Some v.
Proof.
  intros Hin. destruct (Py.get d k) as [v|] eqn:E; [exists v; reflexivity|].
  apply get_None_keys in E. tauto.
Qed.

(** X5.  Two changes of the same constraint in a row leave what the second
    alone leaves: the last right-hand side wins, whatever the first was. *)
Theorem setConstraintBound_twice (s : Session) (n : string) (rhs1 rhs2 : Z) :
  In n (Py.keys (constraints (model s))) ->
  setConstraintBound (fst (setConstraintBound s n rhs1)) n rhs2
  = setConstraintBound s n rhs2.
Proof.
  intros Hin. destruct (get_some_keys _ n Hin) as [c Hc].
  unfold setConstraintBound at 2 3. unfold Py.getitem. rewrite Hc. cbn [fst].
  unfold setConstraintBound, Py.getitem.
  cbn [model heap juice_vars set_constraints constraints pname sense objective status
       dummyVar].
  rewrite get_setitem, String.eqb_refl, setitem_setitem. reflexivity.
Qed.

Lemma setConstraintBound_twice_witness :
  setConstraintBound
    (fst (setConstraintBound
            (mkSession (juice_heap None None None) (juice_model 240 220 LpStatusNotSolved)
                       juice_vars_table) "Machine_Time" 300)) "Machine_Time" 260
  = setConstraintBound
      (mkSession (juice_heap None None None) (juice_model 240 220 LpStatusNotSolved)
                 juice_vars_table) "Machine_Time" 260.
Proof.
  apply (setConstraintBound_twice _ "Machine_Time" 300 260). simpl. tauto.
Defined.

(** X6.  Changes of two different constraints that the model holds can be
    made in either order: the session after both is the same. *)
Theorem setConstraintBound_commute (s : Session) (n1 n2 : string) (rhs1 rhs2 : Z) :
  n1 <> n2 ->
  In n1 (Py.keys (constraints (model s))) ->
  In n2 (Py.keys (constraints (model s))) ->
  setConstraintBound (fst (setConstraintBound s n1 rhs1)) n2 rhs2
  = setConstraintBound (fst (setConstraintBound s n2 rhs2)) n1 rhs1.
Proof.
  intros Hne H1 H2.
  destruct (get_some_keys _ n1 H1) as [c1 Hc1].
  destruct (get_some_keys _ n2 H2) as [c2 Hc2].
  assert (E12 : String.eqb n1 n2 = false) by (apply String.eqb_neq; exact Hne).
  assert (E21 : String.eqb n2 n1 = false) by (apply String.eqb_neq; congruence).
  unfold setConstraintBound at 2 4. unfold Py.getitem. rewrite Hc1, Hc2. cbn [fst].
  unfold setConstraintBound, Py.getitem.
  cbn [model heap juice_vars set_constraints constraints pname sense objective status
       dummyVar].
  rewrite !get_setitem, E12, E21, Hc1, Hc2.
  rewrite (setitem_commute _ n1 n2 _ _ Hne H1). reflexivity.
Qed.

Lemma setConstraintBound_commute_witness :
  setConstraintBound
    (fst (setConstraintBound
            (mkSession (juice_heap None None None) (juice_model 240 220 LpStatusNotSolved)
                       juice_vars_table) "Machine_Time" 260)) "Labor_Time" 200
  = setConstraintBound
      (fst (setConstraintBound
              (mkSession (juice_heap None None None) (juice_model 240 220 LpStatusNotSolved)
                         juice_vars_table) "Labor_Time" 200)) "Machine_Time" 260.
Proof.
  apply (setConstraintBound_commute _ "Machine_Time" "Labor_Time" 260 200).
  - discriminate.
  - simpl. tauto.
  - simpl. tauto.
Defined.

(** ** Colliding names surface at the solve *)





(** ** Cells 5 to 15 in closed form, for a table with a profit *)

Lemma run_explicit (solver : Solver) (data : DataFrame) (mm ml : Z) :
  data <> [] -> well_named data -> profitable data ->
  let out := solver (map declared data) (built_model "OBJ" data mm ml LpStatusNotSolved) in
  let h := assignVarsVals (out_values out) (map declared data) in
  run solver data mm ml
  = Ok (mkNotebook
          (mkSession h (built_model "OBJ" data mm ml (out_status out))
                     (combine (index data) (seq 0 (List.length data))))
          [String.append "Status: " (LpStatus (out_status out))]
          (Some (Py.setitem (readings h 0 data) "Total Profit"
                            (value_expr h (affine (sum (items Profit 0 data))))))
          None).
Proof.
  intros Hne Hw Hp out h. pose proof (well_named_index data Hw) as Hnd.
  unfold run. rewrite (build_explicit data mm ml Hne Hnd).
  cbn [bind]. unfold cell11, start. cbn [session stdout sensitivity_results app].
  unfold built. rewrite (solve_profitable solver data _ mm ml _ _ _ Hw Hp eq_refl).
  cbn [bind].
  rewrite (extract_spec data _ (set_name (affine (sum (items Profit 0 data))) "OBJ") Hnd);
    reflexivity.
Qed.

(** The second solve, given what the change of the bound makes of the
    budgets. *)
Lemma resolve_built (solver : Solver) (data : DataFrame) (n : string)
                    (rhs mm ml mm' ml' : Z) (h : Heap) (st : LpStatusCode)
                    (out : list string) (res sens : option (Py.dict (option Z))) :
  well_named data -> profitable data -> static h = static (map declared data) ->
  (forall jv, setConstraintBound (mkSession h (built_model "OBJ" data mm ml st) jv) n rhs
              = (mkSession h (built_model "OBJ" data mm' ml' st) jv, Ok tt)) ->
  let jv0 := combine (index data) (seq 0 (List.length data)) in
  let out2 := solver h (built_model "OBJ" data mm' ml' st) in
  let h2 := assignVarsVals (out_values out2) h in
  resolve solver data n rhs
          (mkNotebook (mkSession h (built_model "OBJ" data mm ml st) jv0) out res sens)
  = Ok (mkNotebook
          (mkSession h2 (built_model "OBJ" data mm' ml' (out_status out2)) jv0)
          out res
          (Some (Py.setitem (readings h2 0 data) "Total Profit"
                            (value_expr h2 (affine (sum (items Profit 0 data))))))).
Proof.
  intros Hw Hp E Hset jv0 out2 h2. pose proof (well_named_index data Hw) as Hnd.
  unfold resolve. cbn [session stdout results].
  rewrite Hset. cbn [fst snd bind].
  rewrite (solve_profitable solver data _ mm' ml' _ _ _ Hw Hp E). cbn [bind].
  rewrite (extract_spec data _ (set_name (affine (sum (items Profit 0 data))) "OBJ") Hnd);
    reflexivity.
Qed.

(** ** The results of an optimal solve, in terms of the table *)

Lemma get_results_row (h : Heap) (data : DataFrame) (o : option Z) (k : nat)
                      (r : ProductRecord) :
  NoDup (index data) -> ~ In "Total Profit" (index data) ->
  nth_error data k = Some r ->
  Py.get (Py.setitem (readings h 0 data) "Total Profit" o) (Product r)
  = Some (value_var h k).
Proof.
  intros Hnd Hnot Hk. apply (get_results_entry h data o k r Hnd Hk).
  intros E. apply Hnot. rewrite <- E. apply in_map. exact (nth_error_In _ _ Hk).
Qed.

Lemma get_results_total (h : Heap) (data : DataFrame) (o : option Z) :
  Py.get (Py.setitem (readings h 0 data) "Total Profit" o) "Total Profit" = Some o.
Proof. rewrite get_setitem, String.eqb_refl. reflexivity. Qed.

(** The values in the heap after an optimal solve of the problem of a
    table, by a solver that answers it as the contract asks. *)
Lemma solved_values (solver : Solver) (h0 : Heap) (data : DataFrame) (mm ml : Z)
                    (st : LpStatusCode) :
  well_named data -> static h0 = static (map declared data) ->
  answers solver h0 (built_model "OBJ" data mm ml st) ->
  let out := solver h0 (built_model "OBJ" data mm ml st) in
  let h := assignVarsVals (out_values out) h0 in
  out_status out = LpStatusOptimal ->
  (forall k r, nth_error data k = Some r -> occurs r ->
               value_var h k = Some (reading (out_values out) k))
  /\ value_expr h (affine (sum (items Profit 0 data)))
     = Some (weighted_sum Profit (reading (out_values out)) 0 data).
Proof.
  intros Hw Hh0 C out h Hst.
  destruct (answers_optimal solver _ _ C Hst) as [Hcov _].
  rewrite Forall_forall in Hcov. fold out in Hcov.
  assert (Hrow : forall k r, nth_error data k = Some r -> occurs r ->
                   value_var h k = Some (reading (out_values out) k)).
  { intros k r Hk Ho.
    assert (Hin : In k (variables (built_model "OBJ" data mm ml st)))
      by (apply variables_built; exists r; tauto).
    specialize (Hcov k Hin). unfold h.
    rewrite (value_var_solved _ data h0 k r Hw Hh0 Hk).
    unfold reading. destruct (out_values out k); [reflexivity|tauto]. }
  split; [exact Hrow|].
  rewrite <- eval_affine_sum. apply value_expr_some.
  intros x Hx. apply vars_affine_sum in Hx. destruct Hx as [r [Hk Hc]].
  apply (Hrow x r Hk). unfold occurs. tauto.
Qed.

Lemma within_static (h h' : Heap) (f : var -> Z) (x : var) :
  static h = static h' -> within h f x -> within h' f x.
Proof.
  intros Hm. unfold within.
  destruct (nth_error h x) as [v|] eqn:Hv; [|tauto].
  destruct (static_nth h h' x v Hm Hv) as [v' [Hv' [_ [Hl [Hu _]]]]].
  rewrite Hv', Hl, Hu. tauto.
Qed.

(** Feasibility looks at the bounds of the variables only. *)
Lemma feasible_static (h h' : Heap) (m : LpProblem) (f : var -> Z) :
  static h = static h' -> feasible h m f <-> feasible h' m f.
Proof.
  intros Hm. unfold feasible. rewrite !Forall_forall.
  split; intros [Hb Hc]; (split; [|exact Hc]); intros x Hx.
  - exact (within_static h h' f x Hm (Hb x Hx)).
  - exact (within_static h' h f x (eq_sym Hm) (Hb x Hx)).
Qed.

Lemma contract_answers (solver : Solver) (h : Heap) (m : LpProblem) :
  solver_contract solver -> answers solver h m.
Proof.
  intros C. constructor.
  - exact (contract_optimal solver C h m).
  - exact (contract_feasible solver C h m).
  - exact (contract_infeasible solver C h m).
Qed.

Lemma contract_answers_table (solver : Solver) (data : DataFrame) (mm ml : Z) :
  solver_contract solver -> answers_table solver data mm ml.
Proof. intros C h st _. exact (contract_answers solver _ _ C). Qed.

Lemma profitable_juice : profitable juice_data.
Proof. exists (mkProduct "Apple Juice" 25 3 2 60). split; [simpl; tauto|discriminate]. Qed.

Lemma in_double_juice : in_double (magnitude_caps Profit juice_data).
Proof. unfold in_double. cbn. lia. Qed.

(** X8.  For a well named table with at least one row, no product named
    'Total Profit', every row occurring in the model, some profit that is
    not zero and sums that double precision holds, and a solver that
    answers the problem of cell 11 as the contract asks: when cell 11 prints
    Optimal, [results] holds for every product a quantity within 0 and its
    cap, the quantities respect both budgets, 'Total Profit' is the sum of
    profit times quantity over these very quantities, and no quantities
    that the table allows earn more. *)
Theorem optimal_results (solver : Solver) (data : DataFrame)
                        (max_machine_time max_labor_time : Z) :
  data <> [] -> well_named data -> ~ In "Total Profit" (index data) ->
  (forall r, In r data -> occurs r) -> profitable data ->
  in_double (magnitude_caps Profit data) ->
  answers solver (map declared data)
          (built_model "OBJ" data max_machine_time max_labor_time LpStatusNotSolved) ->
  exists nb res,
    run solver data max_machine_time max_labor_time = Ok nb
    /\ results nb = Some res
    /\ (status (model (session nb)) = LpStatusOptimal ->
        exists q,
          allowed data max_machine_time max_labor_time q
          /\ (forall k r, nth_error data k = Some r ->
                          Py.get res (Product r) = Some (Some (q k)))
          /\ Py.get res "Total Profit" = Some (Some (weighted_sum Profit q 0 data))
          /\ (forall q', allowed data max_machine_time max_labor_time q' ->
                         weighted_sum Profit q' 0 data <= weighted_sum Profit q 0 data)).
Proof.
  intros Hne Hw Hnot Hocc Hp _ C. pose proof (well_named_index data Hw) as Hnd.
  eexists. eexists. split; [exact (run_explicit solver data _ _ Hne Hw Hp)|].
  split; [reflexivity|].
  cbn [session model built_model status]. intros Hst.
  set (out := solver (map declared data)
                     (built_model "OBJ" data max_machine_time max_labor_time
                                  LpStatusNotSolved))
    in *.
  destruct (answers_optimal solver _ _ C Hst) as [_ [Hf Hmax]]. fold out in Hf, Hmax.
  destruct (solved_values solver (map declared data) data max_machine_time max_labor_time
                          LpStatusNotSolved Hw eq_refl C Hst) as [Hrow Hobj].
  fold out in Hrow, Hobj.
  exists (reading (out_values out)).
  apply feasible_built in Hf. destruct Hf as [Hb Hc].
  split; [|split; [|split]].
  - split; [|exact Hc]. intros k r Hk.
    apply (Hb k r Hk). apply Hocc. exact (nth_error_In _ _ Hk).
  - intros k r Hk. rewrite (get_results_row _ data _ k r Hnd Hnot Hk). f_equal.
    apply (Hrow k r Hk). apply Hocc. exact (nth_error_In _ _ Hk).
  - rewrite get_results_total, Hobj. reflexivity.
  - intros q' Hq'. rewrite <- !(score_built "OBJ" data max_machine_time max_labor_time
                                             LpStatusNotSolved).
    apply Hmax. apply allowed_feasible. exact Hq'.
Qed.

Lemma occurs_juice : forall r, In r juice_data -> occurs r.
Proof.
  intros r [<-|[<-|[<-|[]]]]; left; discriminate.
Qed.

Lemma optimal_results_witness :
  exists nb res q,
    run (exhaustive true) juice_data 240 220 = Ok nb
    /\ results nb = Some res
    /\ status (model (session nb)) = LpStatusOptimal
    /\ allowed juice_data 240 220 q
    /\ (forall k r, nth_error juice_data k = Some r ->
                    Py.get res (Product r) = Some (Some (q k)))
    /\ Py.get res "Total Profit" = Some (Some (weighted_sum Profit q 0 juice_data))
    /\ (forall q', allowed juice_data 240 220 q' ->
                   weighted_sum Profit q' 0 juice_data
                   <= weighted_sum Profit q 0 juice_data).
Proof.
  destruct (optimal_results (exhaustive true) juice_data 240 220)
    as [nb [res [Hrun [Hres H]]]].
  - discriminate.
  - exact well_named_juice.
  - absent_name.
  - exact occurs_juice.
  - exact profitable_juice.
  - exact in_double_juice.
  - exact (contract_answers _ _ _ (exhaustive_contract true)).
  - assert (Hst : status (model (session nb)) = LpStatusOptimal).
    { rewrite (run_juice_240 _ (exhaustive_contract true)) in Hrun.
      inversion Hrun. reflexivity. }
    destruct (H Hst) as [q Hq]. exists nb, res, q. tauto.
Defined.

(** ** When the status is Optimal *)

Lemma weighted_sum_zero (col : ProductRecord -> Z) (i : nat) (data : DataFrame) :
  weighted_sum col (fun _ => 0) i data = 0.
Proof.
  revert i; induction data as [|r data IH]; intros i; cbn [weighted_sum]; [reflexivity|].
  rewrite IH. lia.
Qed.

Lemma weighted_sum_nonneg (col : ProductRecord -> Z) (f : var -> Z) (i : nat)
                          (data : DataFrame) :
  (forall k r, nth_error data k = Some r -> 0 <= col r * f (i + k)%nat) ->
  0 <= weighted_sum col f i data.
Proof.
  revert i; induction data as [|r data IH]; intros i H; cbn [weighted_sum]; [lia|].
  pose proof (H 0%nat r eq_refl) as H0. rewrite Nat.add_0_r in H0.
  assert (0 <= weighted_sum col f (S i) data).
  { apply IH. intros k r' Hk. replace (S i + k)%nat with (i + S k)%nat by lia.
    exact (H (S k) r' Hk). }
  lia.
Qed.

(** X9.  For a well named table with at least one row and some profit that
    is not zero, whose caps are not negative, and budgets that are not
    negative, cell 11 with a solver that answers its problem as the contract
    asks prints Optimal: producing nothing is always allowed, so such an
    input is never reported Infeasible. *)
Theorem valid_input_optimal (solver : Solver) (data : DataFrame)
                            (max_machine_time max_labor_time : Z) :
  data <> [] -> well_named data -> profitable data ->
  (forall r, In r data -> 0 <= MaxUnits r) ->
  0 <= max_machine_time -> 0 <= max_labor_time ->
  answers solver (map declared data)
          (built_model "OBJ" data max_machine_time max_labor_time LpStatusNotSolved) ->
  exists nb,
    run solver data max_machine_time max_labor_time = Ok nb
    /\ status (model (session nb)) = LpStatusOptimal
    /\ stdout nb = ["Status: Optimal"].
Proof.
  intros Hne Hw Hp Hcap Hm Hl C.
  eexists. split; [exact (run_explicit solver data _ _ Hne Hw Hp)|].
  cbn [session model built_model status stdout].
  assert (Hst : out_status (solver (map declared data)
                  (built_model "OBJ" data max_machine_time max_labor_time
                               LpStatusNotSolved))
                = LpStatusOptimal).
  { apply (answers_feasible solver _ _ C (fun _ => 0)).
    apply allowed_feasible. split; [|rewrite !weighted_sum_zero; tauto].
    intros k r Hk. specialize (Hcap r (nth_error_In _ _ Hk)). lia. }
  rewrite Hst. split; reflexivity.
Qed.

Lemma valid_input_optimal_witness :
  exists nb,
    run (exhaustive true) juice_data 240 220 = Ok nb
    /\ status (model (session nb)) = LpStatusOptimal
    /\ stdout nb = ["Status: Optimal"].
Proof.
  apply (valid_input_optimal (exhaustive true) juice_data 240 220).
  - discriminate.
  - exact well_named_juice.
  - exact profitable_juice.
  - intros r [<-|[<-|[<-|[]]]]; simpl; lia.
  - lia.
  - lia.
  - exact (contract_answers _ _ _ (exhaustive_contract true)).
Defined.

(** X10.  For a well named table with at least one row and some profit that
    is not zero, a negative machine time when no product uses a negative
    machine time (or a negative labor time when no product uses a negative
    labor time) leaves nothing feasible: cell 11 with a solver that answers
    its problem as the contract asks prints Infeasible. *)
Theorem negative_budget_infeasible (solver : Solver) (data : DataFrame)
                                   (max_machine_time max_labor_time : Z) :
  data <> [] -> well_named data -> profitable data ->
  (max_machine_time < 0 /\ forall r, In r data -> 0 <= MachineTime r)
  \/ (max_labor_time < 0 /\ forall r, In r data -> 0 <= LaborTime r) ->
  answers solver (map declared data)
          (built_model "OBJ" data max_machine_time max_labor_time LpStatusNotSolved) ->
  exists nb,
    run solver data max_machine_time max_labor_time = Ok nb
    /\ status (model (session nb)) = LpStatusInfeasible
    /\ stdout nb = ["Status: Infeasible"].
Proof.
  intros Hne Hw Hp Hneg C.
  eexists. split; [exact (run_explicit solver data _ _ Hne Hw Hp)|].
  cbn [session model built_model status stdout].
  assert (Hst : out_status (solver (map declared data)
                  (built_model "OBJ" data max_machine_time max_labor_time
                               LpStatusNotSolved))
                = LpStatusInfeasible).
  { apply (answers_infeasible solver _ _ C). intros f Hf.
    apply feasible_built in Hf. destruct Hf as [Hb [Hm Hl]].
    assert (Hsign : forall col : ProductRecord -> Z,
              (forall r, In r data -> 0 <= col r) ->
              (forall r, col r <> 0 -> occurs r) ->
              0 <= weighted_sum col f 0 data).
    { intros col Hcol Hoc. apply weighted_sum_nonneg. intros k r Hk. simpl.
      pose proof (Hcol r (nth_error_In _ _ Hk)) as Hc.
      destruct (Z.eq_dec (col r) 0) as [E|E]; [rewrite E; lia|].
      pose proof (Hb k r Hk (Hoc r E)) as Hq. apply Z.mul_nonneg_nonneg; lia. }
    destruct Hneg as [[Hlt Hcol]|[Hlt Hcol]].
    - pose proof (Hsign MachineTime Hcol) as H.
      assert (0 <= weighted_sum MachineTime f 0 data)
        by (apply H; intros r Hr; unfold occurs; tauto).
      lia.
    - pose proof (Hsign LaborTime Hcol) as H.
      assert (0 <= weighted_sum LaborTime f 0 data)
        by (apply H; intros r Hr; unfold occurs; tauto).
      lia. }
  rewrite Hst. split; reflexivity.
Qed.

Lemma negative_budget_infeasible_witness :
  exists nb,
    run (exhaustive true) juice_data (-1) 220 = Ok nb
    /\ status (model (session nb)) = LpStatusInfeasible
    /\ stdout nb = ["Status: Infeasible"].
Proof.
  apply (negative_budget_infeasible (exhaustive true) juice_data (-1) 220).
  - discriminate.
  - exact well_named_juice.
  - exact profitable_juice.
  - left. split; [lia|]. intros r [<-|[<-|[<-|[]]]]; simpl; lia.
  - exact (contract_answers _ _ _ (exhaustive_contract true)).
Defined.

(** ** A larger budget *)

(** X11.  For a well named table with at least one row, some profit that is
    not zero and sums that double precision holds, and a solver that answers
    the problems of the table as the contract asks: after cells 5 to 11,
    raising the right-hand side of "Machine_Time" (or of "Labor_Time") to at
    least the budget it was built with and solving again completes; and
    when the first solve was Optimal, so is the second, both dictionaries
    hold a 'Total Profit', and the second one is not smaller than the
    first. *)
Theorem budget_monotone (solver : Solver) (data : DataFrame)
                        (max_machine_time max_labor_time : Z) (n : string) (rhs : Z) :
  data <> [] -> well_named data -> profitable data ->
  in_double (magnitude_caps Profit data) ->
  answers_table solver data max_machine_time max_labor_time ->
  (n = "Machine_Time" /\ max_machine_time <= rhs
   /\ answers_table solver data rhs max_labor_time)
  \/ (n = "Labor_Time" /\ max_labor_time <= rhs
      /\ answers_table solver data max_machine_time rhs) ->
  exists nb1 nb2 r1 r2,
    run solver data max_machine_time max_labor_time = Ok nb1
    /\ resolve solver data n rhs nb1 = Ok nb2
    /\ results nb2 = Some r1 /\ sensitivity_results nb2 = Some r2
    /\ (status (model (session nb1)) = LpStatusOptimal ->
        status (model (session nb2)) = LpStatusOptimal
        /\ exists p1 p2,
             Py.get r1 "Total Profit" = Some (Some p1)
             /\ Py.get r2 "Total Profit" = Some (Some p2)
             /\ p1 <= p2).
Proof.
  intros Hne Hw Hp _ C1 Hn.
  assert (Hnew : exists mm' ml',
            max_machine_time <= mm' /\ max_labor_time <= ml'
            /\ answers_table solver data mm' ml'
            /\ forall h st jv,
                 setConstraintBound
                   (mkSession h (built_model "OBJ" data max_machine_time max_labor_time st)
                              jv)
                   n rhs
                 = (mkSession h (built_model "OBJ" data mm' ml' st) jv, Ok tt)).
  { destruct Hn as [[-> [Hle C2]]|[-> [Hle C2]]].
    - exists rhs, max_labor_time. split; [exact Hle|]. split; [lia|].
      split; [exact C2|]. intros h st jv. apply setConstraintBound_machine.
    - exists max_machine_time, rhs. split; [lia|]. split; [exact Hle|].
      split; [exact C2|]. intros h st jv. apply setConstraintBound_labor. }
  destruct Hnew as [mm' [ml' [Hmm [Hml [C2 Hset]]]]].
  eexists. eexists. eexists. eexists.
  split; [exact (run_explicit solver data _ _ Hne Hw Hp)|].
  split; [exact (resolve_built solver data n rhs _ _ mm' ml' _ _ _ _ _ Hw Hp
                               (static_assignVarsVals _ _) (Hset _ _))|].
  cbn [results sensitivity_results session model built_model status].
  split; [reflexivity|]. split; [reflexivity|].
  set (out1 := solver (map declared data)
                      (built_model "OBJ" data max_machine_time max_labor_time
                                   LpStatusNotSolved)).
  set (h1 := assignVarsVals (out_values out1) (map declared data)).
  set (out2 := solver h1 (built_model "OBJ" data mm' ml' (out_status out1))).
  intros Hst1.
  pose proof (C1 (map declared data) LpStatusNotSolved eq_refl) as A1.
  assert (E1 : static h1 = static (map declared data))
    by apply static_assignVarsVals.
  pose proof (C2 h1 (out_status out1) E1) as A2.
  destruct (answers_optimal solver _ _ A1 Hst1) as [_ [Hf1 _]]. fold out1 in Hf1.
  destruct (solved_values solver (map declared data) data max_machine_time max_labor_time
                          LpStatusNotSolved Hw eq_refl A1 Hst1) as [_ Hobj1].
  fold out1 in Hobj1. fold h1 in Hobj1.
  assert (Hf2 : feasible h1 (built_model "OBJ" data mm' ml' (out_status out1))
                         (reading (out_values out1))).
  { apply (feasible_static (map declared data) h1); [symmetry; exact E1|].
    apply feasible_built. apply feasible_built in Hf1.
    destruct Hf1 as [Hb [Hm Hl]]. split; [exact Hb|]. lia. }
  assert (Hst2 : out_status out2 = LpStatusOptimal)
    by exact (answers_feasible solver _ _ A2 _ Hf2).
  split; [exact Hst2|].
  destruct (answers_optimal solver _ _ A2 Hst2) as [_ [_ Hmax]]. fold out2 in Hmax.
  destruct (solved_values solver h1 data mm' ml' (out_status out1) Hw E1 A2 Hst2)
    as [_ Hobj2].
  fold out2 in Hobj2.
  exists (weighted_sum Profit (reading (out_values out1)) 0 data),
         (weighted_sum Profit (reading (out_values out2)) 0 data).
  rewrite !get_results_total, Hobj1, Hobj2.
  split; [reflexivity|]. split; [reflexivity|].
  specialize (Hmax _ Hf2). rewrite !score_built in Hmax. exact Hmax.
Qed.

Lemma budget_monotone_witness :
  exists nb1 nb2 r1 r2 p1 p2,
    run (exhaustive true) juice_data 240 220 = Ok nb1
    /\ resolve (exhaustive true) juice_data "Machine_Time" 260 nb1 = Ok nb2
    /\ results nb2 = Some r1 /\ sensitivity_results nb2 = Some r2
    /\ status (model (session nb1)) = LpStatusOptimal
    /\ status (model (session nb2)) = LpStatusOptimal
    /\ Py.get r1 "Total Profit" = Some (Some p1)
    /\ Py.get r2 "Total Profit" = Some (Some p2)
    /\ p1 <= p2.
Proof.
  destruct (budget_monotone (exhaustive true) juice_data 240 220 "Machine_Time" 260)
    as [nb1 [nb2 [r1 [r2 [Hrun [Hres [H1 [H2 H]]]]]]]].
  - discriminate.
  - exact well_named_juice.
  - exact profitable_juice.
  - exact in_double_juice.
  - exact (contract_answers_table _ _ _ _ (exhaustive_contract true)).
  - left. split; [reflexivity|]. split; [lia|].
    exact (contract_answers_table _ _ _ _ (exhaustive_contract true)).
  - assert (Hst : status (model (session nb1)) = LpStatusOptimal).
    { rewrite (run_juice_240 _ (exhaustive_contract true)) in Hrun.
      inversion Hrun. reflexivity. }
    destruct (H Hst) as [Hst2 [p1 [p2 Hp]]].
    exists nb1, nb2, r1, r2, p1, p2. tauto.
Defined.

(** ** The objective value is computed from the quantities *)

(** X3.  After cells 5 to 11 with any solver, on a well named table with at
    least one row, some profit that is not zero and no product named 'Total
    Profit': when [results] holds a quantity for every product whose profit
    is not zero, and double precision holds their sum, 'Total Profit' is the
    sum of profit times quantity over the quantities of [results]; and when
    it holds [None] for such a product, 'Total Profit' is [None]. *)
Theorem total_profit_consistent (solver : Solver) (data : DataFrame)
                                (max_machine_time max_labor_time : Z) :
  data <> [] -> well_named data -> profitable data ->
  ~ In "Total Profit" (index data) ->
  exists nb res,
    run solver data max_machine_time max_labor_time = Ok nb
    /\ results nb = Some res
    /\ (forall q,
          (forall k r, nth_error data k = Some r -> Profit r <> 0 ->
                       Py.get res (Product r) = Some (Some (q k))) ->
          in_double (magnitude Profit q 0 data) ->
          Py.get res "Total Profit" = Some (Some (weighted_sum Profit q 0 data)))
    /\ (forall k r, nth_error data k = Some r -> Profit r <> 0 ->
                    Py.get res (Product r) = Some None ->
                    Py.get res "Total Profit" = Some None).
Proof.
  intros Hne Hw Hp Hnot. pose proof (well_named_index data Hw) as Hnd.
  eexists. eexists. split; [exact (run_explicit solver data _ _ Hne Hw Hp)|].
  split; [reflexivity|]. split.
  - intros q Hq _. rewrite get_results_total. f_equal.
    rewrite <- eval_affine_sum. apply value_expr_some.
    intros x Hx. apply vars_affine_sum in Hx. destruct Hx as [r [Hk Hc]].
    specialize (Hq x r Hk Hc). rewrite (get_results_row _ data _ x r Hnd Hnot Hk) in Hq.
    injection Hq as Hv. exact Hv.
  - intros k r Hk Hc Hq. rewrite get_results_total. f_equal.
    rewrite (get_results_row _ data _ k r Hnd Hnot Hk) in Hq. injection Hq as Hv.
    apply (value_expr_none _ _ k); [|exact Hv].
    apply vars_affine_sum. exists r. tauto.
Qed.

Lemma total_profit_consistent_witness :
  exists nb res,
    run (exhaustive true) [mkProduct "A" 3 1 1 2] 10 10 = Ok nb
    /\ results nb = Some res
    /\ Py.get res "A" = Some (Some 2)
    /\ in_double (magnitude Profit (fun _ => 2) 0 [mkProduct "A" 3 1 1 2])
    /\ Py.get res "Total Profit" = Some (Some (3 * 2 + 0)).
Proof.
  destruct (total_profit_consistent (exhaustive true) [mkProduct "A" 3 1 1 2] 10 10)
    as [nb [res [Hrun [Hres [Hsome _]]]]].
  - discriminate.
  - literal_names.
  - exists (mkProduct "A" 3 1 1 2). split; [simpl; tauto|discriminate].
  - absent_name.
  - assert (Hnb : Ok nb = run (exhaustive true) [mkProduct "A" 3 1 1 2] 10 10)
      by (symmetry; exact Hrun).
    vm_compute in Hnb. inversion Hnb. subst nb. clear Hnb.
    cbn [results] in Hres. inversion Hres. subst res. clear Hres.
    assert (Hex : in_double (magnitude Profit (fun _ => 2) 0 [mkProduct "A" 3 1 1 2]))
      by (unfold in_double; cbn; lia).
    eexists. eexists. split; [exact Hrun|]. split; [reflexivity|].
    split; [reflexivity|]. split; [exact Hex|].
    apply (Hsome (fun _ => 2)); [|exact Hex]. intros [|k] r Hk _; simpl in Hk.
    + inversion Hk. reflexivity.
    + destruct k; discriminate.
Defined.

(** ** A constant objective *)

(** X15.  On a well named table with at least one row whose profits are all
    zero, cells 5 to 11 complete with any solver and the entry 'Total
    Profit' of [results] is [None], not 0: the objective is a constant, the
    solve leaves the dummy variable of PuLP in it, and that variable has no
    value. *)
Theorem zero_profit_results (solver : Solver) (data : DataFrame)
                            (max_machine_time max_labor_time : Z) :
  data <> [] -> well_named data -> (forall r, In r data -> Profit r = 0) ->
  exists nb res,
    run solver data max_machine_time max_labor_time = Ok nb
    /\ results nb = Some res
    /\ Py.keys res = (if existsb (String.eqb "Total Profit") (index data)
                      then index data
                      else index data ++ ["Total Profit"])
    /\ Py.get res "Total Profit" = Some None.
Proof.
  intros Hne Hw Hz. pose proof (well_named_index data Hw) as Hnd.
  eexists. eexists. split.
  - unfold run. rewrite (build_explicit data _ _ Hne Hnd).
    cbn [bind]. unfold cell11, start. cbn [session stdout sensitivity_results app].
    unfold built. rewrite (solve_constant solver data _ _ _ _ _ _ Hw Hz eq_refl).
    cbn [bind].
    rewrite (extract_spec data _ (mkExpr [(List.length data, 0)] 0 (Some "OBJ")) Hnd);
      reflexivity.
  - cbn [results session heap]. split; [reflexivity|].
    assert (Hlen : List.length
                     (assignVarsVals
                        (out_values
                           (solver (map declared data ++ [dummy_variable])
                                   (constant_model 1 data max_machine_time max_labor_time
                                                   LpStatusNotSolved)))
                        (map declared data)) = List.length data).
    { rewrite (static_length _ _ (static_assignVarsVals _ _)). apply length_map. }
    assert (Hv : value_var
                   (assignVarsVals
                      (out_values
                         (solver (map declared data ++ [dummy_variable])
                                 (constant_model 1 data max_machine_time max_labor_time
                                                 LpStatusNotSolved)))
                      (map declared data) ++ [dummy_variable])
                   (List.length data) = None).
    { unfold value_var. rewrite nth_error_app2 by lia.
      rewrite Hlen, Nat.sub_diag. reflexivity. }
    split.
    + rewrite keys_setitem, keys_readings. reflexivity.
    + rewrite get_results_total. f_equal.
      unfold value_expr. cbn [terms constant fold_left fst snd]. rewrite Hv. reflexivity.
Qed.

Lemma zero_profit_results_witness :
  exists nb res,
    run (exhaustive true) [mkProduct "A" 0 1 1 2] 10 10 = Ok nb
    /\ results nb = Some res
    /\ Py.keys res = (if existsb (String.eqb "Total Profit")
                                 (index [mkProduct "A" 0 1 1 2])
                      then index [mkProduct "A" 0 1 1 2]
                      else index [mkProduct "A" 0 1 1 2] ++ ["Total Profit"])
    /\ Py.get res "Total Profit" = Some None.
Proof.
  apply (zero_profit_results (exhaustive true) [mkProduct "A" 0 1 1 2] 10 10).
  - discriminate.
  - literal_names.
  - intros r [<-|[]]. reflexivity.
Defined.

(** ** The chart *)

Lemma nth_error_removelast {A : Type} (l : list A) (k : nat) :
  (S k < List.length l)%nat -> nth_error (removelast l) k = nth_error l k.
Proof.
  revert k; induction l as [|a l IH]; intros k H; [simpl in H; lia|].
  destruct l as [|b l]; [simpl in H; lia|].
  change (removelast (a :: b :: l)) with (a :: removelast (b :: l)).
  destruct k as [|k]; [reflexivity|].
  change (nth_error (removelast (b :: l)) k = nth_error (b :: l) k).
  apply IH. simpl in *. lia.
Qed.

Lemma last_not_in_removelast {A : Type} (l : list A) (d : A) :
  NoDup l -> l <> [] -> ~ In (last l d) (removelast l).
Proof.
  intros Hnd Hne Hin. rewrite (app_removelast_last d Hne) in Hnd.
  apply NoDup_remove_2 in Hnd. rewrite app_nil_r in Hnd. tauto.
Qed.

Lemma values_setitem_at {V : Type} (d : Py.dict V) (key : string) (v : V) (k : nat) :
  NoDup (Py.keys d) -> nth_error (Py.keys d) k = Some key ->
  nth_error (Py.values (Py.setitem d key v)) k = Some v.
Proof.
  revert k; induction d as [|[k0 v0] d IH]; intros k Hnd Hk; [destruct k; discriminate|].
  simpl in Hnd. inversion_clear Hnd as [|? ? Hk0 Hd].
  cbn [Py.setitem]. destruct k as [|k]; simpl in Hk.
  - inversion Hk. subst k0. rewrite String.eqb_refl. reflexivity.
  - destruct (String.eqb k0 key) eqn:E.
    + apply String.eqb_eq in E. subst k0. exfalso. apply Hk0.
      exact (nth_error_In _ _ Hk).
    + simpl. exact (IH k Hd Hk).
Qed.

(** X1.  After cells 5 to 11 with any solver, on a well named table with at
    least one row and no product named 'Total Profit', the chart of cell 13
    has one bar per product, in the order of the table: the label of the
    bar number [k] is the name of the row number [k] and its height is the
    entry of that product in [results]; the objective value is not
    drawn. *)
Theorem chart_products (solver : Solver) (data : DataFrame)
                       (max_machine_time max_labor_time : Z) :
  data <> [] -> well_named data -> ~ In "Total Profit" (index data) ->
  exists nb res,
    run solver data max_machine_time max_labor_time = Ok nb
    /\ results nb = Some res
    /\ fst (cell13 res) = index data
    /\ List.length (snd (cell13 res)) = List.length data
    /\ (forall k r, nth_error data k = Some r ->
          exists v, nth_error (snd (cell13 res)) k = Some v
                    /\ Py.get res (Product r) = Some v).
Proof.
  intros Hne Hw Hnot. pose proof (well_named_index data Hw) as Hnd.
  destruct (run_reachable solver data max_machine_time max_labor_time Hne Hw)
    as [s [e [_ [_ Hrun]]]].
  eexists. eexists. split; [exact Hrun|].
  split; [reflexivity|].
  set (h := heap s).
  set (o := value_expr h e).
  assert (Hres : Py.setitem (readings h 0 data) "Total Profit" o
                 = readings h 0 data ++ [("Total Profit", o)]).
  { apply setitem_fresh. apply get_None_keys. rewrite keys_readings. exact Hnot. }
  unfold cell13. cbn [fst snd]. rewrite Hres. unfold Py.keys, Py.values.
  rewrite !map_app. cbn [map fst snd]. rewrite !removelast_last.
  fold (Py.keys (readings h 0 data)). fold (Py.values (readings h 0 data)).
  rewrite keys_readings, values_readings.
  split; [reflexivity|]. split; [rewrite length_map, length_seq; reflexivity|].
  intros k r Hk. exists (value_var h k). split.
  - rewrite nth_error_map.
    assert (Hlt : (k < List.length data)%nat)
      by (apply nth_error_Some; rewrite Hk; discriminate).
    rewrite (nth_error_nth' _ 0%nat) by (rewrite length_seq; exact Hlt).
    rewrite seq_nth by exact Hlt. reflexivity.
  - rewrite get_app, (get_readings h data 0 k r Hnd Hk). reflexivity.
Qed.

Lemma chart_products_witness :
  exists nb res,
    run (exhaustive true) [mkProduct "A" 3 1 1 2] 10 10 = Ok nb
    /\ results nb = Some res
    /\ fst (cell13 res) = index [mkProduct "A" 3 1 1 2]
    /\ List.length (snd (cell13 res)) = List.length [mkProduct "A" 3 1 1 2]
    /\ (forall k r, nth_error [mkProduct "A" 3 1 1 2] k = Some r ->
          exists v, nth_error (snd (cell13 res)) k = Some v
                    /\ Py.get res (Product r) = Some v).
Proof.
  apply (chart_products (exhaustive true) [mkProduct "A" 3 1 1 2] 10 10).
  - discriminate.
  - literal_names.
  - absent_name.
Defined.

(** X2.  With a product named 'Total Profit' in such a table the chart
    loses the last product of the table: its labels are the names of the
    table without the last one, so the last product has no bar; and when
    'Total Profit' is not that last product, the bar under its name has the
    objective value for its height, not the quantity of the product. *)
Theorem chart_drops_last (solver : Solver) (data : DataFrame)
                         (max_machine_time max_labor_time : Z) :
  data <> [] -> well_named data -> In "Total Profit" (index data) ->
  exists nb res e,
    run solver data max_machine_time max_labor_time = Ok nb
    /\ results nb = Some res
    /\ objective (model (session nb)) = Some e
    /\ fst (cell13 res) = removelast (index data)
    /\ ~ In (last (index data) "") (fst (cell13 res))
    /\ (forall k, nth_error (index data) k = Some "Total Profit" ->
                  (S k < List.length data)%nat ->
                  nth_error (snd (cell13 res)) k
                  = Some (value_expr (heap (session nb)) e)).
Proof.
  intros Hne Hw Hin. pose proof (well_named_index data Hw) as Hnd.
  destruct (run_reachable solver data max_machine_time max_labor_time Hne Hw)
    as [s [e [_ [He Hrun]]]].
  eexists. eexists. exists e. split; [exact Hrun|].
  split; [reflexivity|]. split; [exact He|].
  cbn [session heap].
  set (h := heap s).
  set (o := value_expr h e).
  assert (Hkeys : Py.keys (Py.setitem (readings h 0 data) "Total Profit" o) = index data).
  { rewrite keys_setitem, keys_readings.
    assert (Ht : existsb (String.eqb "Total Profit") (index data) = true).
    { apply existsb_exists. exists "Total Profit". split; [exact Hin|reflexivity]. }
    rewrite Ht. reflexivity. }
  unfold cell13. cbn [fst snd]. rewrite Hkeys.
  split; [reflexivity|]. split.
  - apply last_not_in_removelast; [exact Hnd|].
    intros E. apply Hne. destruct data; [reflexivity|discriminate E].
  - intros k Hk Hlt.
    rewrite nth_error_removelast.
    + apply values_setitem_at; rewrite keys_readings; assumption.
    + unfold Py.values. rewrite length_map.
      rewrite <- (length_map fst (Py.setitem (readings h 0 data) "Total Profit" o)).
      fold (Py.keys (Py.setitem (readings h 0 data) "Total Profit" o)).
      rewrite Hkeys. unfold index. rewrite length_map. exact Hlt.
Qed.

Lemma chart_drops_last_witness :
  exists nb res e,
    run (exhaustive true) [mkProduct "Total Profit" 3 1 1 2; mkProduct "Apple" 1 1 1 2]
        10 10 = Ok nb
    /\ results nb = Some res
    /\ objective (model (session nb)) = Some e
    /\ fst (cell13 res) = ["Total Profit"]
    /\ ~ In "Apple" (fst (cell13 res))
    /\ nth_error (snd (cell13 res)) 0 = Some (value_expr (heap (session nb)) e).
Proof.
  destruct (chart_drops_last (exhaustive true)
              [mkProduct "Total Profit" 3 1 1 2; mkProduct "Apple" 1 1 1 2] 10 10)
    as [nb [res [e [Hrun [Hres [He [Hl [Hn Hbar]]]]]]]].
  - discriminate.
  - literal_names.
  - simpl. tauto.
  - exists nb, res, e. repeat (split; [assumption|]).
    apply (Hbar 0%nat); [reflexivity|simpl; lia].
Defined.

(** ** The empty table *)

(** X12.  On the empty table with budgets that are not negative, cells 5 to
    11 complete with any solver: the model has no constraint, [juice_vars]
    is empty, [results] holds the single entry 'Total Profit' with the value
    [None] whatever the solver reports (the objective is a constant, in
    which the solve leaves the dummy variable of PuLP, without a value), and
    the chart that cell 13 draws from [results] has no bar. *)
Theorem empty_table_results (solver : Solver) (max_machine_time max_labor_time : Z) :
  0 <= max_machine_time -> 0 <= max_labor_time ->
  exists nb res,
    run solver [] max_machine_time max_labor_time = Ok nb
    /\ juice_vars (session nb) = []
    /\ constraints (model (session nb)) = []
    /\ results nb = Some res
    /\ res = [("Total Profit", None)]
    /\ cell13 res = ([], []).
Proof.
  intros Hm Hl. apply Z.leb_le in Hm, Hl.
  unfold run, build, cell9.
  cbn [cell5 cell7 index map fold_left fst snd weighted mapM bind sum iadd
       juice_vars model heap le].
  rewrite Hm. cbn [iadd bind]. rewrite Hl. cbn [iadd bind].
  eexists. eexists. split; [reflexivity|]. repeat split.
Qed.

Lemma empty_table_results_witness :
  exists nb res,
    run (exhaustive true) [] 240 220 = Ok nb
    /\ juice_vars (session nb) = []
    /\ constraints (model (session nb)) = []
    /\ results nb = Some res
    /\ res = [("Total Profit", None)]
    /\ cell13 res = ([], []).
Proof.
  apply (empty_table_results (exhaustive true) 240 220); lia.
Defined.

(** ** Solving again without a change *)

(** X13.  For a well named table with at least one row, some profit that is
    not zero and sums that double precision holds, and a solver that answers
    the problems of the table as the contract asks: setting the right-hand
    side of "Machine_Time" (or of "Labor_Time") to the budget the model was
    built with and solving again completes, and when the first solve was
    Optimal the second is Optimal with the same 'Total Profit'. *)
Theorem same_budget_same_profit (solver : Solver) (data : DataFrame)
                                (max_machine_time max_labor_time : Z) (n : string)
                                (rhs : Z) :
  data <> [] -> well_named data -> profitable data ->
  in_double (magnitude_caps Profit data) ->
  answers_table solver data max_machine_time max_labor_time ->
  (n = "Machine_Time" /\ rhs = max_machine_time)
  \/ (n = "Labor_Time" /\ rhs = max_labor_time) ->
  exists nb1 nb2 r1 r2,
    run solver data max_machine_time max_labor_time = Ok nb1
    /\ resolve solver data n rhs nb1 = Ok nb2
    /\ results nb2 = Some r1 /\ sensitivity_results nb2 = Some r2
    /\ constraints (model (session nb2)) = constraints (model (session nb1))
    /\ (status (model (session nb1)) = LpStatusOptimal ->
        status (model (session nb2)) = LpStatusOptimal
        /\ exists p,
             Py.get r1 "Total Profit" = Some (Some p)
             /\ Py.get r2 "Total Profit" = Some (Some p)).
Proof.
  intros Hne Hw Hp _ C Hn.
  assert (Hset : forall h st jv,
            setConstraintBound
              (mkSession h (built_model "OBJ" data max_machine_time max_labor_time st) jv)
              n rhs
            = (mkSession h (built_model "OBJ" data max_machine_time max_labor_time st) jv,
               Ok tt)).
  { destruct Hn as [[-> ->]|[-> ->]]; intros h st jv.
    - apply setConstraintBound_machine.
    - apply setConstraintBound_labor. }
  eexists. eexists. eexists. eexists.
  split; [exact (run_explicit solver data _ _ Hne Hw Hp)|].
  split; [exact (resolve_built solver data n rhs _ _ _ _ _ _ _ _ _ Hw Hp
                               (static_assignVarsVals _ _) (Hset _ _))|].
  cbn [results sensitivity_results session model built_model status constraints].
  split; [reflexivity|]. split; [reflexivity|]. split; [reflexivity|].
  set (out1 := solver (map declared data)
                      (built_model "OBJ" data max_machine_time max_labor_time
                                   LpStatusNotSolved)).
  set (h1 := assignVarsVals (out_values out1) (map declared data)).
  set (out2 := solver h1 (built_model "OBJ" data max_machine_time max_labor_time
                                      (out_status out1))).
  intros Hst1.
  pose proof (C (map declared data) LpStatusNotSolved eq_refl) as A1.
  assert (E1 : static h1 = static (map declared data))
    by apply static_assignVarsVals.
  pose proof (C h1 (out_status out1) E1) as A2.
  assert (Hiff : forall f,
            feasible (map declared data)
                     (built_model "OBJ" data max_machine_time max_labor_time
                                  LpStatusNotSolved) f
            <-> feasible h1 (built_model "OBJ" data max_machine_time max_labor_time
                                         (out_status out1)) f).
  { intros f. rewrite (feasible_static h1 (map declared data)) by exact E1.
    rewrite !feasible_built. tauto. }
  destruct (answers_optimal solver _ _ A1 Hst1) as [_ [Hf1 Hmax1]].
  fold out1 in Hf1, Hmax1.
  assert (Hst2 : out_status out2 = LpStatusOptimal)
    by exact (answers_feasible solver _ _ A2 _ (proj1 (Hiff _) Hf1)).
  split; [exact Hst2|].
  destruct (answers_optimal solver _ _ A2 Hst2) as [_ [Hf2 Hmax2]].
  fold out2 in Hf2, Hmax2.
  destruct (solved_values solver (map declared data) data max_machine_time max_labor_time
                          LpStatusNotSolved Hw eq_refl A1 Hst1) as [_ Hobj1].
  destruct (solved_values solver h1 data max_machine_time max_labor_time (out_status out1)
                          Hw E1 A2 Hst2) as [_ Hobj2].
  fold out1 in Hobj1. fold h1 in Hobj1. fold out2 in Hobj2.
  pose proof (Hmax1 _ (proj2 (Hiff _) Hf2)) as H21.
  pose proof (Hmax2 _ (proj1 (Hiff _) Hf1)) as H12.
  rewrite !score_built in H21, H12.
  exists (weighted_sum Profit (reading (out_values out1)) 0 data).
  rewrite !get_results_total, Hobj1, Hobj2.
  split; [reflexivity|]. do 2 f_equal. lia.
Qed.

Lemma same_budget_same_profit_witness :
  exists nb1 nb2 r1 r2 p,
    run (exhaustive true) juice_data 240 220 = Ok nb1
    /\ resolve (exhaustive true) juice_data "Machine_Time" 240 nb1 = Ok nb2
    /\ results nb2 = Some r1 /\ sensitivity_results nb2 = Some r2
    /\ Py.get r1 "Total Profit" = Some (Some p)
    /\ Py.get r2 "Total Profit" = Some (Some p).
Proof.
  destruct (same_budget_same_profit (exhaustive true) juice_data 240 220 "Machine_Time" 240)
    as [nb1 [nb2 [r1 [r2 [Hrun [Hres [H1 [H2 [_ H]]]]]]]]].
  - discriminate.
  - exact well_named_juice.
  - exact profitable_juice.
  - exact in_double_juice.
  - exact (contract_answers_table _ _ _ _ (exhaustive_contract true)).
  - left. split; reflexivity.
  - assert (Hst : status (model (session nb1)) = LpStatusOptimal).
    { rewrite (run_juice_240 _ (exhaustive_contract true)) in Hrun.
      inversion Hrun. reflexivity. }
    destruct (H Hst) as [_ [p Hp]].
    exists nb1, nb2, r1, r2, p. tauto.
Defined.
